(** * PANDA POS: order composition and settlement

    A shallow embedding of the cart, pricing and settlement logic of
    [src/components/POS.tsx], together with the part of the Supabase
    store it talks to: the tables of [DATABASE_SETUP.md], their foreign
    keys and the DECIMAL(10,2) columns of [orders].

    - JavaScript numbers that hold money are binary64 floats
      ([PrimFloat.float]); quantities are integer-valued numbers and are
      kept in [Z] (they stay inside the INTEGER columns of the store;
      a count that no stock bounds stops at 2^53, see [increment]).
    - React state ([cart], [tableName], [editingTabId], ...) is passed
      explicitly; every handler returns the new component state, the new
      store and the effects it raised (alerts, printed proformas).
    - UUIDs are strings; the identifier and the clock reading the store
      draws for a new row are arguments of the handlers. *)

From Stdlib Require Import ZArith List String Bool Lia Permutation.
From Stdlib Require Import QArith Qround Floats.
Import ListNotations.

Local Open Scope Z_scope.

(** ** Data model (utils/supabase/client.ts) *)

Definition uuid := string.

(** [!s] for a string. *)
Definition is_empty_string (s : string) : bool :=
  match s with EmptyString => true | _ => false end.

Inductive Role := admin | bartender | waitress.

Record User := mkUser {
  user_id : uuid;
  user_name : string;
  user_role : Role
}.

Record Item := mkItem {
  item_id : uuid;
  item_name : string;
  item_quantity : Z;
  item_barcode : option string;
  item_price : float;
  item_category : string;
  low_stock_threshold : Z
}.

Record Shot := mkShot {
  shot_id : uuid;
  shot_name : string;
  shot_price : float
}.

Record Special := mkSpecial {
  special_id : uuid;
  special_name : string;
  special_price : float
}.

(** The union [Item | Shot | Special] held by a cart line. *)
Inductive Product :=
| PItem (i : Item)
| PShot (s : Shot)
| PSpecial (s : Special).

Definition product_id (p : Product) : uuid :=
  match p with
  | PItem i => item_id i
  | PShot s => shot_id s
  | PSpecial s => special_id s
  end.

Definition product_name (p : Product) : string :=
  match p with
  | PItem i => item_name i
  | PShot s => shot_name s
  | PSpecial s => special_name s
  end.

Definition product_price (p : Product) : float :=
  match p with
  | PItem i => item_price i
  | PShot s => shot_price s
  | PSpecial s => special_price s
  end.

(** [(p as Item).quantity]: only an [Item] has the field; on a shot or a
    special the read gives [undefined], here [None]. *)
Definition product_quantity (p : Product) : option Z :=
  match p with
  | PItem i => Some (item_quantity i)
  | _ => None
  end.

Record CartItem := mkCartItem {
  item : Product;
  quantity : Z;
  isShot : bool;
  isSpecial : bool
}.

Definition Cart := list CartItem.

Definition set_quantity (ci : CartItem) (q : Z) : CartItem :=
  mkCartItem (item ci) q (isShot ci) (isSpecial ci).

(** ** Array helpers *)

(** [Array.prototype.findIndex]; [None] stands for -1. *)
Fixpoint findIndex {A} (p : A -> bool) (l : list A) : option nat :=
  match l with
  | [] => None
  | x :: r => if p x then Some O else option_map S (findIndex p r)
  end.

(** [a[i] = f(a[i])] on a copy of the array. *)
Fixpoint update_at {A} (i : nat) (f : A -> A) (l : list A) : list A :=
  match l, i with
  | [], _ => []
  | x :: r, O => f x :: r
  | x :: r, S j => x :: update_at j f r
  end.

(** ** Cart operations *)

Definition OutOfStock : string := "Item out of stock!"%string.
Definition InsufficientStock : string := "Not enough stock available!"%string.

(** [addToCart]: the new cart and the alerts raised.  The source
    increments the line object in place, on a copy of the array; the
    embedding returns the cart as it reads afterwards.  [findIndex]
    returns an index of the array, so the [None] case of [nth_error] is
    never reached. *)
Definition addToCart (it : Item) (cart : Cart) : Cart * list string :=
  if item_quantity it <=? 0 then (cart, [OutOfStock])
  else
    match findIndex (fun ci => product_id (item ci) =? item_id it)%string cart with
    | Some existingIndex =>
        match nth_error cart existingIndex with
        | Some ci =>
            if quantity ci <? item_quantity it
            then (update_at existingIndex (fun c => set_quantity c (quantity c + 1)) cart, [])
            else (cart, [InsufficientStock])
        | None => (cart, [])
        end
    | None => (cart ++ [mkCartItem (PItem it) 1 false false], [])
    end.

(** [quantity++] on a line that no stock holds back.  A JavaScript number
    counts by one up to 2^53; the next step rounds back to 2^53, and the
    count stays there.  (The line of a stocked item is held below its
    stock, an INTEGER: there [quantity++] is plain [+ 1].) *)
Definition increment (q : Z) : Z := if q <? 2 ^ 53 then q + 1 else q.

Definition addShotToCart (s : Shot) (cart : Cart) : Cart :=
  match findIndex (fun ci => (product_id (item ci) =? shot_id s)%string && isShot ci) cart with
  | Some existingIndex =>
      update_at existingIndex (fun c => set_quantity c (increment (quantity c))) cart
  | None => cart ++ [mkCartItem (PShot s) 1 true false]
  end.

Definition addSpecialToCart (s : Special) (cart : Cart) : Cart :=
  match findIndex (fun ci => (product_id (item ci) =? special_id s)%string && isSpecial ci) cart with
  | Some existingIndex =>
      update_at existingIndex (fun c => set_quantity c (increment (quantity c))) cart
  | None => cart ++ [mkCartItem (PSpecial s) 1 false true]
  end.

Definition line_matches (itemId : uuid) (shot special : bool) (ci : CartItem) : bool :=
  (product_id (item ci) =? itemId)%string
  && Bool.eqb (isShot ci) shot && Bool.eqb (isSpecial ci) special.

(** The callback of [cart.map] in [updateQuantity]: [None] is the [null]
    that [filter(Boolean)] drops. *)
Definition update_line (itemId : uuid) (change : Z) (shot special : bool)
    (ci : CartItem) : option CartItem * list string :=
  if line_matches itemId shot special ci then
    let newQty := quantity ci + change in
    if newQty <=? 0 then (None, [])
    else if shot || special then (Some (set_quantity ci newQty), [])
    else
      match product_quantity (item ci) with
      | Some stock =>
          if newQty >? stock then (Some ci, [InsufficientStock])
          else (Some (set_quantity ci newQty), [])
      | None => (Some (set_quantity ci newQty), [])  (* [newQty > undefined] is false *)
      end
  else (Some ci, []).

Fixpoint updateQuantity (itemId : uuid) (change : Z) (shot special : bool)
    (cart : Cart) : Cart * list string :=
  match cart with
  | [] => ([], [])
  | ci :: rest =>
      let '(r, a) := update_line itemId change shot special ci in
      let '(rest', a') := updateQuantity itemId change shot special rest in
      (match r with Some c => c :: rest' | None => rest' end, a ++ a')
  end.

Definition removeFromCart (itemId : uuid) (shot special : bool) (cart : Cart) : Cart :=
  filter (fun ci => negb (line_matches itemId shot special ci)) cart.

(** *** Sequences of stock-checked operations on one item *)

Inductive CartOp :=
| OpAdd                    (* [addToCart(item)] *)
| OpChange (delta : Z).    (* [updateQuantity(item.id, delta, false, false)] *)

Definition cart_step (it : Item) (op : CartOp) (cart : Cart) : Cart * list string :=
  match op with
  | OpAdd => addToCart it cart
  | OpChange d => updateQuantity (item_id it) d false false cart
  end.

(** The carts reached after each operation of [ops], in order. *)
Fixpoint cart_run (it : Item) (ops : list CartOp) (cart : Cart) : list Cart :=
  match ops with
  | [] => []
  | op :: rest =>
      let cart' := fst (cart_step it op cart) in
      cart' :: cart_run it rest cart'
  end.

(** The line of the stocked item [it] in a cart, if any. *)
Definition item_line (it : Item) (cart : Cart) : option CartItem :=
  find (line_matches (item_id it) false false) cart.

(** Every item-variant line for [id] is within the ceiling [Q]. *)
Definition within_stock (id : uuid) (Q : Z) (cart : Cart) : Prop :=
  forall ci, In ci cart -> line_matches id false false ci = true -> quantity ci <= Q.

(** No line of the cart refers to the identifier [id]. *)
Definition absent (id : uuid) (cart : Cart) : Prop :=
  forall ci, In ci cart -> (product_id (item ci) =? id)%string = false.

(** The line [addToCart] creates for [it], at quantity [q]. *)
Definition own_line (it : Item) (q : Z) : CartItem :=
  mkCartItem (PItem it) q false false.

(** A cart in which the stocked item [it] has at most one line, drawn from
    [it] itself and holding between 1 and its stock; the other lines are
    arbitrary lines of other products. *)
Inductive tracks (it : Item) : Cart -> Prop :=
| tracks_absent cart : absent (item_id it) cart -> tracks it cart
| tracks_line l1 q l2 :
    absent (item_id it) l1 -> absent (item_id it) l2 ->
    1 <= q <= item_quantity it ->
    tracks it (l1 ++ own_line it q :: l2).

(** ** Pricing (binary64 arithmetic, as JavaScript numbers) *)

Set Warnings "-inexact-float".

(** The number holding an integer quantity: exact below 2^53 in
    magnitude, which covers the store's INTEGER columns. *)
Definition number_of_Z (z : Z) : float :=
  if z <? 0 then PrimFloat.opp (PrimFloat.of_uint63 (Uint63.of_Z (- z)))
  else PrimFloat.of_uint63 (Uint63.of_Z z).

Definition line_value (ci : CartItem) : float :=
  (product_price (item ci) * number_of_Z (quantity ci))%float.

(** [cart.reduce((sum, ci) => sum + (ci.item.price * ci.quantity), 0)] *)
Definition calculateSubtotal (cart : Cart) : float :=
  fold_left (fun sum ci => (sum + line_value ci)%float) cart 0%float.

Definition is_waitress (r : Role) : bool :=
  match r with waitress => true | _ => false end.

Definition calculateServiceFee (user : User) (cart : Cart) : float :=
  if is_waitress (user_role user) then (calculateSubtotal cart * 0.1)%float else 0%float.

Definition calculateTotal (user : User) (cart : Cart) : float :=
  (calculateSubtotal cart + calculateServiceFee user cart)%float.

Definition calculateVAT (user : User) (cart : Cart) : float :=
  let total := calculateTotal user cart in
  (total - total / 1.15)%float.

(** The page [printProforma] writes: the table name, the staff name, the
    lines and the four amounts.  The template shows neither [orderId]
    nor [isFinal]; the "Last Updated" line is the clock of the browser
    and is left out. *)
Record Proforma := mkProforma {
  pf_table : string;
  pf_staff : string;
  pf_items : Cart;
  pf_subtotal : float;
  pf_serviceFee : float;
  pf_total : float;
  pf_vat : float
}.

Definition unknown_staff : string := "Unknown"%string.

(** [user?.name || 'Unknown'] *)
Definition name_or_unknown (name : string) : string :=
  if is_empty_string name then unknown_staff else name.

(** [printProforma]: the page it computes from the lines it is given.
    The page reaches a window only when the browser opens one, see
    [pages_written]. *)
Definition printProforma (user : User) (orderId : uuid) (table : string)
    (items : Cart) (isFinal : bool) : Proforma :=
  let subtotal := fold_left (fun sum ci => (sum + line_value ci)%float) items 0%float in
  let serviceFee := if is_waitress (user_role user) then (subtotal * 0.1)%float else 0%float in
  let total := (subtotal + serviceFee)%float in
  let vat := (total - total / 1.15)%float in
  mkProforma table (name_or_unknown (user_name user)) items subtotal serviceFee total vat.

(** [x.toFixed(2)], as the signed number of hundredths it prints: the
    integer [n] with [n / 100] nearest to [x], the larger one on a tie,
    computed on the exact value [m * 2^e] of the float.  [None] for NaN,
    the infinities and magnitudes from 1e21 on, which print no decimal. *)
Definition toFixed2 (x : float) : option Z :=
  match Prim2SF x with
  | S754_zero _ => Some 0
  | S754_finite s m e =>
      let n := if 0 <=? e then 100 * Zpos m * 2 ^ e
               else (200 * Zpos m + 2 ^ (- e)) / 2 ^ (1 - e) in
      if 10 ^ 23 <=? n then None
      else Some (if s then - n else n)
  | _ => None
  end.

(** The exact value of a finite float, as a rational. *)
Definition exact_value (x : float) : option Q :=
  match Prim2SF x with
  | S754_zero _ => Some 0%Q
  | S754_finite s m e =>
      let v := if 0 <=? e then inject_Z (Zpos m * 2 ^ e)
               else (Zpos m # Z.to_pos (2 ^ (- e)))%Q in
      Some (if s then Qopp v else v)
  | _ => None
  end.

(** *** Computations that do not round *)

(** The product [price * quantity] of a line is the exact product. *)
Definition exact_product (ci : CartItem) : Prop :=
  match exact_value (product_price (item ci)), exact_value (line_value ci) with
  | Some p, Some y => (y == p * inject_Z (quantity ci))%Q
  | _, _ => False
  end.

(** The sum [a + b] is the exact sum. *)
Definition exact_sum (a b : float) : Prop :=
  match exact_value a, exact_value b, exact_value (a + b)%float with
  | Some x, Some y, Some z => (z == x + y)%Q
  | _, _, _ => False
  end.

(** No step of the reduction of [calculateSubtotal], started at [sum],
    rounds. *)
Fixpoint computes_exactly (sum : float) (cart : Cart) : Prop :=
  match cart with
  | [] => True
  | ci :: rest =>
      exact_product ci /\ exact_sum sum (line_value ci)
      /\ computes_exactly (sum + line_value ci)%float rest
  end.

Definition exact_price (ci : CartItem) : Q :=
  match exact_value (product_price (item ci)) with
  | Some p => p
  | None => 0%Q
  end.

(** The sum of quantity times unit price over the lines, in exact
    arithmetic. *)
Fixpoint exact_subtotal (cart : Cart) : Q :=
  match cart with
  | [] => 0%Q
  | ci :: rest => (exact_price ci * inject_Z (quantity ci) + exact_subtotal rest)%Q
  end.

(** ** Numbers sent to the store

    A number goes to the store as JSON text and comes to rest in a
    DECIMAL(10,2) column. *)

Definition pow2 (e : Z) : Q :=
  if 0 <=? e then inject_Z (2 ^ e) else (1 # Z.to_pos (2 ^ (- e)))%Q.

Definition pow10 (n : Z) : Q :=
  if 0 <=? n then inject_Z (10 ^ n) else (1 # Z.to_pos (10 ^ (- n)))%Q.

Definition Qlt_bool (a b : Q) : bool := negb (Qle_bool b a).

(** Is the positive float [m * 2^e] the Number value for the real [q]?
    Round to nearest, ties to even: [q] lies between the midpoints to
    the two neighbours of the float, a midpoint counting when [m] is
    even.  At a power of two the neighbour below is half as far. *)
Definition rounds_to (m : positive) (e : Z) (q : Q) : bool :=
  let v := (inject_Z (Zpos m) * pow2 e)%Q in
  let up := (pow2 e / 2)%Q in
  let down := if (Zpos m =? 2 ^ 52) && (-1074 <? e) then (pow2 e / 4)%Q else up in
  if Z.even (Zpos m)
  then Qle_bool (v - down) q && Qle_bool q (v + up)
  else Qlt_bool (v - down) q && Qlt_bool q (v + up).

(** The [n] with 10^(n-1) <= v < 10^n, searched from [n]. *)
Fixpoint decade (fuel : nat) (n : Z) (v : Q) : Z :=
  match fuel with
  | O => n
  | S f =>
      if Qle_bool (pow10 n) v then decade f (n + 1) v
      else if Qle_bool (pow10 (n - 1)) v then n
      else decade f (n - 1) v
  end.

(** The decimal s * 10^(n-k) with [k] digits that reads back as the
    float, if there is one: the nearer of the two around [v], the even
    [s] when both are as near. *)
Definition nearest_decimal (m : positive) (e : Z) (v : Q) (n k : Z) : option Q :=
  let g := pow10 (n - k) in
  let s := Qfloor (v / g) in
  let below := (inject_Z s * g)%Q in
  let above := (inject_Z (s + 1) * g)%Q in
  match rounds_to m e below, rounds_to m e above with
  | true, true =>
      if Qlt_bool (v - below) (above - v) then Some below
      else if Qlt_bool (above - v) (v - below) then Some above
      else Some (if Z.even s then below else above)
  | true, false => Some below
  | false, true => Some above
  | false, false => None
  end.

(** Number::toString: as few digits as read back as the same float,
    tried from [k] digits on; seventeen always do. *)
Fixpoint shortest_decimal (digits : nat) (m : positive) (e : Z) (v : Q) (n k : Z) : Q :=
  match digits with
  | O => v
  | S d =>
      match nearest_decimal m e v n k with
      | Some q => q
      | None => shortest_decimal d m e v n (k + 1)
      end
  end.

(** [JSON.stringify(x)], as the value of the decimal text; NaN and the
    infinities are written [null], here [None]. *)
Definition json_number (x : float) : option Q :=
  match Prim2SF x with
  | S754_zero _ => Some 0%Q
  | S754_finite s m e =>
      let v := (inject_Z (Zpos m) * pow2 e)%Q in
      let d := shortest_decimal 17 m e v (decade 700 0 v) 1 in
      Some (if s then Qopp d else d)
  | _ => None
  end.

(** A DECIMAL(10,2) column, in hundredths: the decimal received is
    rounded to two places, a half away from zero; a value that needs
    more than eight digits before the point is refused. *)
Definition numeric_10_2 (d : Q) : option Z :=
  let h := if Qle_bool 0 d then Qfloor (d * 100 + (1 # 2))
           else - Qfloor (- d * 100 + (1 # 2)) in
  if Z.abs h <? 10 ^ 10 then Some h else None.

(** The number read back from such a column. *)
Definition number_of_hundredths (h : Z) : float := (number_of_Z h / 100)%float.

(** What a NOT NULL DECIMAL(10,2) column holds once the number [x] is
    written to it, as the number read back; [None] when the store
    refuses the write. *)
Definition decimal_10_2 (x : float) : option float :=
  match json_number x with
  | Some d => option_map number_of_hundredths (numeric_10_2 d)
  | None => None
  end.

(** ** The store (DATABASE_SETUP.md)

    Tables are lists of rows in insertion order.  The constraints the
    handlers can run into are modelled:
    - the three order-line tables declare
      [order_id UUID NOT NULL REFERENCES orders(id) ON DELETE CASCADE]:
      a line is accepted only for an existing order, and deleting an
      order deletes its lines in all three tables;
    - a line refers to its product ([item_id REFERENCES items(id)],
      [shot_id REFERENCES shots(id)], [special_id REFERENCES
      specials(id)]) and to the staff member ([staff_id NOT NULL
      REFERENCES users(id)]): a line for a product or a user the store
      does not hold is refused; an order refers to its staff member in
      the same way;
    - [orders.total] and [orders.service_fee] are NOT NULL DECIMAL(10,2)
      columns: they hold [decimal_10_2] of the number sent.
    The row identifier and [created_at] of a line are drawn by the store
    and never read by the POS; they are left out.  [price_at_time]
    receives the price of a catalog row, itself read from a
    DECIMAL(10,2) column, and [quantity] an integer of the cart: both
    are kept as sent. *)

Inductive Status := pending | paid.
Inductive PaymentMethod := cash | visa | mpesa | ecocash.

Record Order := mkOrder {
  order_id : uuid;
  order_table_name : string;
  order_status : Status;
  order_payment_method : option PaymentMethod;
  order_total : float;
  order_service_fee : float;
  order_created_at : Z;
  order_updated_at : Z;
  order_staff_id : uuid
}.

Record OrderLine := mkOrderLine {
  line_order_id : uuid;
  line_product_id : uuid;   (* item_id, shot_id or special_id *)
  line_staff_id : uuid;
  line_quantity : Z;
  price_at_time : float
}.

(** A row of [users]: the user as the application holds it, and the
    login columns. *)
Record UserRow := mkUserRow {
  row_user : User;
  row_username : string;
  row_pin : string
}.

Record Store := mkStore {
  users : list UserRow;
  items : list Item;
  shots : list Shot;
  specials : list Special;
  orders : list Order;
  order_items : list OrderLine;
  order_shots : list OrderLine;
  order_specials : list OrderLine
}.

Definition status_eqb (a b : Status) : bool :=
  match a, b with
  | pending, pending | paid, paid => true
  | _, _ => false
  end.

Definition order_exists (id : uuid) (db : Store) : bool :=
  existsb (fun o => (order_id o =? id)%string) (orders db).

Definition user_exists (id : uuid) (db : Store) : bool :=
  existsb (fun r => (user_id (row_user r) =? id)%string) (users db).

Definition item_exists (id : uuid) (db : Store) : bool :=
  existsb (fun i => (item_id i =? id)%string) (items db).

Definition shot_exists (id : uuid) (db : Store) : bool :=
  existsb (fun s => (shot_id s =? id)%string) (shots db).

Definition special_exists (id : uuid) (db : Store) : bool :=
  existsb (fun s => (special_id s =? id)%string) (specials db).

Definition of_order (id : uuid) (l : OrderLine) : bool :=
  (line_order_id l =? id)%string.

(** [delete().eq('order_id', id)] on one line table. *)
Definition delete_lines (id : uuid) (tbl : list OrderLine) : list OrderLine :=
  filter (fun l => negb (of_order id l)) tbl.

(** The lines of one order in a line table. *)
Definition lines_of (id : uuid) (tbl : list OrderLine) : list OrderLine :=
  filter (of_order id) tbl.

Definition with_orders (db : Store) (os : list Order) : Store :=
  mkStore (users db) (items db) (shots db) (specials db) os
          (order_items db) (order_shots db) (order_specials db).

Definition with_order_items (db : Store) (ls : list OrderLine) : Store :=
  mkStore (users db) (items db) (shots db) (specials db) (orders db)
          ls (order_shots db) (order_specials db).

Definition with_order_shots (db : Store) (ls : list OrderLine) : Store :=
  mkStore (users db) (items db) (shots db) (specials db) (orders db)
          (order_items db) ls (order_specials db).

Definition with_order_specials (db : Store) (ls : list OrderLine) : Store :=
  mkStore (users db) (items db) (shots db) (specials db) (orders db)
          (order_items db) (order_shots db) ls.

Definition with_items (db : Store) (its : list Item) : Store :=
  mkStore (users db) its (shots db) (specials db) (orders db)
          (order_items db) (order_shots db) (order_specials db).

(** [from('orders').insert(row).select().single()]: the store draws the
    identifier [new_id] and stamps the row with its clock.  The insert
    is an error ([None]) on a clash with an existing primary key, for a
    staff member the store does not hold, and for an amount the column
    refuses; the row stored holds the amounts as the columns round
    them. *)
Definition db_insert_order (new_id : uuid) (now : Z) (table_name : string)
    (st : Status) (pm : option PaymentMethod) (total service_fee : float)
    (staff : uuid) (db : Store) : option (Store * Order) :=
  if order_exists new_id db then None
  else if negb (user_exists staff db) then None
  else
    match decimal_10_2 total, decimal_10_2 service_fee with
    | Some t, Some f =>
        let o := mkOrder new_id table_name st pm t f now now staff in
        Some (with_orders db (orders db ++ [o]), o)
    | _, _ => None
    end.

(** [from('orders').update({table_name, total, service_fee, updated_at}).eq('id', id)]:
    an error ([None]) for an amount the column refuses; an update that
    finds no row is no error. *)
Definition db_update_order (id : uuid) (table_name : string)
    (total service_fee : float) (updated_at : Z) (db : Store) : option Store :=
  match decimal_10_2 total, decimal_10_2 service_fee with
  | Some t, Some f =>
      Some (with_orders db
              (map (fun o =>
                      if (order_id o =? id)%string
                      then mkOrder (order_id o) table_name (order_status o)
                                   (order_payment_method o) t f
                                   (order_created_at o) updated_at (order_staff_id o)
                      else o)
                   (orders db)))
  | _, _ => None
  end.

Definition db_delete_order_items (id : uuid) (db : Store) : Store :=
  with_order_items db (delete_lines id (order_items db)).

Definition db_delete_order_shots (id : uuid) (db : Store) : Store :=
  with_order_shots db (delete_lines id (order_shots db)).

Definition db_delete_order_specials (id : uuid) (db : Store) : Store :=
  with_order_specials db (delete_lines id (order_specials db)).

(** [from('orders').delete().eq('id', id)], with the cascade of the three
    foreign keys. *)
Definition db_delete_order (id : uuid) (db : Store) : Store :=
  mkStore (users db) (items db) (shots db) (specials db)
          (filter (fun o => negb (order_id o =? id)%string) (orders db))
          (delete_lines id (order_items db))
          (delete_lines id (order_shots db))
          (delete_lines id (order_specials db)).

(** Inserts into the line tables.  A line is refused by a foreign key
    when the store holds no such order, no such product or no such
    user; the table is then as before (the POS does not look at the
    error of these inserts). *)
Definition db_insert_order_item (l : OrderLine) (db : Store) : Store :=
  if order_exists (line_order_id l) db && item_exists (line_product_id l) db
     && user_exists (line_staff_id l) db
  then with_order_items db (order_items db ++ [l]) else db.

Definition db_insert_order_shot (l : OrderLine) (db : Store) : Store :=
  if order_exists (line_order_id l) db && shot_exists (line_product_id l) db
     && user_exists (line_staff_id l) db
  then with_order_shots db (order_shots db ++ [l]) else db.

Definition db_insert_order_special (l : OrderLine) (db : Store) : Store :=
  if order_exists (line_order_id l) db && special_exists (line_product_id l) db
     && user_exists (line_staff_id l) db
  then with_order_specials db (order_specials db ++ [l]) else db.

(** [from('items').update({ quantity: q }).eq('id', id)] *)
Definition db_update_item_quantity (id : uuid) (q : Z) (db : Store) : Store :=
  with_items db
    (map (fun i =>
            if (item_id i =? id)%string
            then mkItem (item_id i) (item_name i) q (item_barcode i)
                        (item_price i) (item_category i) (low_stock_threshold i)
            else i)
         (items db)).

(** The stored quantity of an item. *)
Definition stock_of (id : uuid) (db : Store) : option Z :=
  option_map item_quantity (find (fun i => (item_id i =? id)%string) (items db)).

(** ** Component state and effects *)

Inductive OrderType := quick | tab.

Record OpenTab := mkOpenTab {
  tab_id : uuid;
  tab_table_name : string;
  tab_created_at : Z;
  tab_updated_at : Z;
  tab_total : float;
  tab_service_fee : float;
  tab_items : Cart
}.

Record POS := mkPOS {
  pos_cart : Cart;
  pos_tableName : string;
  pos_editingTabId : option uuid;
  pos_orderType : OrderType;
  pos_paymentMethod : PaymentMethod;
  pos_showPayment : bool;
  pos_openTabs : list OpenTab
}.

(** What a handler raises: an alert, or a call of [printProforma] that
    computed the page [p]. *)
Inductive Effect :=
| Alert (msg : string)
| Print (p : Proforma).

(** ** Tab registry *)

Fixpoint filter_map {A B} (f : A -> option B) (l : list A) : list B :=
  match l with
  | [] => []
  | x :: r => match f x with Some y => y :: filter_map f r | None => filter_map f r end
  end.

(** [printProforma] opens a window and writes its page there; when the
    browser refuses the window ([window.open] returns null) it returns
    before writing.  The pages that reach a window, given the browser's
    answer. *)
Definition pages_written (printWindow : bool) (effects : list Effect) : list Proforma :=
  if printWindow
  then filter_map (fun e => match e with Print p => Some p | Alert _ => None end) effects
  else [].

(** The embedded resources [items], [shots] and [specials] of the
    select: the catalog row the line refers to, as it is now.  The NOT NULL references
    of the schema exclude a line without its product; such a row is
    skipped here. *)
Definition hydrate_item (db : Store) (l : OrderLine) : option CartItem :=
  option_map (fun i => mkCartItem (PItem i) (line_quantity l) false false)
    (find (fun i => (item_id i =? line_product_id l)%string) (items db)).

Definition hydrate_shot (db : Store) (l : OrderLine) : option CartItem :=
  option_map (fun s => mkCartItem (PShot s) (line_quantity l) true false)
    (find (fun s => (shot_id s =? line_product_id l)%string) (shots db)).

Definition hydrate_special (db : Store) (l : OrderLine) : option CartItem :=
  option_map (fun s => mkCartItem (PSpecial s) (line_quantity l) false true)
    (find (fun s => (special_id s =? line_product_id l)%string) (specials db)).

Definition open_tab (db : Store) (o : Order) : OpenTab :=
  mkOpenTab (order_id o) (order_table_name o)
    (order_created_at o) (order_updated_at o)
    (order_total o) (order_service_fee o)
    (filter_map (hydrate_item db) (lines_of (order_id o) (order_items db))
     ++ filter_map (hydrate_shot db) (lines_of (order_id o) (order_shots db))
     ++ filter_map (hydrate_special db) (lines_of (order_id o) (order_specials db))).

(** [.order('updated_at', { ascending: false })] *)
Fixpoint insert_by_updated (o : Order) (l : list Order) : list Order :=
  match l with
  | [] => [o]
  | x :: r =>
      if order_updated_at x <=? order_updated_at o then o :: l
      else x :: insert_by_updated o r
  end.

Definition order_by_updated_desc (l : list Order) : list Order :=
  fold_right insert_by_updated [] l.

Definition loadOpenTabs (user : User) (db : Store) : list OpenTab :=
  map (open_tab db)
    (order_by_updated_desc
       (filter (fun o => status_eqb (order_status o) pending
                         && (order_staff_id o =? user_id user)%string)
               (orders db))).

Definition loadTab (t : OpenTab) (pos : POS) : POS :=
  mkPOS (tab_items t) (tab_table_name t) (Some (tab_id t)) tab
        (pos_paymentMethod pos) (pos_showPayment pos) (pos_openTabs pos).

Definition closeTab (t : OpenTab) (pos : POS) : POS :=
  mkPOS (tab_items t) (tab_table_name t) (Some (tab_id t)) quick
        (pos_paymentMethod pos) true (pos_openTabs pos).

(** ** Settlement *)

Definition order_line (user : User) (orderId : uuid) (ci : CartItem) : OrderLine :=
  mkOrderLine orderId (product_id (item ci)) (user_id user)
              (quantity ci) (product_price (item ci)).

(** One turn of the loop of [saveAsTab]. *)
Definition save_line (user : User) (orderId : uuid) (db : Store) (ci : CartItem) : Store :=
  if isShot ci then db_insert_order_shot (order_line user orderId ci) db
  else if isSpecial ci then db_insert_order_special (order_line user orderId ci) db
  else db_insert_order_item (order_line user orderId ci) db.

Definition tab_validation_alert : string :=
  "Please enter a table name and add items to the cart"%string.
Definition tab_updated_alert : string :=
  "Tab updated successfully! Proforma printed."%string.
Definition tab_saved_alert : string :=
  "Tab saved successfully! Proforma printed."%string.
(** The alert of the [catch]; the source appends the error object of
    the store to this text. *)
Definition tab_failed_alert : string := "Failed to save tab"%string.

(** [saveAsTab]; [new_id] and [now] are the identifier and the clock
    reading the store would use for a new order. *)
Definition saveAsTab (user : User) (new_id : uuid) (now : Z)
    (pos : POS) (db : Store) : POS * Store * list Effect :=
  let cart := pos_cart pos in
  let tableName := pos_tableName pos in
  if is_empty_string tableName || (List.length cart =? 0)%nat
  then (pos, db, [Alert tab_validation_alert])
  else
    let saved :=
      match pos_editingTabId pos with
      | Some editingTabId =>
          match db_update_order editingTabId tableName
                  (calculateTotal user cart) (calculateServiceFee user cart) now db with
          | Some db1 =>
              let db2 := db_delete_order_items editingTabId db1 in
              let db3 := db_delete_order_shots editingTabId db2 in
              let db4 := db_delete_order_specials editingTabId db3 in
              Some (db4, editingTabId)
          | None => None
          end
      | None =>
          match db_insert_order new_id now tableName pending None
                  (calculateTotal user cart) (calculateServiceFee user cart)
                  (user_id user) db with
          | Some (db1, order) => Some (db1, order_id order)
          | None => None
          end
      end in
    match saved with
    | Some (db1, orderId) =>
        let db2 := fold_left (save_line user orderId) cart db1 in
        (mkPOS [] EmptyString None (pos_orderType pos) (pos_paymentMethod pos)
               (pos_showPayment pos) (loadOpenTabs user db2),
         db2,
         [Print (printProforma user orderId tableName cart false);
          Alert (match pos_editingTabId pos with
                 | Some _ => tab_updated_alert
                 | None => tab_saved_alert
                 end)])
    | None => (pos, db, [Alert tab_failed_alert])
    end.

Definition quick_sale : string := "Quick Sale"%string.

(** [tableName || 'Quick Sale'] *)
Definition table_or_quick_sale (tableName : string) : string :=
  if is_empty_string tableName then quick_sale else tableName.

(** One turn of the loop of [completePayment]: the line, and for an item
    line the stock update computed from the cart's copy of the item. *)
Definition pay_line (user : User) (orderId : uuid) (db : Store) (ci : CartItem) : Store :=
  if isShot ci then db_insert_order_shot (order_line user orderId ci) db
  else if isSpecial ci then db_insert_order_special (order_line user orderId ci) db
  else
    let db1 := db_insert_order_item (order_line user orderId ci) db in
    match product_quantity (item ci) with
    | Some q => db_update_item_quantity (product_id (item ci)) (q - quantity ci) db1
    | None => db1   (* [undefined - n] is NaN, which the INTEGER column refuses *)
    end.

Definition payment_done_alert : string := "Payment completed successfully!"%string.
Definition payment_failed_alert : string :=
  "Failed to complete payment. Please try again."%string.

(** [completePayment]; the button that calls it is rendered for a quick
    sale only, the [tab] branch hands over to [saveAsTab]. *)
Definition completePayment (user : User) (new_id : uuid) (now : Z)
    (pos : POS) (db : Store) : POS * Store * list Effect :=
  match pos_orderType pos with
  | tab => saveAsTab user new_id now pos db
  | quick =>
      let cart := pos_cart pos in
      let tableName := pos_tableName pos in
      match db_insert_order new_id now (table_or_quick_sale tableName) paid
              (Some (pos_paymentMethod pos))
              (calculateTotal user cart) (calculateServiceFee user cart)
              (user_id user) db with
      | Some (db1, order) =>
          let db2 := fold_left (pay_line user (order_id order)) cart db1 in
          let db3 :=
            match pos_editingTabId pos with
            | Some editingTabId =>
                db_delete_order editingTabId
                  (db_delete_order_shots editingTabId
                     (db_delete_order_items editingTabId db2))
            | None => db2
            end in
          (mkPOS [] EmptyString None (pos_orderType pos) (pos_paymentMethod pos)
                 false (loadOpenTabs user db3),
           db3,
           [Print (printProforma user (order_id order)
                     (table_or_quick_sale tableName) cart true);
            Alert payment_done_alert])
      | None =>
          (* the earlier [setTableName('Quick Sale')] is all that stays *)
          (mkPOS cart
                 (if is_empty_string tableName && (0 <? List.length cart)%nat
                  then quick_sale else tableName)
                 (pos_editingTabId pos) (pos_orderType pos) (pos_paymentMethod pos)
                 (pos_showPayment pos) (pos_openTabs pos),
           db, [Alert payment_failed_alert])
      end
  end.

Definition tab_deleted_alert : string := "Tab deleted successfully!"%string.

(** [deleteTab]; [confirmed] is the answer to the confirmation dialog. *)
Definition deleteTab (user : User) (confirmed : bool) (tabId : uuid)
    (pos : POS) (db : Store) : POS * Store * list Effect :=
  if confirmed then
    let db1 := db_delete_order_items tabId db in
    let db2 := db_delete_order tabId db1 in
    (mkPOS (pos_cart pos) (pos_tableName pos) (pos_editingTabId pos)
           (pos_orderType pos) (pos_paymentMethod pos) (pos_showPayment pos)
           (loadOpenTabs user db2),
     db2, [Alert tab_deleted_alert])
  else (pos, db, []).

(** ** Views used to state the properties *)

Inductive Variant := VItem | VShot | VSpecial.

(** The variant a line is saved under: the order of the tests in the
    loops of [saveAsTab] and [completePayment]. *)
Definition variant_of (ci : CartItem) : Variant :=
  if isShot ci then VShot else if isSpecial ci then VSpecial else VItem.

Definition variant_eqb (a b : Variant) : bool :=
  match a, b with
  | VItem, VItem | VShot, VShot | VSpecial, VSpecial => true
  | _, _ => false
  end.

Definition of_variant (v : Variant) (ci : CartItem) : bool :=
  variant_eqb (variant_of ci) v.

(** The line table of a variant. *)
Definition line_table (v : Variant) (db : Store) : list OrderLine :=
  match v with
  | VItem => order_items db
  | VShot => order_shots db
  | VSpecial => order_specials db
  end.






(** Every stored line belongs to a stored order (the foreign key). *)
Definition lines_reference_orders (db : Store) : Prop :=
  forall v l, In l (line_table v db) -> order_exists (line_order_id l) db = true.

(** The catalog row of a product of the given variant. *)
Definition catalog_price (v : Variant) (id : uuid) (db : Store) : option float :=
  match v with
  | VItem => option_map item_price (find (fun i => (item_id i =? id)%string) (items db))
  | VShot => option_map shot_price (find (fun s => (shot_id s =? id)%string) (shots db))
  | VSpecial => option_map special_price (find (fun s => (special_id s =? id)%string) (specials db))
  end.



(** The catalog table of the line's variant holds its product. *)
Definition product_listed (db : Store) (ci : CartItem) : bool :=
  match variant_of ci with
  | VItem => item_exists (product_id (item ci)) db
  | VShot => shot_exists (product_id (item ci)) db
  | VSpecial => special_exists (product_id (item ci)) db
  end.

(** The lines of a cart whose product the catalog holds. *)
Definition listed (db : Store) (cart : Cart) : Cart :=
  filter (product_listed db) cart.

(** The catalog holds every product of the cart. *)
Definition cart_listed (db : Store) (cart : Cart) : Prop :=
  forall ci, In ci cart -> product_listed db ci = true.

(** [db'] holds the users and the products of [db]: what the foreign
    keys of a line look at, apart from the order. *)
Definition same_references (db db' : Store) : Prop :=
  users db' = users db
  /\ (forall id, item_exists id db' = item_exists id db)
  /\ shots db' = shots db /\ specials db' = specials db.


(** The amounts of the cart come to rest in the columns [total] and
    [service_fee] as [t] and [f]. *)
Definition amounts_stored (user : User) (cart : Cart) (t f : float) : Prop :=
  decimal_10_2 (calculateTotal user cart) = Some t
  /\ decimal_10_2 (calculateServiceFee user cart) = Some f.

(** The row an edit leaves in place of order [o], with the amounts as
    stored. *)
Definition edited_order (name : string) (t f : float) (now : Z) (o : Order) : Order :=
  mkOrder (order_id o) name (order_status o) (order_payment_method o)
          t f (order_created_at o) now (order_staff_id o).

(** The store once the row of order [tid] is rewritten. *)
Definition with_edited_order (tid : uuid) (name : string) (t f : float) (now : Z)
    (db : Store) : Store :=
  with_orders db
    (map (fun o => if (order_id o =? tid)%string then edited_order name t f now o else o)
         (orders db)).

(** The row a new tab leaves in [orders], with the amounts as stored. *)
Definition pending_order (user : User) (new_id : uuid) (now : Z) (name : string)
    (t f : float) : Order :=
  mkOrder new_id name pending None t f now now (user_id user).

(** The row a quick sale leaves in [orders], with the amounts as stored. *)
Definition paid_order (user : User) (new_id : uuid) (now : Z) (pos : POS)
    (t f : float) : Order :=
  mkOrder new_id (table_or_quick_sale (pos_tableName pos)) paid
    (Some (pos_paymentMethod pos)) t f now now (user_id user).

(** The deletes [completePayment] issues when it closes out a tab. *)
Definition drop_closed_tab (editing : option uuid) (db : Store) : Store :=
  match editing with
  | Some editingTabId =>
      db_delete_order editingTabId
        (db_delete_order_shots editingTabId (db_delete_order_items editingTabId db))
  | None => db
  end.


(** The stored quantity of an item, on the table itself. *)
Definition stock_in (id : uuid) (its : list Item) : option Z :=
  option_map item_quantity (find (fun i => (item_id i =? id)%string) its).

(** What one turn of the loop of [completePayment] writes to [items]. *)
Definition stock_write (its : list Item) (ci : CartItem) : list Item :=
  if isShot ci then its
  else if isSpecial ci then its
  else
    match product_quantity (item ci) with
    | Some q => items (db_update_item_quantity (product_id (item ci)) (q - quantity ci)
                         (mkStore [] its [] [] [] [] [] []))
    | None => its
    end.

(** The identifiers of the products on the item lines of a cart. *)
Definition item_line_ids (cart : Cart) : list uuid :=
  map (fun ci => product_id (item ci)) (filter (of_variant VItem) cart).

(** The order a save writes to: the tab being edited, or the new one. *)
Definition saved_order_id (new_id : uuid) (pos : POS) : uuid :=
  match pos_editingTabId pos with
  | Some editingTabId => editingTabId
  | None => new_id
  end.

(** The order a save may write to: for an edit, a pending tab of the
    caller (what [loadOpenTabs] lists); for a new tab, an unused
    identifier. *)
Definition savable (user : User) (new_id : uuid) (pos : POS) (db : Store) : Prop :=
  match pos_editingTabId pos with
  | Some editingTabId =>
      exists o, In o (orders db) /\ order_id o = editingTabId
                /\ order_status o = pending /\ order_staff_id o = user_id user
  | None => order_exists new_id db = false
  end.

(** ** Sample data (rows in the style of DATABASE_SETUP.md) *)

Section SampleData.

Local Open Scope string_scope.

Definition mary : User := mkUser "u-mary" "Mary Waitress" waitress.
Definition john : User := mkUser "u-john" "John Bartender" bartender.

Definition staff : list UserRow :=
  [mkUserRow mary "mary" "1234"; mkUserRow john "john" "4321"].

Definition beer : Item :=
  mkItem "i-beer" "Beer" 5 (Some "123456793"%string) 4.5%float "Alcohol" 30.
Definition coke : Item :=
  mkItem "i-coke" "Coca Cola" 100 (Some "123456789"%string) 2.5%float "Beverages" 20.
Definition burger : Item :=
  mkItem "i-burger" "Burger" 50 (Some "123456791"%string) 8.99%float "Food" 10.
Definition wine : Item :=
  mkItem "i-wine" "Wine" 40 (Some "123456794"%string) 12.99%float "Alcohol" 10.

Definition hennessy : Shot := mkShot "s-hennessy" "Hennessy VSOP" 50%float.
Definition wings : Special := mkSpecial "p-wings" "Wings" 35%float.

Definition shot_line (s : Shot) (q : Z) : CartItem := mkCartItem (PShot s) q true false.
Definition special_line (s : Special) (q : Z) : CartItem := mkCartItem (PSpecial s) q false true.

(** The store with the catalog and no order. *)
Definition shop : Store :=
  mkStore staff [beer; coke; burger; wine] [hennessy] [wings] [] [] [] [].

(** The beer row once another till has sold three of the five. *)
Definition beer_sold_down : Item :=
  mkItem "i-beer" "Beer" 2 (Some "123456793"%string) 4.5%float "Alcohol" 30.

(** Scenario A: three adds, then an increment by three. *)
Definition scenario_a_ops : list CartOp := [OpAdd; OpAdd; OpAdd; OpChange 3].

(** A cart with two beers, as [addToCart] builds it. *)
Definition two_beers : Cart := fst (addToCart beer (fst (addToCart beer []))).

Definition quick_pos (cart : Cart) (name : string) : POS :=
  mkPOS cart name None quick cash true [].

(** A store holding Mary's pending tab "t1" with one line of each kind. *)
Definition tab_t1 : Order :=
  mkOrder "t1" "Table 4" pending None 98.45%float 8.95%float 100 100 "u-mary".

Definition shop_with_tab : Store :=
  mkStore staff [beer; coke; burger; wine] [hennessy] [wings] [tab_t1]
    [mkOrderLine "t1" "i-beer" "u-mary" 1 4.5%float]
    [mkOrderLine "t1" "s-hennessy" "u-mary" 1 50%float]
    [mkOrderLine "t1" "p-wings" "u-mary" 1 35%float].

(** The POS with nothing in hand, its open tabs read from the store. *)
Definition idle_pos (user : User) (db : Store) : POS :=
  mkPOS [] "" None quick cash false (loadOpenTabs user db).

(** Tab "t1" reopened for edit, then changed: one more beer, two more
    shots, the wings removed. *)
Definition editing_pos : POS :=
  match pos_openTabs (idle_pos mary shop_with_tab) with
  | t :: _ =>
      let pos := loadTab t (idle_pos mary shop_with_tab) in
      let cart1 := fst (addToCart beer (pos_cart pos)) in
      let cart2 := fst (updateQuantity "s-hennessy" 2 true false cart1) in
      let cart3 := removeFromCart "p-wings" false true cart2 in
      mkPOS cart3 (pos_tableName pos) (pos_editingTabId pos) (pos_orderType pos)
            (pos_paymentMethod pos) (pos_showPayment pos) (pos_openTabs pos)
  | [] => idle_pos mary shop_with_tab
  end.

Definition edited_cart : Cart := [own_line beer 2; shot_line hennessy 3].

(** The same tab reopened for payment. *)
Definition closing_pos : POS :=
  match pos_openTabs (idle_pos mary shop_with_tab) with
  | t :: _ => closeTab t (idle_pos mary shop_with_tab)
  | [] => idle_pos mary shop_with_tab
  end.

(** The catalog after the price of beer went from 4.50 to 5.00, and a
    cart that took its beer before the change. *)
Definition beer_repriced : Item :=
  mkItem "i-beer" "Beer" 5 (Some "123456793"%string) 5%float "Alcohol" 30.

Definition shop_repriced : Store :=
  mkStore staff [beer_repriced; coke; burger; wine] [hennessy] [wings] [] [] [] [].

Definition stale_price_pos : POS :=
  mkPOS two_beers "Table 7" None tab cash false [].

(** Two orders of the same three lines. *)
Definition cart_coke_burger_wine : Cart :=
  [own_line coke 2; own_line burger 1; own_line wine 1].
Definition cart_coke_wine_burger : Cart :=
  [own_line coke 2; own_line wine 1; own_line burger 1].

(** Lines whose amounts are whole numbers, in two orders. *)
Definition cart_round : Cart := [shot_line hennessy 2; special_line wings 1; own_line beer 2].
Definition cart_round' : Cart := [own_line beer 2; shot_line hennessy 2; special_line wings 1].

End SampleData.

(** ** Scanning, categories and the remaining buttons *)

Section Scanning.

Local Open Scope string_scope.

(** [field === code] for a column that may be missing. *)
Definition field_is (field : option string) (code : string) : bool :=
  match field with
  | Some b => (b =? code)%string
  | None => false
  end.

(** The [shots] table has no barcode column and [Shot] no such field:
    [s.barcode] is [undefined] on every row. *)
Definition shot_barcode (s : Shot) : option string := None.

Inductive ScanFeedback := ScanSuccess | ScanError.

Record ScanResult := mkScan {
  scan_cart : Cart;
  scan_alerts : list string;
  scan_last : string;          (* [lastScannedItem] *)
  scan_feedback : ScanFeedback
}.

Definition item_not_found : string := "Item not found".

(** [processBarcode], on the loaded [items] and [shots]. *)
Definition processBarcode (its : list Item) (shs : list Shot)
    (scannedCode : string) (cart : Cart) : ScanResult :=
  match find (fun i => field_is (item_barcode i) scannedCode) its with
  | Some i =>
      mkScan (fst (addToCart i cart)) (snd (addToCart i cart)) (item_name i) ScanSuccess
  | None =>
      match find (fun s => field_is (shot_barcode s) scannedCode) shs with
      | Some s => mkScan (addShotToCart s cart) [] (shot_name s) ScanSuccess
      | None => mkScan cart [] item_not_found ScanError
      end
  end.

(** [handleBarcodeSearch]: the cart, the alerts and the text left in the
    barcode field. *)
Definition handleBarcodeSearch (its : list Item) (barcode : string) (cart : Cart)
    : Cart * list string * string :=
  match find (fun i => field_is (item_barcode i) barcode) its with
  | Some i => (fst (addToCart i cart), snd (addToCart i cart), "")
  | None => (cart, [], barcode)
  end.

End Scanning.

(** [Array.from(new Set(values))]: the values in order of first
    occurrence; [seen] is the set built so far. *)
Fixpoint set_from (seen : list string) (values : list string) : list string :=
  match values with
  | [] => []
  | x :: rest =>
      if existsb (fun y => (y =? x)%string) seen then set_from seen rest
      else x :: set_from (x :: seen) rest
  end.

(** The categories [loadItems] offers in the filter. *)
Definition uniqueCategories (data : list Item) : list string :=
  set_from [] (map item_category data).

(** The "Clear Cart" button. *)
Definition clearCart (pos : POS) : POS :=
  mkPOS [] EmptyString (pos_editingTabId pos) (pos_orderType pos)
        (pos_paymentMethod pos) (pos_showPayment pos) (pos_openTabs pos).

(** ** More views *)

(** What identifies a line: the product and the two flags. *)
Definition line_key (ci : CartItem) : uuid * bool * bool :=
  (product_id (item ci), isShot ci, isSpecial ci).

(** At most one line per product and variant. *)
Definition unique_lines (cart : Cart) : Prop := NoDup (map line_key cart).

(** Every line holds at least one unit. *)
Definition positive_cart (cart : Cart) : Prop :=
  Forall (fun ci => 1 <= quantity ci) cart.

(** Every item line is within the stock its own copy of the item records. *)
Definition within_copy (cart : Cart) : Prop :=
  forall ci i, In ci cart -> isShot ci = false -> isSpecial ci = false ->
    item ci = PItem i -> quantity ci <= item_quantity i.

(** The lines of the products other than [id]. *)
Definition other_lines (id : uuid) (cart : Cart) : Cart :=
  filter (fun ci => negb (product_id (item ci) =? id)%string) cart.

(** No shot line for [s]; no special line for [s]. *)
Definition shot_absent (s : Shot) (cart : Cart) : Prop :=
  forall ci, In ci cart ->
    (product_id (item ci) =? shot_id s)%string && isShot ci = false.

Definition special_absent (s : Special) (cart : Cart) : Prop :=
  forall ci, In ci cart ->
    (product_id (item ci) =? special_id s)%string && isSpecial ci = false.

(** The common shape of [addShotToCart] and [addSpecialToCart]: the
    first line that satisfies [p] is incremented, or [new] is appended. *)
Definition bump (p : CartItem -> bool) (new : CartItem) (cart : Cart) : Cart :=
  match findIndex p cart with
  | Some i => update_at i (fun c => set_quantity c (increment (quantity c))) cart
  | None => cart ++ [new]
  end.

(** The five cart operations. *)
Inductive CartAction :=
| ActAddItem (it : Item)
| ActAddShot (s : Shot)
| ActAddSpecial (s : Special)
| ActChange (itemId : uuid) (change : Z) (shot special : bool)
| ActRemove (itemId : uuid) (shot special : bool).

Definition cart_act (a : CartAction) (cart : Cart) : Cart :=
  match a with
  | ActAddItem it => fst (addToCart it cart)
  | ActAddShot s => addShotToCart s cart
  | ActAddSpecial s => addSpecialToCart s cart
  | ActChange id d shot special => fst (updateQuantity id d shot special cart)
  | ActRemove id shot special => removeFromCart id shot special cart
  end.

(** The product an action is about. *)
Definition action_product (a : CartAction) : uuid :=
  match a with
  | ActAddItem it => item_id it
  | ActAddShot s => shot_id s
  | ActAddSpecial s => special_id s
  | ActChange id _ _ _ => id
  | ActRemove id _ _ => id
  end.

(** The tabs are listed latest update first. *)
Fixpoint latest_first (l : list Z) : Prop :=
  match l with
  | [] => True
  | x :: rest => (forall y, In y rest -> y <= x) /\ latest_first rest
  end.

(** The columns of an item other than its quantity. *)
Definition item_listing (i : Item) : uuid * string * option string * float * string * Z :=
  (item_id i, item_name i, item_barcode i, item_price i, item_category i,
   low_stock_threshold i).

(** The cart and the name typed anew into a component: [setCart] and
    [setTableName], everything else as it was. *)
Definition refill (cart : Cart) (name : string) (pos : POS) : POS :=
  mkPOS cart name (pos_editingTabId pos) (pos_orderType pos)
        (pos_paymentMethod pos) (pos_showPayment pos) (pos_openTabs pos).

(** ** Routes (App.tsx) *)

Inductive Page :=
| LoginPage | DashboardPage | POSPage | InventoryPage | RidersPage
| ShotsPage | UsersPage | ReportsPage | MySalesPage | SpecialsPage.

(** The [Route] entries, in the order of the file. *)
Inductive RouteEntry :=
| RootRoute | PreviewRoute | DashboardRoute | PosRoute | InventoryRoute
| RidersRoute | ShotsRoute | UsersRoute | ReportsRoute | MySalesRoute
| SpecialsRoute | CatchAllRoute.

(** What a route's element comes to: a page, or [Navigate] to the route
    of another path ("/" is [RootRoute], "/dashboard" [DashboardRoute]). *)
Inductive Element :=
| Render (p : Page)
| Navigate (to : RouteEntry).

Definition is_admin (r : Role) : bool :=
  match r with admin => true | _ => false end.

(** [ProtectedRoute]; [user] is what [getCurrentUser] returns. *)
Definition ProtectedRoute (user : option User) (adminOnly : bool) (children : Page)
    : Element :=
  match user with
  | None => Navigate RootRoute
  | Some u =>
      if adminOnly && negb (is_admin (user_role u)) then Navigate DashboardRoute
      else Render children
  end.

Definition route_element (user : option User) (r : RouteEntry) : Element :=
  match r with
  | RootRoute => Render LoginPage
  | PreviewRoute => Navigate RootRoute
  | DashboardRoute => ProtectedRoute user false DashboardPage
  | PosRoute => ProtectedRoute user false POSPage
  | InventoryRoute => ProtectedRoute user false InventoryPage
  | RidersRoute => ProtectedRoute user false RidersPage
  | ShotsRoute => ProtectedRoute user true ShotsPage
  | UsersRoute => ProtectedRoute user true UsersPage
  | ReportsRoute => ProtectedRoute user true ReportsPage
  | MySalesRoute => ProtectedRoute user false MySalesPage
  | SpecialsRoute => ProtectedRoute user true SpecialsPage
  | CatchAllRoute => Navigate RootRoute
  end.

(** The page on screen once the redirects are followed, at most [fuel]
    of them. *)
Fixpoint page_shown (fuel : nat) (user : option User) (r : RouteEntry) : option Page :=
  match route_element user r with
  | Render p => Some p
  | Navigate r' =>
      match fuel with
      | O => None
      | S f => page_shown f user r'
      end
  end.

(** The routes declared with [adminOnly]. *)
Definition admin_route (r : RouteEntry) : bool :=
  match r with
  | ShotsRoute | UsersRoute | ReportsRoute | SpecialsRoute => true
  | _ => false
  end.

(** The page a route is declared for, if any. *)
Definition route_page (r : RouteEntry) : option Page :=
  match r with
  | RootRoute => Some LoginPage
  | DashboardRoute => Some DashboardPage
  | PosRoute => Some POSPage
  | InventoryRoute => Some InventoryPage
  | RidersRoute => Some RidersPage
  | ShotsRoute => Some ShotsPage
  | UsersRoute => Some UsersPage
  | ReportsRoute => Some ReportsPage
  | MySalesRoute => Some MySalesPage
  | SpecialsRoute => Some SpecialsPage
  | PreviewRoute | CatchAllRoute => None
  end.

Definition admin_page (p : Page) : bool :=
  match p with
  | ShotsPage | UsersPage | ReportsPage | SpecialsPage => true
  | _ => false
  end.

(** ** Login (utils/auth.ts, Login.tsx) *)

(** What a query comes to in the client: the rows, the [error] of the
    store, or an exception of the call itself. *)
Inductive Reply (A : Type) :=
| Data (rows : A)
| Failed
| Thrown.

Arguments Data {A} rows.
Arguments Failed {A}.
Arguments Thrown {A}.

Definition database_error : string :=
  "Database error. Please ensure the database is set up correctly."%string.
Definition invalid_username : string := "Invalid username"%string.
Definition invalid_pin : string := "Invalid PIN"%string.
Definition login_failed : string :=
  "Login failed. Please check your connection."%string.

(** [login]; [query] is the answer to
    [from('users').select('*').ilike('username', username).limit(1)]. *)
Definition login (query : string -> Reply (list UserRow)) (username pin : string)
    : option UserRow * option string :=
  match query username with
  | Thrown => (None, Some login_failed)
  | Failed => (None, Some database_error)
  | Data users =>
      match users with
      | [] => (None, Some invalid_username)
      | user :: _ =>
          if negb (row_pin user =? pin)%string then (None, Some invalid_pin)
          else (Some user, None)
      end
  end.

Definition incorrect_credentials : string := "Incorrect credentials"%string.

(** [handleSubmit] of the login form: the stored current user, the error
    shown and the route navigated to. *)
Definition login_submit (query : string -> Reply (list UserRow)) (current : option User)
    (username pin : string) : option User * string * option RouteEntry :=
  match login query username pin with
  | (_, Some _) => (current, incorrect_credentials, None)
  | (Some user, None) => (Some (row_user user), EmptyString, Some DashboardRoute)
  | (None, None) => (current, EmptyString, None)
  end.

Section UsersTable.

(** The store's [ILIKE]: does the column value match the pattern? *)
Variable ilike : string -> string -> bool.

(** The answer of a store that is up: the rows whose username matches,
    in the order of the table, cut after the first. *)
Definition users_query (db : Store) (username : string) : Reply (list UserRow) :=
  Data (firstn 1 (filter (fun u => ilike (row_username u) username) (users db))).

End UsersTable.

(** ** Riders (Riders.tsx) *)






(** * Properties *)

(** ** Array helpers *)

Lemma findIndex_none {A} (p : A -> bool) l :
  (forall x, In x l -> p x = false) -> findIndex p l = None.
Proof.
  induction l as [|x r IH]; intros H; simpl; [reflexivity|].
  rewrite (H x) by (left; reflexivity).
  rewrite IH; [reflexivity|]. intros y Hy. apply H. right. exact Hy.
Qed.

Lemma findIndex_first {A} (p : A -> bool) l1 x l2 :
  (forall y, In y l1 -> p y = false) -> p x = true ->
  findIndex p (l1 ++ x :: l2) = Some (List.length l1).
Proof.
  induction l1 as [|y r IH]; intros H Hx; simpl.
  - rewrite Hx. reflexivity.
  - rewrite (H y) by (left; reflexivity).
    rewrite IH; [reflexivity| |exact Hx]. intros z Hz. apply H. right. exact Hz.
Qed.

Lemma nth_error_middle {A} (l1 : list A) x l2 :
  nth_error (l1 ++ x :: l2) (List.length l1) = Some x.
Proof. induction l1; simpl; auto. Qed.

Lemma update_at_middle {A} (f : A -> A) l1 x l2 :
  update_at (List.length l1) f (l1 ++ x :: l2) = l1 ++ f x :: l2.
Proof. induction l1; simpl; [reflexivity|]. f_equal. assumption. Qed.

(** ** Cart: the stock ceiling *)

Section StockCeiling.

Variable it : Item.
Let id := item_id it.
Let Q := item_quantity it.

Lemma absent_no_match cart ci s sp :
  absent id cart -> In ci cart -> line_matches id s sp ci = false.
Proof.
  intros Ha Hin. unfold line_matches. rewrite (Ha ci Hin). reflexivity.
Qed.

Lemma absent_app l1 l2 : absent id l1 -> absent id l2 -> absent id (l1 ++ l2).
Proof.
  intros H1 H2 ci Hin. apply in_app_or in Hin as [Hin|Hin]; auto.
Qed.

Lemma absent_cons_inv ci l : absent id (ci :: l) ->
  (product_id (item ci) =? id)%string = false /\ absent id l.
Proof.
  intros H. split; [apply H; left; reflexivity|].
  intros c Hc. apply H. right. exact Hc.
Qed.

Lemma updateQuantity_absent d s sp cart :
  absent id cart -> updateQuantity id d s sp cart = (cart, []).
Proof.
  induction cart as [|ci r IH]; intros Ha; simpl; [reflexivity|].
  apply absent_cons_inv in Ha as [Hci Hr].
  unfold update_line, line_matches. rewrite Hci. simpl.
  rewrite (IH Hr). reflexivity.
Qed.

Lemma updateQuantity_app d s sp l1 l2 :
  updateQuantity id d s sp (l1 ++ l2) =
  (fst (updateQuantity id d s sp l1) ++ fst (updateQuantity id d s sp l2),
   snd (updateQuantity id d s sp l1) ++ snd (updateQuantity id d s sp l2)).
Proof.
  induction l1 as [|ci r IH]; simpl.
  - destruct (updateQuantity id d s sp l2); reflexivity.
  - rewrite IH.
    destruct (update_line id d s sp ci) as [o a].
    destruct (updateQuantity id d s sp r) as [r' a'].
    simpl. rewrite app_assoc. destruct o; reflexivity.
Qed.

Lemma own_line_matches q : line_matches id false false (own_line it q) = true.
Proof. unfold line_matches, own_line, id. simpl. rewrite String.eqb_refl. reflexivity. Qed.

(** [updateQuantity] on a cart that holds the line of [it]. *)
Lemma updateQuantity_line d l1 q l2 :
  absent id l1 -> absent id l2 ->
  updateQuantity id d false false (l1 ++ own_line it q :: l2) =
    if q + d <=? 0 then (l1 ++ l2, [])
    else if q + d >? Q then (l1 ++ own_line it q :: l2, [InsufficientStock])
    else (l1 ++ own_line it (q + d) :: l2, []).
Proof.
  intros H1 H2. rewrite updateQuantity_app.
  rewrite (updateQuantity_absent _ _ _ _ H1). simpl.
  rewrite (updateQuantity_absent _ _ _ _ H2).
  unfold update_line. rewrite own_line_matches. simpl.
  fold Q. destruct (q + d <=? 0); [reflexivity|].
  destruct (q + d >? Q); reflexivity.
Qed.

(** [addToCart] on a cart that holds the line of [it]. *)
Lemma addToCart_line l1 q l2 :
  absent id l1 -> 0 < Q ->
  addToCart it (l1 ++ own_line it q :: l2) =
    if q <? Q then (l1 ++ own_line it (q + 1) :: l2, [])
    else (l1 ++ own_line it q :: l2, [InsufficientStock]).
Proof.
  intros H1 HQ. unfold addToCart. fold Q. fold id.
  destruct (Q <=? 0) eqn:E; [apply Z.leb_le in E; lia|].
  rewrite (findIndex_first _ l1 (own_line it q) l2);
    [| exact H1 | unfold own_line, id; simpl; apply String.eqb_refl].
  rewrite nth_error_middle. simpl.
  destruct (q <? Q); [|reflexivity].
  rewrite update_at_middle. reflexivity.
Qed.

Lemma addToCart_absent cart :
  absent id cart -> 0 < Q ->
  addToCart it cart = (cart ++ [own_line it 1], []).
Proof.
  intros Ha HQ. unfold addToCart. fold Q. fold id.
  destruct (Q <=? 0) eqn:E; [apply Z.leb_le in E; lia|].
  rewrite findIndex_none by exact Ha. reflexivity.
Qed.

Lemma addToCart_out_of_stock cart :
  Q <= 0 -> addToCart it cart = (cart, [OutOfStock]).
Proof.
  intros HQ. unfold addToCart. fold Q.
  destruct (Q <=? 0) eqn:E; [reflexivity|]. apply Z.leb_gt in E. lia.
Qed.

Lemma absent_nil : absent id [].
Proof. intros ci []. Qed.

(** The tracked shape is kept by both operations. *)
Lemma tracks_step op cart : tracks it cart -> tracks it (fst (cart_step it op cart)).
Proof.
  intros [c Ha | l1 q l2 H1 H2 Hq]; destruct op as [|d]; unfold cart_step.
  - destruct (Z.leb_spec Q 0) as [HQ|HQ].
    + rewrite addToCart_out_of_stock by exact HQ. apply tracks_absent, Ha.
    + rewrite addToCart_absent by assumption. simpl.
      apply tracks_line; [exact Ha | apply absent_nil | fold Q; lia].
  - fold id. rewrite updateQuantity_absent by exact Ha. apply tracks_absent, Ha.
  - fold Q in Hq. rewrite addToCart_line by (assumption || lia).
    destruct (Z.ltb_spec q Q); simpl.
    + apply tracks_line; [assumption..| fold Q; lia].
    + apply tracks_line; [assumption..| fold Q; lia].
  - fold id. fold Q in Hq. rewrite updateQuantity_line by assumption.
    destruct (Z.leb_spec (q + d) 0); simpl.
    + apply tracks_absent, absent_app; assumption.
    + destruct (q + d >? Q) eqn:E; simpl.
      * apply tracks_line; [assumption..| fold Q; lia].
      * apply tracks_line; [assumption..|].
        fold Q. rewrite Z.gtb_ltb in E. apply Z.ltb_ge in E. lia.
Qed.

Lemma tracks_within cart : tracks it cart -> within_stock id Q cart.
Proof.
  intros [c Ha | l1 q l2 H1 H2 Hq] ci Hin Hm.
  - rewrite (absent_no_match _ _ _ _ Ha Hin) in Hm. discriminate.
  - apply in_app_or in Hin as [Hin|[Heq|Hin]].
    + rewrite (absent_no_match _ _ _ _ H1 Hin) in Hm. discriminate.
    + subst ci. simpl. fold Q in Hq. lia.
    + rewrite (absent_no_match _ _ _ _ H2 Hin) in Hm. discriminate.
Qed.

Lemma tracks_run ops : forall cart,
  tracks it cart -> Forall (tracks it) (cart_run it ops cart).
Proof.
  induction ops as [|op r IH]; intros cart Ht; simpl; constructor.
  - apply tracks_step, Ht.
  - apply IH, tracks_step, Ht.
Qed.

Lemma find_absent cart s sp :
  absent id cart -> find (line_matches id s sp) cart = None.
Proof.
  induction cart as [|ci r IH]; intros Ha; simpl; [reflexivity|].
  rewrite (absent_no_match _ _ _ _ Ha (or_introl eq_refl)).
  apply IH. intros c Hc. apply Ha. right. exact Hc.
Qed.

Lemma item_line_tracked l1 q l2 :
  absent id l1 -> item_line it (l1 ++ own_line it q :: l2) = Some (own_line it q).
Proof.
  intros H1. unfold item_line. fold id.
  induction l1 as [|c r IH]; simpl.
  - rewrite own_line_matches. reflexivity.
  - rewrite (absent_no_match _ _ _ _ H1 (or_introl eq_refl)).
    apply IH. intros x Hx. apply H1. right. exact Hx.
Qed.

(** On a tracked cart a rejected add or increment changes nothing. *)
Lemma tracked_rejections cart :
  tracks it cart ->
  (Q <= 0 -> addToCart it cart = (cart, [OutOfStock]))
  /\ (forall ci, item_line it cart = Some ci -> quantity ci + 1 > Q ->
        addToCart it cart = (cart, [InsufficientStock]))
  /\ (forall ci d, item_line it cart = Some ci -> quantity ci + d > Q ->
        updateQuantity id d false false cart = (cart, [InsufficientStock])).
Proof.
  intros Ht. split; [apply addToCart_out_of_stock|].
  destruct Ht as [c Ha | l1 q l2 H1 H2 Hq].
  - unfold item_line. fold id. rewrite (find_absent _ _ _ Ha).
    split; intros; discriminate.
  - fold Q in Hq. rewrite (item_line_tracked _ _ _ H1). split.
    + intros ci [= <-] Hgt. simpl in Hgt.
      rewrite addToCart_line by (assumption || lia).
      destruct (Z.ltb_spec q Q); [lia | reflexivity].
    + intros ci d [= <-] Hgt. simpl in Hgt.
      rewrite updateQuantity_line by assumption.
      destruct (Z.leb_spec (q + d) 0); [lia|].
      destruct (q + d >? Q) eqn:E; [reflexivity|].
      rewrite Z.gtb_ltb in E. apply Z.ltb_ge in E. lia.
Qed.

End StockCeiling.

(** Along every sequence of [addToCart] / [updateQuantity] calls for a
    stocked item of quantity Q, started on a cart that tracks the item
    (its line, if any, was added from the item as it is now; the empty
    cart qualifies), the item's line never exceeds Q; on every cart of
    the sequence an add with Q <= 0 raises the out-of-stock alert, an
    add or an increment that would pass Q raises the not-enough-stock
    alert, and in each case the cart comes back unchanged. *)
Lemma tracked_line_never_exceeds_stock (it : Item) (cart : Cart) (ops : list CartOp) :
  tracks it cart ->
  Forall (within_stock (item_id it) (item_quantity it)) (cart_run it ops cart)
  /\ forall c, In c (cart :: cart_run it ops cart) ->
       (item_quantity it <= 0 -> addToCart it c = (c, [OutOfStock]))
       /\ (forall ci, item_line it c = Some ci ->
             quantity ci + 1 > item_quantity it ->
             addToCart it c = (c, [InsufficientStock]))
       /\ (forall ci d, item_line it c = Some ci ->
             quantity ci + d > item_quantity it ->
             updateQuantity (item_id it) d false false c = (c, [InsufficientStock])).
Proof.
  intros Ht. pose proof (tracks_run it ops cart Ht) as Hrun. split.
  - eapply Forall_impl; [|exact Hrun]. intros c. apply tracks_within.
  - intros c [<-|Hin].
    + apply tracked_rejections, Ht.
    + apply tracked_rejections. rewrite Forall_forall in Hrun. apply Hrun, Hin.
Qed.

(** ** Store: line tables *)

Lemma lines_of_app id l1 l2 : lines_of id (l1 ++ l2) = lines_of id l1 ++ lines_of id l2.
Proof. apply filter_app. Qed.

Lemma lines_of_delete_same id tbl : lines_of id (delete_lines id tbl) = [].
Proof.
  unfold lines_of, delete_lines. induction tbl as [|l r IH]; simpl; [reflexivity|].
  destruct (of_order id l) eqn:E; simpl; [exact IH|]. rewrite E. exact IH.
Qed.

Lemma lines_of_delete_other id id' tbl :
  id' <> id -> lines_of id' (delete_lines id tbl) = lines_of id' tbl.
Proof.
  intros Hne. unfold lines_of, delete_lines.
  induction tbl as [|l r IH]; simpl; [reflexivity|].
  destruct (of_order id l) eqn:E; simpl.
  - unfold of_order in *. apply String.eqb_eq in E.
    destruct (line_order_id l =? id')%string eqn:E'; [|exact IH].
    apply String.eqb_eq in E'. congruence.
  - rewrite IH. reflexivity.
Qed.

Lemma lines_of_order_lines user id cart :
  lines_of id (map (order_line user id) cart) = map (order_line user id) cart.
Proof.
  unfold lines_of. induction cart as [|ci r IH]; simpl; [reflexivity|].
  unfold of_order at 1. simpl. rewrite String.eqb_refl. f_equal. exact IH.
Qed.




Lemma db_update_order_amounts tid name total fee u db db1 :
  db_update_order tid name total fee u db = Some db1 ->
  exists t f, decimal_10_2 total = Some t /\ decimal_10_2 fee = Some f
    /\ db1 = with_orders db
               (map (fun o =>
                       if (order_id o =? tid)%string
                       then mkOrder (order_id o) name (order_status o)
                              (order_payment_method o) t f
                              (order_created_at o) u (order_staff_id o)
                       else o)
                    (orders db)).
Proof.
  unfold db_update_order. intros H.
  destruct (decimal_10_2 total) as [t|]; [|discriminate].
  destruct (decimal_10_2 fee) as [f|]; [|discriminate].
  injection H as <-. exists t, f. auto.
Qed.

Lemma order_exists_update id tid name t f u db db1 :
  db_update_order tid name t f u db = Some db1 ->
  order_exists id db1 = order_exists id db.
Proof.
  intros H. apply db_update_order_amounts in H as (t' & f' & _ & _ & ->).
  unfold order_exists. simpl.
  induction (orders db) as [|o r IH]; simpl; [reflexivity|].
  rewrite IH. destruct (order_id o =? tid)%string; reflexivity.
Qed.

Lemma same_references_refl db : same_references db db.
Proof. repeat split. Qed.

Lemma same_references_trans db1 db2 db3 :
  same_references db1 db2 -> same_references db2 db3 -> same_references db1 db3.
Proof.
  intros (U1 & I1 & S1 & P1) (U2 & I2 & S2 & P2).
  split; [congruence|]. split; [|split; congruence].
  intros id. rewrite I2. apply I1.
Qed.

Lemma product_listed_same db db' ci :
  same_references db db' -> product_listed db' ci = product_listed db ci.
Proof.
  intros (_ & Hi & Hs & Hp). unfold product_listed, shot_exists, special_exists.
  rewrite Hs, Hp. destruct (variant_of ci); auto.
Qed.

Lemma listed_same db db' cart :
  same_references db db' -> listed db' cart = listed db cart.
Proof.
  intros H. unfold listed. apply filter_ext. intros ci. apply product_listed_same, H.
Qed.

Lemma user_exists_same db db' id :
  same_references db db' -> user_exists id db' = user_exists id db.
Proof. intros (Hu & _). unfold user_exists. rewrite Hu. reflexivity. Qed.

Lemma item_exists_update id id0 q db :
  item_exists id (db_update_item_quantity id0 q db) = item_exists id db.
Proof.
  unfold item_exists. simpl. induction (items db) as [|i r IH]; simpl; [reflexivity|].
  rewrite IH. destruct (item_id i =? id0)%string; reflexivity.
Qed.

Lemma listed_all db cart : cart_listed db cart -> listed db cart = cart.
Proof.
  intros H. unfold listed. induction cart as [|ci r IH]; simpl; [reflexivity|].
  rewrite (H ci (or_introl eq_refl)). f_equal. apply IH.
  intros c Hc. apply H. right. exact Hc.
Qed.

(** ** The loops that write the lines *)

Section Lines.

Variable user : User.
Variable orderId : uuid.

Lemma save_line_orders db ci : orders (save_line user orderId db ci) = orders db.
Proof.
  unfold save_line, db_insert_order_shot, db_insert_order_special, db_insert_order_item.
  destruct (isShot ci), (isSpecial ci);
    match goal with |- context [if ?c then _ else _] => destruct c end; reflexivity.
Qed.

Lemma save_line_catalog db ci :
  items (save_line user orderId db ci) = items db
  /\ shots (save_line user orderId db ci) = shots db
  /\ specials (save_line user orderId db ci) = specials db.
Proof.
  unfold save_line, db_insert_order_shot, db_insert_order_special, db_insert_order_item.
  destruct (isShot ci), (isSpecial ci);
    match goal with |- context [if ?c then _ else _] => destruct c end; auto.
Qed.

Lemma save_line_users db ci : users (save_line user orderId db ci) = users db.
Proof.
  unfold save_line, db_insert_order_shot, db_insert_order_special, db_insert_order_item.
  destruct (isShot ci), (isSpecial ci);
    match goal with |- context [if ?c then _ else _] => destruct c end; reflexivity.
Qed.

Lemma save_line_references db ci : same_references db (save_line user orderId db ci).
Proof.
  destruct (save_line_catalog db ci) as (Hi & Hs & Hp).
  split; [apply save_line_users|]. split; [|split; assumption].
  intros id. unfold item_exists. rewrite Hi. reflexivity.
Qed.

(** One turn of the loop writes the line when the store holds its
    product, and nothing otherwise. *)
Lemma save_line_table v db ci :
  order_exists orderId db = true -> user_exists (user_id user) db = true ->
  line_table v (save_line user orderId db ci) =
  line_table v db
  ++ (if of_variant v ci && product_listed db ci then [order_line user orderId ci] else []).
Proof.
  intros Hex Hu. unfold save_line, db_insert_order_shot, db_insert_order_special,
    db_insert_order_item, of_variant, product_listed, variant_of. simpl.
  rewrite Hex, Hu, !andb_true_r. simpl.
  destruct (isShot ci), (isSpecial ci), v; simpl;
    match goal with |- context [if ?c then _ else _] => destruct c end;
    simpl; rewrite ?app_nil_r; reflexivity.
Qed.

Lemma save_lines_orders cart : forall db,
  orders (fold_left (save_line user orderId) cart db) = orders db.
Proof.
  induction cart as [|ci r IH]; intros db; simpl; [reflexivity|].
  rewrite IH. apply save_line_orders.
Qed.

Lemma save_lines_references cart : forall db,
  same_references db (fold_left (save_line user orderId) cart db).
Proof.
  induction cart as [|ci r IH]; intros db; simpl; [apply same_references_refl|].
  eapply same_references_trans; [apply save_line_references | apply IH].
Qed.

Lemma save_lines_catalog cart : forall db,
  items (fold_left (save_line user orderId) cart db) = items db
  /\ shots (fold_left (save_line user orderId) cart db) = shots db
  /\ specials (fold_left (save_line user orderId) cart db) = specials db.
Proof.
  induction cart as [|ci r IH]; intros db; simpl; [auto|].
  destruct (IH (save_line user orderId db ci)) as (-> & -> & ->).
  apply save_line_catalog.
Qed.

Lemma filter_listed_cons v db ci r :
  map (order_line user orderId) (filter (of_variant v) (listed db (ci :: r))) =
  (if of_variant v ci && product_listed db ci then [order_line user orderId ci] else [])
  ++ map (order_line user orderId) (filter (of_variant v) (listed db r)).
Proof.
  unfold listed. simpl. destruct (product_listed db ci); simpl.
  - destruct (of_variant v ci); reflexivity.
  - rewrite andb_false_r. reflexivity.
Qed.

(** The loop of [saveAsTab] writes one line per cart line whose product
    the catalog holds, in the order of the cart. *)
Lemma save_lines_table v cart : forall db,
  order_exists orderId db = true -> user_exists (user_id user) db = true ->
  line_table v (fold_left (save_line user orderId) cart db) =
  line_table v db
  ++ map (order_line user orderId) (filter (of_variant v) (listed db cart)).
Proof.
  induction cart as [|ci r IH]; intros db Hex Hu; simpl fold_left.
  - unfold listed. simpl. rewrite app_nil_r. reflexivity.
  - pose proof (save_line_references db ci) as Hr.
    rewrite IH.
    + rewrite (save_line_table v db ci Hex Hu), (listed_same _ _ _ Hr),
        filter_listed_cons, <- app_assoc. reflexivity.
    + unfold order_exists. rewrite save_line_orders. exact Hex.
    + rewrite (user_exists_same _ _ _ Hr). exact Hu.
Qed.

(** [pay_line] writes the same lines and, besides, touches [items]. *)
Lemma pay_line_orders db ci : orders (pay_line user orderId db ci) = orders db.
Proof.
  unfold pay_line, db_insert_order_shot, db_insert_order_special, db_insert_order_item.
  destruct (isShot ci), (isSpecial ci);
    repeat match goal with |- context [if ?c then _ else _] => destruct c end;
    destruct (product_quantity (item ci)); reflexivity.
Qed.

Lemma insert_line_references db l :
  same_references db (db_insert_order_item l db)
  /\ same_references db (db_insert_order_shot l db)
  /\ same_references db (db_insert_order_special l db).
Proof.
  unfold db_insert_order_item, db_insert_order_shot, db_insert_order_special.
  repeat split;
    match goal with |- context [if ?c then _ else _] => destruct c end;
    try reflexivity; intros ?; reflexivity.
Qed.

Lemma pay_line_references db ci : same_references db (pay_line user orderId db ci).
Proof.
  destruct (insert_line_references db (order_line user orderId ci)) as (Hi & Hs & Hp).
  unfold pay_line.
  destruct (isShot ci); [exact Hs|]. destruct (isSpecial ci); [exact Hp|].
  destruct (product_quantity (item ci)) as [q|]; [|exact Hi].
  eapply same_references_trans; [exact Hi|].
  split; [reflexivity|]. split; [|split; reflexivity].
  intros i. apply item_exists_update.
Qed.

Lemma pay_line_table v db ci :
  order_exists orderId db = true -> user_exists (user_id user) db = true ->
  line_table v (pay_line user orderId db ci) =
  line_table v db
  ++ (if of_variant v ci && product_listed db ci then [order_line user orderId ci] else []).
Proof.
  intros Hex Hu. unfold pay_line, db_insert_order_shot, db_insert_order_special,
    db_insert_order_item, of_variant, product_listed, variant_of. simpl.
  rewrite Hex, Hu, !andb_true_r. simpl.
  destruct (isShot ci), (isSpecial ci), v; simpl;
    repeat match goal with |- context [if ?c then _ else _] => destruct c end;
    try destruct (product_quantity (item ci));
    simpl; rewrite ?app_nil_r; reflexivity.
Qed.

Lemma pay_lines_orders cart : forall db,
  orders (fold_left (pay_line user orderId) cart db) = orders db.
Proof.
  induction cart as [|ci r IH]; intros db; simpl; [reflexivity|].
  rewrite IH. apply pay_line_orders.
Qed.

Lemma pay_lines_references cart : forall db,
  same_references db (fold_left (pay_line user orderId) cart db).
Proof.
  induction cart as [|ci r IH]; intros db; simpl; [apply same_references_refl|].
  eapply same_references_trans; [apply pay_line_references | apply IH].
Qed.

(** The loop of [completePayment] writes the same lines. *)
Lemma pay_lines_table v cart : forall db,
  order_exists orderId db = true -> user_exists (user_id user) db = true ->
  line_table v (fold_left (pay_line user orderId) cart db) =
  line_table v db
  ++ map (order_line user orderId) (filter (of_variant v) (listed db cart)).
Proof.
  induction cart as [|ci r IH]; intros db Hex Hu; simpl fold_left.
  - unfold listed. simpl. rewrite app_nil_r. reflexivity.
  - pose proof (pay_line_references db ci) as Hr.
    rewrite IH.
    + rewrite (pay_line_table v db ci Hex Hu), (listed_same _ _ _ Hr),
        filter_listed_cons, <- app_assoc. reflexivity.
    + unfold order_exists. rewrite pay_line_orders. exact Hex.
    + rewrite (user_exists_same _ _ _ Hr). exact Hu.
Qed.

End Lines.



(** ** saveAsTab *)

Lemma validation_passes (name : string) (cart : Cart) :
  name <> EmptyString -> cart <> [] ->
  is_empty_string name || (List.length cart =? 0)%nat = false.
Proof.
  intros Hn Hc. destruct name; [congruence|]. destruct cart; [congruence|]. reflexivity.
Qed.

Lemma db_update_order_stored user cart t f tid name now db :
  amounts_stored user cart t f ->
  db_update_order tid name (calculateTotal user cart) (calculateServiceFee user cart) now db
  = Some (with_edited_order tid name t f now db).
Proof. intros [Ht Hf]. unfold db_update_order. rewrite Ht, Hf. reflexivity. Qed.

Lemma db_insert_order_stored user cart t f new_id now name st pm db :
  order_exists new_id db = false -> user_exists (user_id user) db = true ->
  amounts_stored user cart t f ->
  db_insert_order new_id now name st pm
    (calculateTotal user cart) (calculateServiceFee user cart) (user_id user) db
  = Some (with_orders db (orders db ++ [mkOrder new_id name st pm t f now now (user_id user)]),
          mkOrder new_id name st pm t f now now (user_id user)).
Proof.
  intros Hf Hu [Ht Hfe]. unfold db_insert_order. rewrite Hf, Hu, Ht, Hfe. reflexivity.
Qed.

Lemma order_exists_edited id tid name t f now db :
  order_exists id (with_edited_order tid name t f now db) = order_exists id db.
Proof.
  unfold order_exists, with_edited_order. simpl.
  induction (orders db) as [|o r IH]; simpl; [reflexivity|].
  rewrite IH. destruct (order_id o =? tid)%string; reflexivity.
Qed.

(** The store an edit leaves: the order row rewritten, its old lines
    dropped from the three tables, the lines of the cart written. *)
Lemma saveAsTab_edit_store user new_id now pos db tid t f :
  pos_editingTabId pos = Some tid ->
  pos_tableName pos <> EmptyString -> pos_cart pos <> [] ->
  amounts_stored user (pos_cart pos) t f ->
  snd (fst (saveAsTab user new_id now pos db)) =
  fold_left (save_line user tid) (pos_cart pos)
    (db_delete_order_specials tid
       (db_delete_order_shots tid
          (db_delete_order_items tid
             (with_edited_order tid (pos_tableName pos) t f now db)))).
Proof.
  intros He Hn Hc Ha. unfold saveAsTab.
  rewrite (validation_passes _ _ Hn Hc), He, (db_update_order_stored _ _ _ _ _ _ _ _ Ha).
  reflexivity.
Qed.

Lemma saveAsTab_new_store user new_id now pos db t f :
  pos_editingTabId pos = None ->
  pos_tableName pos <> EmptyString -> pos_cart pos <> [] ->
  order_exists new_id db = false -> user_exists (user_id user) db = true ->
  amounts_stored user (pos_cart pos) t f ->
  snd (fst (saveAsTab user new_id now pos db)) =
  fold_left (save_line user new_id) (pos_cart pos)
    (with_orders db
       (orders db ++ [pending_order user new_id now (pos_tableName pos) t f])).
Proof.
  intros He Hn Hc Hf Hu Ha. unfold saveAsTab.
  rewrite (validation_passes _ _ Hn Hc), He,
    (db_insert_order_stored _ _ _ _ _ _ _ _ _ _ Hf Hu Ha).
  reflexivity.
Qed.


Lemma edit_base_exists tid id name t f now db :
  order_exists id
    (db_delete_order_specials tid
       (db_delete_order_shots tid
          (db_delete_order_items tid (with_edited_order tid name t f now db))))
  = order_exists id db.
Proof. exact (order_exists_edited id tid name t f now db). Qed.

Lemma edit_base_references tid name t f now db :
  same_references db
    (db_delete_order_specials tid
       (db_delete_order_shots tid
          (db_delete_order_items tid (with_edited_order tid name t f now db)))).
Proof. split; [reflexivity|]. split; [intros id; reflexivity | split; reflexivity]. Qed.

(** The lines of the edited order after the save, per table. *)
Lemma saveAsTab_edit_lines user new_id now pos db tid t f v :
  pos_editingTabId pos = Some tid ->
  order_exists tid db = true -> user_exists (user_id user) db = true ->
  pos_tableName pos <> EmptyString -> pos_cart pos <> [] ->
  amounts_stored user (pos_cart pos) t f ->
  lines_of tid (line_table v (snd (fst (saveAsTab user new_id now pos db)))) =
  map (order_line user tid) (filter (of_variant v) (listed db (pos_cart pos))).
Proof.
  intros He Hex Hu Hn Hc Ha. rewrite (saveAsTab_edit_store _ _ _ _ _ _ _ _ He Hn Hc Ha).
  pose proof (edit_base_references tid (pos_tableName pos) t f now db) as Hr.
  rewrite save_lines_table.
  - rewrite (listed_same _ _ _ Hr), lines_of_app, lines_of_order_lines.
    destruct v; simpl; rewrite lines_of_delete_same; reflexivity.
  - rewrite edit_base_exists. exact Hex.
  - rewrite (user_exists_same _ _ _ Hr). exact Hu.
Qed.



Lemma order_exists_app id db o :
  order_exists id (with_orders db (orders db ++ [o])) =
  order_exists id db || (order_id o =? id)%string.
Proof.
  unfold order_exists. simpl. rewrite existsb_app. simpl.
  rewrite orb_false_r. reflexivity.
Qed.

Lemma with_orders_references db os : same_references db (with_orders db os).
Proof. split; [reflexivity|]. split; [intros id; reflexivity | split; reflexivity]. Qed.




(** C8. With an empty table name or an empty cart, [saveAsTab] raises the
    validation alert and returns the component state and the store as
    they were: no order and no line is written. *)
Theorem saveAsTab_validation_error
    (user : User) (new_id : uuid) (now : Z) (pos : POS) (db : Store) :
  pos_tableName pos = EmptyString \/ pos_cart pos = [] ->
  saveAsTab user new_id now pos db = (pos, db, [Alert tab_validation_alert]).
Proof.
  intros [H|H]; unfold saveAsTab; rewrite H; [reflexivity|].
  simpl. rewrite orb_true_r. reflexivity.
Qed.

(** ** deleteTab *)

(** C6. After a confirmed [deleteTab] the order is gone and none of the
    three line tables holds a line of it: the handler deletes the
    [order_items] lines itself, and deleting the order takes the
    [order_shots] and [order_specials] lines with it through the foreign
    keys' cascade.  The lines of other orders stay. *)
Theorem deleteTab_leaves_no_line
    (user : User) (tabId : uuid) (pos : POS) (db : Store) :
  let db' := snd (fst (deleteTab user true tabId pos db)) in
  lines_of tabId (order_items (db_delete_order_items tabId db)) = []
  /\ order_exists tabId db' = false
  /\ (forall v, lines_of tabId (line_table v db') = [])
  /\ (forall v id, id <> tabId ->
        lines_of id (line_table v db') = lines_of id (line_table v db)).
Proof.
  simpl. split; [apply lines_of_delete_same|]. split; [|split].
  - unfold order_exists. simpl.
    induction (orders db) as [|o r IH]; simpl; [reflexivity|].
    destruct (order_id o =? tabId)%string eqn:E; simpl; [exact IH|].
    rewrite E. exact IH.
  - intros v. destruct v; simpl; apply lines_of_delete_same.
  - intros v id Hne. destruct v; simpl;
      rewrite ?lines_of_delete_other by exact Hne; reflexivity.
Qed.

(** The handler's own deletes do not reach the shot and special lines. *)
Remark deleteTab_own_delete_scope (tabId : uuid) (db : Store) :
  order_shots (db_delete_order_items tabId db) = order_shots db
  /\ order_specials (db_delete_order_items tabId db) = order_specials db.
Proof. split; reflexivity. Qed.

(** ** completePayment *)

(** The deletes the handler issues for a closed tab do not reach its
    special lines; those go with the order. *)
Remark completePayment_own_delete_scope (tabId : uuid) (db : Store) :
  order_specials (db_delete_order_shots tabId (db_delete_order_items tabId db))
  = order_specials db.
Proof. reflexivity. Qed.

Lemma completePayment_quick user new_id now pos db t f :
  pos_orderType pos = quick -> order_exists new_id db = false ->
  user_exists (user_id user) db = true ->
  amounts_stored user (pos_cart pos) t f ->
  completePayment user new_id now pos db =
  let db3 := drop_closed_tab (pos_editingTabId pos)
               (fold_left (pay_line user new_id) (pos_cart pos)
                  (with_orders db (orders db ++ [paid_order user new_id now pos t f]))) in
  (mkPOS [] EmptyString None quick (pos_paymentMethod pos) false (loadOpenTabs user db3),
   db3,
   [Print (printProforma user new_id (table_or_quick_sale (pos_tableName pos))
             (pos_cart pos) true);
    Alert payment_done_alert]).
Proof.
  intros Hq Hf Hu Ha. unfold completePayment.
  rewrite Hq, (db_insert_order_stored _ _ _ _ _ _ _ _ _ _ Hf Hu Ha). reflexivity.
Qed.

(** A payment the store refuses writes nothing. *)
Lemma completePayment_refused user new_id now pos db :
  pos_orderType pos = quick ->
  db_insert_order new_id now (table_or_quick_sale (pos_tableName pos)) paid
    (Some (pos_paymentMethod pos)) (calculateTotal user (pos_cart pos))
    (calculateServiceFee user (pos_cart pos)) (user_id user) db = None ->
  snd (fst (completePayment user new_id now pos db)) = db
  /\ snd (completePayment user new_id now pos db) = [Alert payment_failed_alert].
Proof.
  intros Hq Hr. unfold completePayment. rewrite Hq, Hr. split; reflexivity.
Qed.

Lemma not_exists_after_delete id db : order_exists id (db_delete_order id db) = false.
Proof.
  unfold order_exists. simpl.
  induction (orders db) as [|o r IH]; simpl; [reflexivity|].
  destruct (order_id o =? id)%string eqn:E; simpl; [exact IH|].
  rewrite E. exact IH.
Qed.

Lemma lines_after_delete_order id db v :
  lines_of id (line_table v (db_delete_order id db)) = [].
Proof. destruct v; simpl; apply lines_of_delete_same. Qed.

Lemma lines_after_drop_other tid id db v :
  id <> tid ->
  lines_of id (line_table v (drop_closed_tab (Some tid) db)) = lines_of id (line_table v db).
Proof.
  intros Hne. destruct v; simpl; rewrite ?lines_of_delete_other by exact Hne; reflexivity.
Qed.

Lemma fresh_differs id tid db :
  order_exists id db = false -> order_exists tid db = true -> id <> tid.
Proof. intros Hf Hex ->. congruence. Qed.

Lemma table_or_quick_sale_nonempty name : table_or_quick_sale name <> EmptyString.
Proof. destruct name; simpl; discriminate. Qed.

Lemma paid_order_stays user new_id now pos db t f tid :
  new_id <> tid ->
  In (paid_order user new_id now pos t f)
     (orders (drop_closed_tab (Some tid)
        (fold_left (pay_line user new_id) (pos_cart pos)
           (with_orders db (orders db ++ [paid_order user new_id now pos t f]))))).
Proof.
  intros Hne. simpl. apply filter_In. split.
  - rewrite pay_lines_orders. simpl. apply in_or_app. right. left. reflexivity.
  - simpl. destruct (new_id =? tid)%string eqn:E; [|reflexivity].
    apply String.eqb_eq in E. contradiction.
Qed.

Lemma paid_lines user new_id now pos db t f v :
  user_exists (user_id user) db = true ->
  line_table v (fold_left (pay_line user new_id) (pos_cart pos)
     (with_orders db (orders db ++ [paid_order user new_id now pos t f])))
  = line_table v db
    ++ map (order_line user new_id) (filter (of_variant v) (listed db (pos_cart pos))).
Proof.
  intros Hu. rewrite pay_lines_table.
  - rewrite (listed_same _ _ _ (with_orders_references db _)). destruct v; reflexivity.
  - rewrite order_exists_app. simpl. rewrite String.eqb_refl. apply orb_true_r.
  - exact Hu.
Qed.

(** C7. Closing out a reopened tab: once the paid order and its lines are
    written, the pending order is deleted and no line of it is left in
    any of the three tables ([order_items] and [order_shots] by the
    handler's deletes, [order_specials] with the order, by the cascade).
    The paid order is in the store, its amounts as the DECIMAL(10,2)
    columns round them, with one line per cart line whose product the
    catalog holds: one per cart line when it holds them all.  The
    caller is a user of the store and the amounts fit their columns
    (otherwise the insert of the paid order is refused and the handler
    stops before the deletes). *)
Theorem completePayment_removes_closed_tab
    (user : User) (new_id : uuid) (now : Z) (pos : POS) (db : Store) (tid : uuid)
    (t f : float) :
  pos_orderType pos = quick ->
  pos_editingTabId pos = Some tid ->
  order_exists tid db = true ->
  order_exists new_id db = false ->
  user_exists (user_id user) db = true ->
  amounts_stored user (pos_cart pos) t f ->
  let db' := snd (fst (completePayment user new_id now pos db)) in
  order_exists tid db' = false
  /\ (forall v, lines_of tid (line_table v db') = [])
  /\ In (paid_order user new_id now pos t f) (orders db')
  /\ (forall v, lines_of new_id (line_table v db') =
        lines_of new_id (line_table v db)
        ++ map (order_line user new_id) (filter (of_variant v) (listed db (pos_cart pos))))
  /\ (cart_listed db (pos_cart pos) ->
       forall v, lines_of new_id (line_table v db') =
         lines_of new_id (line_table v db)
         ++ map (order_line user new_id) (filter (of_variant v) (pos_cart pos))).
Proof.
  intros Hq He Hex Hf Hu Ha db'. subst db'.
  rewrite (completePayment_quick _ _ _ _ _ _ _ Hq Hf Hu Ha), He. cbv zeta. cbn [fst snd].
  pose proof (fresh_differs _ _ _ Hf Hex) as Hne.
  assert (Hlines : forall v,
    lines_of new_id (line_table v (drop_closed_tab (Some tid)
      (fold_left (pay_line user new_id) (pos_cart pos)
         (with_orders db (orders db ++ [paid_order user new_id now pos t f]))))) =
    lines_of new_id (line_table v db)
    ++ map (order_line user new_id) (filter (of_variant v) (listed db (pos_cart pos)))).
  { intros v. rewrite lines_after_drop_other by exact Hne.
    rewrite (paid_lines _ _ _ _ _ _ _ _ Hu), lines_of_app, lines_of_order_lines.
    reflexivity. }
  split; [apply not_exists_after_delete|].
  split; [intros v; apply lines_after_delete_order|].
  split; [apply paid_order_stays, Hne|].
  split; [exact Hlines|].
  intros Hl v. rewrite Hlines, (listed_all _ _ Hl). reflexivity.
Qed.

Lemma in_orders_after_drop editing db o :
  In o (orders (drop_closed_tab editing db)) -> In o (orders db).
Proof.
  destruct editing as [tid|]; simpl; [|auto]. intros H. apply filter_In in H. apply H.
Qed.

Lemma order_row_inserted new_id now name st pm total fee staff db db1 o1 :
  db_insert_order new_id now name st pm total fee staff db = Some (db1, o1) ->
  exists t f, db1 = with_orders db (orders db ++ [mkOrder new_id name st pm t f now now staff])
              /\ o1 = mkOrder new_id name st pm t f now now staff.
Proof.
  unfold db_insert_order. intros I.
  destruct (order_exists new_id db); [discriminate|].
  destruct (negb _); [discriminate|].
  destruct (decimal_10_2 total) as [t|]; [|discriminate].
  destruct (decimal_10_2 fee) as [f|]; [|discriminate].
  injection I as <- <-. exists t, f. split; reflexivity.
Qed.

Lemma saveAsTab_orders user new_id now pos db o :
  In o (orders (snd (fst (saveAsTab user new_id now pos db)))) ->
  In o (orders db) \/ order_table_name o <> EmptyString.
Proof.
  unfold saveAsTab.
  destruct (is_empty_string (pos_tableName pos) || (List.length (pos_cart pos) =? 0)%nat) eqn:V;
    [simpl; auto|].
  apply orb_false_elim in V as [Hn _].
  assert (Hname : pos_tableName pos <> EmptyString)
    by (destruct (pos_tableName pos); [discriminate Hn | discriminate]).
  destruct (pos_editingTabId pos) as [tid|].
  - destruct (db_update_order _ _ _ _ _ db) as [db1|] eqn:U; [|simpl; auto].
    apply db_update_order_amounts in U as (t & f & _ & _ & ->).
    simpl. rewrite save_lines_orders. simpl. intros H.
    apply in_map_iff in H as [o0 [<- Hin]].
    destruct (order_id o0 =? tid)%string; [right; exact Hname | left; exact Hin].
  - destruct (db_insert_order _ _ _ _ _ _ _ _ db) as [[db1 o1]|] eqn:I; [|simpl; auto].
    apply order_row_inserted in I as (t & f & -> & ->).
    simpl. rewrite save_lines_orders. simpl. intros H.
    apply in_app_or in H as [H|[<-|[]]]; [left; exact H | right; exact Hname].
Qed.

Lemma completePayment_orders user new_id now pos db o :
  In o (orders (snd (fst (completePayment user new_id now pos db)))) ->
  In o (orders db) \/ order_table_name o <> EmptyString.
Proof.
  destruct (pos_orderType pos) eqn:Hq.
  - unfold completePayment. rewrite Hq.
    destruct (db_insert_order _ _ _ _ _ _ _ _ db) as [[db1 o1]|] eqn:I; [|simpl; auto].
    apply order_row_inserted in I as (t & f & -> & ->).
    cbv zeta. cbn [fst snd order_id].
    intros H. apply in_orders_after_drop in H.
    rewrite pay_lines_orders in H. simpl in H.
    apply in_app_or in H as [H|[<-|[]]]; [left; exact H|].
    right. simpl. apply table_or_quick_sale_nonempty.
  - unfold completePayment. rewrite Hq. apply saveAsTab_orders.
Qed.

(** C10. [completePayment] never stores an order with an empty table
    name: every order of the resulting store was there before or carries
    a non-empty name.  A quick sale with an empty table name that the
    store accepts (an unused identifier, a caller it holds, amounts that
    fit their columns) goes through: the effects are the call of
    [printProforma] and the success alert, and the paid order is stored
    under the name "Quick Sale", its amounts as the columns round them. *)
Theorem completePayment_default_table_name
    (user : User) (new_id : uuid) (now : Z) (pos : POS) (db : Store) :
  let db' := snd (fst (completePayment user new_id now pos db)) in
  (forall o, In o (orders db') ->
     In o (orders db) \/ order_table_name o <> EmptyString)
  /\ (forall t f,
      pos_orderType pos = quick ->
      pos_tableName pos = EmptyString ->
      order_exists new_id db = false ->
      user_exists (user_id user) db = true ->
      amounts_stored user (pos_cart pos) t f ->
      (forall tid, pos_editingTabId pos = Some tid -> order_exists tid db = true) ->
      snd (completePayment user new_id now pos db) =
        [Print (printProforma user new_id quick_sale (pos_cart pos) true);
         Alert payment_done_alert]
      /\ In (mkOrder new_id quick_sale paid (Some (pos_paymentMethod pos))
               t f now now (user_id user))
            (orders db')).
Proof.
  intros db'. subst db'. split; [intros o; apply completePayment_orders|].
  intros t f Hq Hn Hf Hu Ha Hed.
  rewrite (completePayment_quick _ _ _ _ _ _ _ Hq Hf Hu Ha). cbv zeta. cbn [fst snd].
  rewrite Hn. simpl table_or_quick_sale. split; [reflexivity|].
  assert (Hin : In (paid_order user new_id now pos t f)
                  (orders (fold_left (pay_line user new_id) (pos_cart pos)
                     (with_orders db (orders db ++ [paid_order user new_id now pos t f]))))).
  { rewrite pay_lines_orders. simpl. apply in_or_app. right. left. reflexivity. }
  unfold paid_order in Hin at 1. rewrite Hn in Hin. simpl table_or_quick_sale in Hin.
  destruct (pos_editingTabId pos) as [tid|] eqn:He; [|exact Hin].
  simpl. apply filter_In. split; [exact Hin|]. simpl.
  destruct (new_id =? tid)%string eqn:E; [|reflexivity].
  apply String.eqb_eq in E. subst tid. rewrite (Hed new_id eq_refl) in Hf. discriminate.
Qed.

(** ** completePayment: stock *)

Lemma stock_of_stock_in id db : stock_of id db = stock_in id (items db).
Proof. reflexivity. Qed.

Lemma pay_line_items user orderId db ci :
  items (pay_line user orderId db ci) = stock_write (items db) ci.
Proof.
  unfold pay_line, stock_write, db_insert_order_shot, db_insert_order_special,
    db_insert_order_item.
  destruct (isShot ci), (isSpecial ci);
    repeat match goal with |- context [if ?c then _ else _] => destruct c end;
    destruct (product_quantity (item ci)); reflexivity.
Qed.

Lemma pay_lines_items user orderId cart : forall db,
  items (fold_left (pay_line user orderId) cart db) = fold_left stock_write cart (items db).
Proof.
  induction cart as [|ci r IH]; intros db; simpl; [reflexivity|].
  rewrite IH, pay_line_items. reflexivity.
Qed.

Lemma stock_in_update id id0 q its :
  stock_in id (items (db_update_item_quantity id0 q (mkStore [] its [] [] [] [] [] []))) =
  if (id0 =? id)%string then option_map (fun _ => q) (stock_in id its) else stock_in id its.
Proof.
  unfold stock_in. simpl. induction its as [|i r IH]; simpl.
  - destruct (id0 =? id)%string; reflexivity.
  - destruct (item_id i =? id0)%string eqn:E0; simpl.
    + apply String.eqb_eq in E0. rewrite E0.
      destruct (id0 =? id)%string eqn:E; [reflexivity|].
      rewrite IH. reflexivity.
    + destruct (item_id i =? id)%string eqn:E.
      * destruct (id0 =? id)%string eqn:E1; [|reflexivity].
        apply String.eqb_eq in E, E1. apply String.eqb_neq in E0. congruence.
      * exact IH.
Qed.

Lemma stock_write_other id its ci :
  (of_variant VItem ci = true -> product_id (item ci) <> id) ->
  stock_in id (stock_write its ci) = stock_in id its.
Proof.
  intros H. unfold stock_write. unfold of_variant, variant_of in H.
  destruct (isShot ci); [reflexivity|]. destruct (isSpecial ci); [reflexivity|].
  destruct (product_quantity (item ci)); [|reflexivity].
  rewrite stock_in_update.
  destruct (product_id (item ci) =? id)%string eqn:E; [|reflexivity].
  apply String.eqb_eq in E. exfalso. apply H; [reflexivity | exact E].
Qed.

Lemma stock_write_listed id its ci :
  stock_in id its <> None -> stock_in id (stock_write its ci) <> None.
Proof.
  intros H. unfold stock_write.
  destruct (isShot ci); [exact H|]. destruct (isSpecial ci); [exact H|].
  destruct (product_quantity (item ci)); [|exact H].
  rewrite stock_in_update. destruct (_ =? id)%string; [|exact H].
  destruct (stock_in id its); [discriminate | contradiction].
Qed.

Lemma stock_writes_other id cart : forall its,
  ~ In id (item_line_ids cart) ->
  stock_in id (fold_left stock_write cart its) = stock_in id its.
Proof.
  unfold item_line_ids.
  induction cart as [|ci r IH]; intros its Hn; simpl; [reflexivity|].
  simpl in Hn. destruct (of_variant VItem ci) eqn:Ev.
  - simpl in Hn. rewrite IH by tauto. apply stock_write_other. intros _ Heq. tauto.
  - rewrite IH by exact Hn. apply stock_write_other. intros H. congruence.
Qed.

(** The stock an item line leaves: the quantity the cart's copy of the
    item carries, less the line quantity. *)
Lemma stock_writes_line cart : forall its ci i,
  In ci cart -> of_variant VItem ci = true -> item ci = PItem i ->
  NoDup (item_line_ids cart) ->
  stock_in (item_id i) its <> None ->
  stock_in (item_id i) (fold_left stock_write cart its) =
  Some (item_quantity i - quantity ci).
Proof.
  unfold item_line_ids.
  induction cart as [|c r IH]; intros its ci i Hin Hv Hi Hnd Hl; [contradiction|].
  simpl in *. destruct Hin as [->|Hin].
  - rewrite Hv in Hnd. simpl in Hnd. apply NoDup_cons_iff in Hnd as [Hni _].
    rewrite Hi in Hni. simpl in Hni.
    rewrite (stock_writes_other _ _ _ Hni).
    unfold stock_write. unfold of_variant, variant_of in Hv.
    destruct (isShot ci); [discriminate|]. destruct (isSpecial ci); [discriminate|].
    rewrite Hi. cbn [product_quantity product_id]. rewrite stock_in_update, String.eqb_refl.
    destruct (stock_in (item_id i) its); [reflexivity | contradiction].
  - apply (IH (stock_write its c) ci i Hin Hv Hi).
    + destruct (of_variant VItem c); [|exact Hnd].
      simpl in Hnd. apply NoDup_cons_iff in Hnd. apply Hnd.
    + apply stock_write_listed, Hl.
Qed.

Lemma items_after_drop editing db : items (drop_closed_tab editing db) = items db.
Proof. destruct editing; reflexivity. Qed.

(** What a quick sale the store accepts writes to the stock of the items it sells: for each
    item line, the quantity carried by the cart's copy of the item less
    the line quantity, whatever the store holds at that moment; no other
    item is touched.  When the cart's copy is current this is the stored
    quantity less the line quantity. *)
Lemma completePayment_stock_written
    (user : User) (new_id : uuid) (now : Z) (pos : POS) (db : Store) (t f : float) :
  pos_orderType pos = quick -> order_exists new_id db = false ->
  user_exists (user_id user) db = true ->
  amounts_stored user (pos_cart pos) t f ->
  NoDup (item_line_ids (pos_cart pos)) ->
  let db' := snd (fst (completePayment user new_id now pos db)) in
  (forall ci i, In ci (pos_cart pos) -> of_variant VItem ci = true ->
     item ci = PItem i -> stock_of (item_id i) db <> None ->
     stock_of (item_id i) db' = Some (item_quantity i - quantity ci))
  /\ (forall ci i, In ci (pos_cart pos) -> of_variant VItem ci = true ->
     item ci = PItem i -> stock_of (item_id i) db = Some (item_quantity i) ->
     exists s, stock_of (item_id i) db = Some s
               /\ stock_of (item_id i) db' = Some (s - quantity ci))
  /\ (forall id, ~ In id (item_line_ids (pos_cart pos)) ->
     stock_of id db' = stock_of id db).
Proof.
  intros Hq Hf Hu Ha Hnd db'. subst db'.
  rewrite (completePayment_quick _ _ _ _ _ _ _ Hq Hf Hu Ha). cbv zeta. cbn [fst snd].
  assert (Hitems : forall id,
     stock_of id (drop_closed_tab (pos_editingTabId pos)
                    (fold_left (pay_line user new_id) (pos_cart pos)
                       (with_orders db (orders db ++ [paid_order user new_id now pos t f]))))
     = stock_in id (fold_left stock_write (pos_cart pos) (items db))).
  { intros id. rewrite stock_of_stock_in, items_after_drop, pay_lines_items. reflexivity. }
  split; [|split].
  - intros ci i Hin Hv Hi Hl. rewrite Hitems. apply stock_writes_line; assumption.
  - intros ci i Hin Hv Hi Hs. exists (item_quantity i). split; [exact Hs|].
    rewrite Hitems. apply stock_writes_line; try assumption.
    rewrite <- stock_of_stock_in, Hs. discriminate.
  - intros id Hn. rewrite Hitems. apply stock_writes_other, Hn.
Qed.

(** ** Tab registry: save, then reopen *)

Lemma in_insert_by_updated x o l : In x (insert_by_updated o l) <-> x = o \/ In x l.
Proof.
  induction l as [|y r IH]; simpl; [intuition|].
  destruct (order_updated_at y <=? order_updated_at o); simpl; [intuition|].
  rewrite IH. intuition.
Qed.

Lemma in_order_by_updated_desc x l : In x (order_by_updated_desc l) <-> In x l.
Proof.
  induction l as [|y r IH]; simpl; [reflexivity|].
  rewrite in_insert_by_updated, IH. intuition.
Qed.

Lemma in_loadOpenTabs user db t :
  In t (loadOpenTabs user db) <->
  exists o, In o (orders db) /\ order_status o = pending
            /\ order_staff_id o = user_id user /\ t = open_tab db o.
Proof.
  unfold loadOpenTabs. rewrite in_map_iff. split.
  - intros [o [<- Hin]]. apply in_order_by_updated_desc, filter_In in Hin as [Hin Hp].
    apply andb_prop in Hp as [Hs Hu]. exists o. repeat split; try assumption.
    + destruct (order_status o); [reflexivity | discriminate].
    + apply String.eqb_eq. exact Hu.
  - intros [o (Hin & Hs & Hu & ->)]. exists o. split; [reflexivity|].
    apply in_order_by_updated_desc, filter_In. split; [exact Hin|].
    rewrite Hs, Hu, String.eqb_refl. reflexivity.
Qed.















Lemma saveAsTab_catalog user new_id now pos db :
  let db' := snd (fst (saveAsTab user new_id now pos db)) in
  items db' = items db /\ shots db' = shots db /\ specials db' = specials db.
Proof.
  unfold saveAsTab.
  destruct (is_empty_string (pos_tableName pos) || _); [simpl; auto|].
  destruct (pos_editingTabId pos) as [tid|].
  - destruct (db_update_order _ _ _ _ _ db) as [db1|] eqn:U; [|simpl; auto].
    apply db_update_order_amounts in U as (t & f & _ & _ & ->). simpl.
    match goal with |- context [fold_left _ _ ?d] =>
      destruct (save_lines_catalog user tid (pos_cart pos) d) as (-> & -> & ->) end.
    auto.
  - destruct (db_insert_order _ _ _ _ _ _ _ _ db) as [[db1 o1]|] eqn:I; [|simpl; auto].
    apply order_row_inserted in I as (t & f & -> & ->). simpl.
    match goal with |- context [fold_left _ _ ?d] =>
      destruct (save_lines_catalog user new_id (pos_cart pos) d) as (-> & -> & ->) end.
    auto.
Qed.







(** ** Pricing *)

Lemma calculateSubtotal_snoc cart ci :
  calculateSubtotal (cart ++ [ci]) =
  (calculateSubtotal cart + product_price (item ci) * number_of_Z (quantity ci))%float.
Proof. unfold calculateSubtotal. rewrite fold_left_app. reflexivity. Qed.

Lemma exact_subtotal_perm c1 c2 :
  Permutation c1 c2 -> (exact_subtotal c1 == exact_subtotal c2)%Q.
Proof.
  induction 1 as [|x l l' _ IH|x y l|l l' l'' _ IH1 _ IH2]; simpl.
  - reflexivity.
  - rewrite IH. reflexivity.
  - ring.
  - rewrite IH1. exact IH2.
Qed.

Lemma computes_exactly_value cart : forall sum a,
  computes_exactly sum cart -> exact_value sum = Some a ->
  exists s,
    exact_value (fold_left (fun sum ci => (sum + line_value ci)%float) cart sum) = Some s
    /\ (s == a + exact_subtotal cart)%Q.
Proof.
  induction cart as [|ci r IH]; intros sum a Hc Ha; simpl.
  - exists a. split; [exact Ha | ring].
  - destruct Hc as (Hp & Hs & Hr).
    unfold exact_product in Hp. unfold exact_sum in Hs. unfold exact_price.
    rewrite Ha in Hs.
    destruct (exact_value (product_price (item ci))) as [p|]; [|contradiction].
    destruct (exact_value (line_value ci)) as [y|]; [|contradiction].
    destruct (exact_value (sum + line_value ci)%float) as [z|] eqn:Ez; [|contradiction].
    destruct (IH _ z Hr Ez) as [s [Hv Hq]].
    exists s. split; [exact Hv|]. rewrite Hq, Hs, Hp. ring.
Qed.

Lemma exact_value_zero : exact_value 0%float = Some 0%Q.
Proof. reflexivity. Qed.

Lemma subtotal_exact cart :
  computes_exactly 0%float cart ->
  exists s, exact_value (calculateSubtotal cart) = Some s /\ (s == exact_subtotal cart)%Q.
Proof.
  intros Hc. destruct (computes_exactly_value cart _ _ Hc exact_value_zero) as [s [Hv Hq]].
  exists s. split; [exact Hv|]. rewrite Hq. ring.
Qed.

(** C3, in binary64 arithmetic. The subtotal is the left-to-right binary64 sum of
    the products price * quantity; the service fee is subtotal * 0.1 for
    a waitress and 0 for the other roles; the total is subtotal + fee;
    fee and total depend on the lines through the subtotal only.  When no
    product and no addition of the reduction rounds, the subtotal is
    exactly the sum of quantity * unit price, and two orders of the lines
    that both reduce without rounding give the same number. *)
Theorem pricing_formulas (user : User) (cart : Cart) :
  calculateSubtotal [] = 0%float
  /\ (forall ci, calculateSubtotal (cart ++ [ci]) =
        (calculateSubtotal cart + product_price (item ci) * number_of_Z (quantity ci))%float)
  /\ (user_role user = waitress ->
        calculateServiceFee user cart = (calculateSubtotal cart * 0.1)%float)
  /\ (user_role user <> waitress -> calculateServiceFee user cart = 0%float)
  /\ calculateTotal user cart =
       (calculateSubtotal cart + calculateServiceFee user cart)%float
  /\ (forall cart', calculateSubtotal cart' = calculateSubtotal cart ->
        calculateServiceFee user cart' = calculateServiceFee user cart
        /\ calculateTotal user cart' = calculateTotal user cart)
  /\ (computes_exactly 0%float cart ->
        exists s, exact_value (calculateSubtotal cart) = Some s
                  /\ (s == exact_subtotal cart)%Q)
  /\ (forall cart', Permutation cart cart' ->
        computes_exactly 0%float cart -> computes_exactly 0%float cart' ->
        exists s s', exact_value (calculateSubtotal cart) = Some s
                     /\ exact_value (calculateSubtotal cart') = Some s'
                     /\ (s == s')%Q).
Proof.
  split; [reflexivity|]. split; [intros ci; apply calculateSubtotal_snoc|].
  split; [intros Hr; unfold calculateServiceFee; rewrite Hr; reflexivity|].
  split.
  { intros Hr. unfold calculateServiceFee.
    destruct (user_role user); try reflexivity. contradiction. }
  split; [reflexivity|]. split.
  { intros cart' H. unfold calculateTotal, calculateServiceFee. rewrite H. auto. }
  split; [apply subtotal_exact|].
  intros cart' Hperm H1 H2.
  destruct (subtotal_exact _ H1) as [s [Hs Hq]].
  destruct (subtotal_exact _ H2) as [s' [Hs' Hq']].
  exists s, s'. split; [exact Hs|]. split; [exact Hs'|].
  rewrite Hq, Hq'. apply exact_subtotal_perm, Hperm.
Qed.

(** The receipt carries the amounts of the pricing functions. *)
Lemma printProforma_amounts user id table cart final :
  pf_subtotal (printProforma user id table cart final) = calculateSubtotal cart
  /\ pf_serviceFee (printProforma user id table cart final) = calculateServiceFee user cart
  /\ pf_total (printProforma user id table cart final) = calculateTotal user cart
  /\ pf_vat (printProforma user id table cart final) = calculateVAT user cart.
Proof. repeat split. Qed.

(** C9. The VAT shown is total - total / 1.15 in binary64, on the screen
    ([calculateVAT]) and on every proforma; for a waitress and a subtotal
    of 100 the fee is 10, the total 110 and the VAT prints as 14.35. *)
Theorem vat_inclusive_tax (user : User) (cart : Cart) :
  calculateVAT user cart =
    (calculateTotal user cart - calculateTotal user cart / 1.15)%float
  /\ (forall id table final,
        pf_vat (printProforma user id table cart final) =
        (calculateTotal user cart - calculateTotal user cart / 1.15)%float)
  /\ (user_role user = waitress -> calculateSubtotal cart = 100%float ->
        calculateServiceFee user cart = 10%float
        /\ calculateTotal user cart = 110%float
        /\ toFixed2 (calculateServiceFee user cart) = Some 1000
        /\ toFixed2 (calculateTotal user cart) = Some 11000
        /\ toFixed2 (calculateVAT user cart) = Some 1435).
Proof.
  split; [reflexivity|]. split; [reflexivity|].
  intros Hr Hs. unfold calculateVAT, calculateTotal, calculateServiceFee.
  rewrite Hr, Hs. vm_compute. repeat split.
Qed.

(** ** Worked scenarios *)

Section Scenarios.

Local Open Scope string_scope.

(** Two closed floats that differ: refuted by evaluating their comparison. *)
Ltac float_absurd H :=
  match type of H with
  | ?a = ?b =>
      let E := fresh in
      pose proof (f_equal (fun x => PrimFloat.eqb x b) H) as E;
      vm_compute in E; discriminate E
  end.

Example scenario_a_three_adds :
  cart_run beer [OpAdd; OpAdd; OpAdd] [] =
    [[own_line beer 1]; [own_line beer 2]; [own_line beer 3]]
  /\ calculateSubtotal [own_line beer 3] = 13.5%float
  /\ cart_step beer (OpChange 3) [own_line beer 3] = ([own_line beer 3], [InsufficientStock]).
Proof. repeat split. Qed.

Example reopened_tab_carts :
  pos_cart editing_pos = edited_cart
  /\ pos_editingTabId editing_pos = Some "t1"
  /\ pos_orderType editing_pos = tab
  /\ pos_cart closing_pos = [own_line beer 1; shot_line hennessy 1; special_line wings 1]
  /\ pos_orderType closing_pos = quick.
Proof. repeat split. Qed.

Example scenario_c_payment :
  let db' := snd (fst (completePayment john "o1" 10 (quick_pos two_beers "Bar") shop_repriced)) in
  stock_of "i-beer" shop_repriced = Some 5
  /\ stock_of "i-beer" db' = Some 3
  /\ order_items db' = [mkOrderLine "o1" "i-beer" "u-john" 2 4.5%float]
  /\ catalog_price VItem "i-beer" db' = Some 5%float.
Proof. vm_compute. repeat split. Qed.

(** Scenario A through the ceiling lemma. *)
Example scenario_a_within_stock :
  Forall (within_stock "i-beer" 5) (cart_run beer scenario_a_ops [])
  /\ updateQuantity "i-beer" 3 false false [own_line beer 3]
     = ([own_line beer 3], [InsufficientStock]).
Proof.
  assert (Ht : tracks beer []) by (apply tracks_absent; intros ci []).
  destruct (tracked_line_never_exceeds_stock beer [] scenario_a_ops Ht) as [Hw Hr].
  split; [exact Hw|].
  destruct (Hr [own_line beer 3]) as (_ & _ & Hc).
  - right. right. right. left. reflexivity.
  - apply (Hc (own_line beer 3) 3); [reflexivity | simpl; lia].
Qed.

(** C1, on a cart filled before the stock went down.  The cart took its
    two beers while the stock read 5; another till then sold three, so
    the live quantity Q is 2 and the line is within it.  The increment
    tests the quantity in the cart line's copy of the item (5), not Q:
    it goes through without an alert and leaves a line of 3 > Q.
    [addToCart], which is handed the live item, refuses the same step. *)
Theorem updateQuantity_checks_stale_copy :
  cart_run beer [OpAdd; OpAdd] [] = [[own_line beer 1]; two_beers]
  /\ item_id beer_sold_down = item_id beer
  /\ item_quantity beer_sold_down = 2
  /\ within_stock (item_id beer_sold_down) (item_quantity beer_sold_down) two_beers
  /\ cart_step beer_sold_down (OpChange 1) two_beers = ([own_line beer 3], [])
  /\ cart_run beer_sold_down [OpChange 1] two_beers = [[own_line beer 3]]
  /\ ~ Forall (within_stock (item_id beer_sold_down) (item_quantity beer_sold_down))
         (cart_run beer_sold_down [OpChange 1] two_beers)
  /\ cart_step beer_sold_down OpAdd two_beers = (two_beers, [InsufficientStock]).
Proof.
  split; [reflexivity|]. split; [reflexivity|]. split; [reflexivity|]. split.
  { intros ci [<-|[]] _. simpl. lia. }
  split; [reflexivity|]. split; [reflexivity|]. split; [|reflexivity].
  intros H. apply Forall_inv in H.
  specialize (H (own_line beer 3) (or_introl eq_refl) eq_refl). simpl in H. lia.
Qed.

(** C2, on a cart filled before another payment.  Both tills took their
    two beers at stock 5.  Each payment writes 5 - 2, the quantity in the
    cart's copy of the item less the line quantity: after the second
    payment the stored quantity is still 3, not 3 - 2.  The lines carry
    the cart's unit price. *)
Theorem completePayment_stale_cart_stock :
  let db1 := snd (fst (completePayment john "o1" 10 (quick_pos two_beers "Bar") shop)) in
  let db2 := snd (fst (completePayment mary "o2" 20 (quick_pos two_beers "Table 4") db1)) in
  stock_of "i-beer" shop = Some 5
  /\ stock_of "i-beer" db1 = Some 3
  /\ stock_of "i-beer" db2 = Some 3
  /\ map line_quantity (order_items db2) = [2; 2]
  /\ map price_at_time (order_items db2) = [4.5%float; 4.5%float].
Proof. vm_compute. repeat split. Qed.


Lemma saveAsTab_validation_error_witness :
  pos_tableName (quick_pos two_beers "") = EmptyString
  /\ saveAsTab mary "o1" 10 (quick_pos two_beers "") shop
     = (quick_pos two_beers "", shop, [Alert tab_validation_alert]).
Proof.
  split; [reflexivity|].
  apply (saveAsTab_validation_error mary "o1" 10 (quick_pos two_beers "") shop).
  left. reflexivity.
Defined.

(** Closing out tab "t1" as Mary: the fee of the cart is the number
    8.950000000000001, stored as 8.95. *)
Lemma completePayment_removes_closed_tab_witness :
  (pos_orderType closing_pos = quick /\ pos_editingTabId closing_pos = Some "t1"
   /\ order_exists "t1" shop_with_tab = true /\ order_exists "o2" shop_with_tab = false
   /\ user_exists (user_id mary) shop_with_tab = true
   /\ amounts_stored mary (pos_cart closing_pos) 98.45%float 8.95%float)
  /\ calculateServiceFee mary (pos_cart closing_pos) = 8.950000000000001%float
  /\ order_exists "t1"
       (snd (fst (completePayment mary "o2" 200 closing_pos shop_with_tab))) = false
  /\ (forall v, lines_of "t1" (line_table v
        (snd (fst (completePayment mary "o2" 200 closing_pos shop_with_tab)))) = [])
  /\ In (mkOrder "o2" "Table 4" paid (Some cash) 98.45%float 8.95%float 200 200 "u-mary")
        (orders (snd (fst (completePayment mary "o2" 200 closing_pos shop_with_tab)))).
Proof.
  assert (Ha : amounts_stored mary (pos_cart closing_pos) 98.45%float 8.95%float)
    by (split; vm_compute; reflexivity).
  split; [repeat split; exact Ha|].
  split; [vm_compute; reflexivity|].
  destruct (completePayment_removes_closed_tab mary "o2" 200 closing_pos shop_with_tab "t1"
              98.45%float 8.95%float eq_refl eq_refl eq_refl eq_refl eq_refl Ha)
    as (H1 & H2 & H3 & _).
  split; [exact H1|]. split; [exact H2 | exact H3].
Defined.

Lemma completePayment_default_table_name_witness :
  (pos_orderType (quick_pos two_beers "") = quick
   /\ pos_tableName (quick_pos two_beers "") = EmptyString
   /\ order_exists "o1" shop = false
   /\ user_exists (user_id john) shop = true
   /\ amounts_stored john (pos_cart (quick_pos two_beers "")) 9%float 0%float)
  /\ In (mkOrder "o1" "Quick Sale" paid (Some cash) 9%float 0%float 10 10 "u-john")
        (orders (snd (fst (completePayment john "o1" 10 (quick_pos two_beers "") shop)))).
Proof.
  assert (Ha : amounts_stored john (pos_cart (quick_pos two_beers "")) 9%float 0%float)
    by (split; vm_compute; reflexivity).
  split; [repeat split; exact Ha|].
  destruct (completePayment_default_table_name john "o1" 10 (quick_pos two_beers "") shop)
    as [_ H].
  destruct (H 9%float 0%float eq_refl eq_refl eq_refl eq_refl Ha) as [_ Hin].
  - intros tid Hed. discriminate Hed.
  - exact Hin.
Defined.

Lemma vat_inclusive_tax_witness :
  (user_role mary = waitress /\ calculateSubtotal [shot_line hennessy 2] = 100%float)
  /\ calculateServiceFee mary [shot_line hennessy 2] = 10%float
  /\ calculateTotal mary [shot_line hennessy 2] = 110%float
  /\ toFixed2 (calculateVAT mary [shot_line hennessy 2]) = Some 1435.
Proof.
  split; [split; reflexivity|].
  destruct (vat_inclusive_tax mary [shot_line hennessy 2]) as (_ & _ & H).
  destruct (H eq_refl eq_refl) as (H1 & H2 & _ & _ & H3).
  repeat split; assumption.
Defined.

(** Coca Cola x2, Burger and Wine: the subtotal depends on which of the
    last two lines comes first. *)
Lemma subtotal_depends_on_line_order :
  Permutation cart_coke_burger_wine cart_coke_wine_burger
  /\ calculateSubtotal cart_coke_burger_wine = 26.98%float
  /\ calculateSubtotal cart_coke_wine_burger = 26.980000000000004%float
  /\ calculateSubtotal cart_coke_burger_wine <> calculateSubtotal cart_coke_wine_burger
  /\ calculateTotal mary cart_coke_burger_wine <> calculateTotal mary cart_coke_wine_burger.
Proof.
  split; [apply perm_skip, perm_swap|].
  split; [reflexivity|]. split; [reflexivity|].
  split; intros H; float_absurd H.
Qed.

Lemma computes_exactly_round : computes_exactly 0%float cart_round.
Proof. vm_compute. repeat split. Qed.

Lemma computes_exactly_round' : computes_exactly 0%float cart_round'.
Proof. vm_compute. repeat split. Qed.

Lemma pricing_formulas_witness :
  (user_role mary = waitress /\ Permutation cart_round cart_round'
   /\ computes_exactly 0%float cart_round /\ computes_exactly 0%float cart_round')
  /\ calculateServiceFee mary cart_round = (calculateSubtotal cart_round * 0.1)%float
  /\ exists s s', exact_value (calculateSubtotal cart_round) = Some s
                  /\ exact_value (calculateSubtotal cart_round') = Some s'
                  /\ (s == s')%Q.
Proof.
  assert (Hp : Permutation cart_round cart_round').
  { unfold cart_round, cart_round'.
    apply Permutation_sym. apply (Permutation_cons_append [_; _]). }
  split.
  { split; [reflexivity|]. split; [exact Hp|].
    split; [exact computes_exactly_round | exact computes_exactly_round']. }
  destruct (pricing_formulas mary cart_round) as (_ & _ & Hw & _ & _ & _ & _ & Ho).
  split; [exact (Hw eq_refl)|].
  exact (Ho cart_round' Hp computes_exactly_round computes_exactly_round').
Defined.

Lemma shop_with_tab_lines_reference_orders : lines_reference_orders shop_with_tab.
Proof.
  intros v l Hin. destruct v; simpl in Hin; destruct Hin as [<-|[]]; reflexivity.
Qed.


(** The prices of the sample catalog are two-decimal amounts: a
    DECIMAL(10,2) column stores each of them as it is. *)
Example catalog_prices_stored_as_sent :
  Forall (fun p => decimal_10_2 p = Some p)
    [item_price beer; item_price coke; item_price burger; item_price wine;
     shot_price hennessy; special_price wings; item_price beer_repriced].
Proof. repeat constructor. Qed.

(** The store rounds the amounts it is sent: a waitress sells one item
    at 4.55; the proforma prints the total 5.00, the order row holds
    5.01. *)
Example stored_total_differs_from_printed :
  let pie := mkItem "i-pie" "Pie" 10 None 4.55%float "Food" 5 in
  toFixed2 (pf_total (printProforma mary "o1" "Table 1" [own_line pie 1] false)) = Some 500
  /\ option_map toFixed2 (decimal_10_2 (calculateTotal mary [own_line pie 1]))
     = Some (Some 501).
Proof. vm_compute. split; reflexivity. Qed.


End Scenarios.

(** ** Cart: the five operations *)

Lemma findIndex_some {A} (p : A -> bool) l : forall i,
  findIndex p l = Some i ->
  exists l1 x l2, l = l1 ++ x :: l2 /\ List.length l1 = i /\ p x = true
                  /\ (forall y, In y l1 -> p y = false).
Proof.
  induction l as [|a r IH]; intros i H; simpl in H; [discriminate|].
  destruct (p a) eqn:Ea.
  - injection H as <-. exists [], a, r. repeat split; auto. intros y [].
  - destruct (findIndex p r) as [j|] eqn:Ej; [|discriminate].
    injection H as <-. destruct (IH j eq_refl) as (l1 & x & l2 & -> & <- & Hx & Hl).
    exists (a :: l1), x, l2. repeat split; auto.
    intros y [<-|Hy]; auto.
Qed.

Lemma findIndex_none_inv {A} (p : A -> bool) l :
  findIndex p l = None -> forall y, In y l -> p y = false.
Proof.
  induction l as [|a r IH]; intros H y Hy; simpl in *; [contradiction|].
  destruct (p a) eqn:Ea; [discriminate|].
  destruct (findIndex p r); [discriminate|].
  destruct Hy as [<-|Hy]; auto.
Qed.

(** The two shapes of an unguarded add: the first line found is
    incremented, or a new line is appended. *)
Lemma bump_cases (p : CartItem -> bool) (new : CartItem) (cart : Cart) :
  (exists l1 x l2, cart = l1 ++ x :: l2 /\ p x = true
       /\ (forall y, In y l1 -> p y = false)
       /\ bump p new cart = l1 ++ set_quantity x (increment (quantity x)) :: l2)
  \/ ((forall y, In y cart -> p y = false) /\ bump p new cart = cart ++ [new]).
Proof.
  unfold bump. destruct (findIndex p cart) as [i|] eqn:E.
  - left. destruct (findIndex_some _ _ _ E) as (l1 & x & l2 & -> & <- & Hx & Hl).
    exists l1, x, l2. repeat split; auto.
    apply (update_at_middle (fun c => set_quantity c (increment (quantity c)))).
  - right. split; [apply findIndex_none_inv, E | reflexivity].
Qed.

Lemma addShotToCart_bump s cart :
  addShotToCart s cart =
  bump (fun ci => (product_id (item ci) =? shot_id s)%string && isShot ci)
       (mkCartItem (PShot s) 1 true false) cart.
Proof. reflexivity. Qed.

Lemma addSpecialToCart_bump s cart :
  addSpecialToCart s cart =
  bump (fun ci => (product_id (item ci) =? special_id s)%string && isSpecial ci)
       (mkCartItem (PSpecial s) 1 false true) cart.
Proof. reflexivity. Qed.

(** The shapes of [addToCart]: refused (the cart is returned as it is),
    the first line of that product incremented, or a new line. *)
Lemma addToCart_cases (it : Item) (cart : Cart) :
  fst (addToCart it cart) = cart
  \/ (exists l1 x l2, cart = l1 ++ x :: l2
        /\ (product_id (item x) =? item_id it)%string = true
        /\ quantity x < item_quantity it
        /\ fst (addToCart it cart) = l1 ++ set_quantity x (quantity x + 1) :: l2)
  \/ ((forall y, In y cart -> (product_id (item y) =? item_id it)%string = false)
      /\ 0 < item_quantity it
      /\ fst (addToCart it cart) = cart ++ [own_line it 1]).
Proof.
  unfold addToCart. destruct (Z.leb_spec (item_quantity it) 0) as [HQ|HQ]; [left; reflexivity|].
  destruct (findIndex _ cart) as [i|] eqn:E.
  - destruct (findIndex_some _ _ _ E) as (l1 & x & l2 & -> & <- & Hx & Hl).
    rewrite nth_error_middle. destruct (Z.ltb_spec (quantity x) (item_quantity it)).
    + right. left. exists l1, x, l2. repeat split; auto. apply (update_at_middle (fun c => set_quantity c (quantity c + 1))).
    + left. reflexivity.
  - right. right. split; [apply (findIndex_none_inv _ _ E)|]. split; [exact HQ | reflexivity].
Qed.

Lemma update_line_cases id d s sp ci :
  fst (update_line id d s sp ci) = Some ci
  \/ (line_matches id s sp ci = true /\ quantity ci + d <= 0
      /\ fst (update_line id d s sp ci) = None)
  \/ (line_matches id s sp ci = true /\ 0 < quantity ci + d
      /\ (s = false -> sp = false -> forall i, item ci = PItem i ->
            quantity ci + d <= item_quantity i)
      /\ fst (update_line id d s sp ci) = Some (set_quantity ci (quantity ci + d))).
Proof.
  unfold update_line. destruct (line_matches id s sp ci) eqn:M; [|left; reflexivity].
  destruct (Z.leb_spec (quantity ci + d) 0) as [H0|H0]; [right; left; auto|].
  destruct (s || sp) eqn:F.
  - right. right. repeat split; auto. intros -> ->. discriminate.
  - destruct (product_quantity (item ci)) as [stock|] eqn:P.
    + destruct (quantity ci + d >? stock) eqn:G; [left; reflexivity|].
      right. right. repeat split; auto. intros _ _ i Hi.
      rewrite Hi in P. injection P as <-. rewrite Z.gtb_ltb in G.
      apply Z.ltb_ge in G. exact G.
    + right. right. repeat split; auto. intros _ _ i Hi. rewrite Hi in P. discriminate.
Qed.

Lemma updateQuantity_cons id d s sp ci rest :
  fst (updateQuantity id d s sp (ci :: rest)) =
  match fst (update_line id d s sp ci) with
  | Some c => c :: fst (updateQuantity id d s sp rest)
  | None => fst (updateQuantity id d s sp rest)
  end.
Proof.
  simpl. destruct (update_line id d s sp ci) as [o a].
  destruct (updateQuantity id d s sp rest) as [r a']. reflexivity.
Qed.

Lemma line_key_set_quantity ci q : line_key (set_quantity ci q) = line_key ci.
Proof. reflexivity. Qed.

Lemma keys_after_bump l1 x l2 q :
  map line_key (l1 ++ set_quantity x q :: l2) = map line_key (l1 ++ x :: l2).
Proof. rewrite !map_app. reflexivity. Qed.

Lemma NoDup_snoc {A} (l : list A) k : NoDup l -> ~ In k l -> NoDup (l ++ [k]).
Proof.
  intros Hn Hk. apply (Permutation_NoDup (l := k :: l)).
  - apply Permutation_cons_append.
  - constructor; assumption.
Qed.

Lemma keys_of_updateQuantity id d s sp cart k :
  In k (map line_key (fst (updateQuantity id d s sp cart))) -> In k (map line_key cart).
Proof.
  induction cart as [|ci r IH]; [simpl; auto|].
  rewrite updateQuantity_cons.
  destruct (update_line_cases id d s sp ci) as [E|[(_ & _ & E)|(_ & _ & _ & E)]];
    rewrite E; simpl; intuition.
Qed.

Lemma unique_after_updateQuantity id d s sp cart :
  unique_lines cart -> unique_lines (fst (updateQuantity id d s sp cart)).
Proof.
  unfold unique_lines. induction cart as [|ci r IH]; intros Hn; [simpl; constructor|].
  rewrite updateQuantity_cons. simpl in Hn. apply NoDup_cons_iff in Hn as [Hni Hn].
  destruct (update_line_cases id d s sp ci) as [E|[(_ & _ & E)|(_ & _ & _ & E)]];
    rewrite E; simpl; auto; constructor; auto;
    intros Hin; apply Hni, (keys_of_updateQuantity id d s sp), Hin.
Qed.

Lemma unique_after_remove id s sp cart :
  unique_lines cart -> unique_lines (removeFromCart id s sp cart).
Proof.
  unfold unique_lines, removeFromCart. induction cart as [|ci r IH]; intros Hn; simpl; [constructor|].
  simpl in Hn. apply NoDup_cons_iff in Hn as [Hni Hn].
  destruct (negb (line_matches id s sp ci)); simpl; auto.
  constructor; auto. intros Hin. apply Hni.
  apply in_map_iff in Hin as [c [Hk Hc]]. apply filter_In in Hc as [Hc _].
  apply in_map_iff. exists c. auto.
Qed.

Lemma unique_after_bump (p : CartItem -> bool) new cart :
  (forall y, p y = false -> line_key y <> line_key new) ->
  unique_lines cart -> unique_lines (bump p new cart).
Proof.
  intros Hk Hn. unfold unique_lines in *.
  destruct (bump_cases p new cart) as [(l1 & x & l2 & Hc & _ & _ & Hr)|[Hf Hr]]; rewrite Hr.
  - rewrite keys_after_bump, <- Hc. exact Hn.
  - rewrite map_app. apply NoDup_snoc; [exact Hn|].
    intros Hin. apply in_map_iff in Hin as [y [Hy Hin]].
    apply (Hk y (Hf y Hin)). exact Hy.
Qed.

Lemma cart_act_unique a cart : unique_lines cart -> unique_lines (cart_act a cart).
Proof.
  intros Hn. destruct a as [it|s|s|id d sh sp|id sh sp]; simpl.
  - destruct (addToCart_cases it cart) as [->|[(l1 & x & l2 & -> & _ & _ & ->)|(Hf & _ & ->)]].
    + exact Hn.
    + unfold unique_lines in *. rewrite keys_after_bump. exact Hn.
    + unfold unique_lines in *. rewrite map_app. apply NoDup_snoc; [exact Hn|].
      intros Hin. apply in_map_iff in Hin as [y [Hy Hin]].
      specialize (Hf y Hin). unfold line_key in Hy. simpl in Hy.
      injection Hy as Hy _ _. rewrite Hy, String.eqb_refl in Hf. discriminate.
  - rewrite addShotToCart_bump. apply unique_after_bump; [|exact Hn]. intros y Hy E.
    unfold line_key in E. simpl in E. injection E as E1 E2 _.
    rewrite E1, E2, String.eqb_refl in Hy. discriminate.
  - rewrite addSpecialToCart_bump. apply unique_after_bump; [|exact Hn]. intros y Hy E.
    unfold line_key in E. simpl in E. injection E as E1 _ E3.
    rewrite E1, E3, String.eqb_refl in Hy. discriminate.
  - apply unique_after_updateQuantity, Hn.
  - apply unique_after_remove, Hn.
Qed.

Lemma increment_bounds q : q <= increment q <= q + 1.
Proof. unfold increment. destruct (q <? 2 ^ 53); lia. Qed.

Lemma positive_after_bump l1 x l2 q :
  quantity x <= q ->
  positive_cart (l1 ++ x :: l2) ->
  positive_cart (l1 ++ set_quantity x q :: l2).
Proof.
  unfold positive_cart. rewrite !Forall_app. intros Hq [H1 H2].
  split; [exact H1|]. inversion H2; subst. constructor; [simpl; lia | assumption].
Qed.

Lemma positive_snoc cart ci :
  positive_cart cart -> 1 <= quantity ci -> positive_cart (cart ++ [ci]).
Proof.
  unfold positive_cart. intros H Hq. apply Forall_app. split; [exact H|].
  constructor; [exact Hq | constructor].
Qed.

Lemma cart_act_positive a cart : positive_cart cart -> positive_cart (cart_act a cart).
Proof.
  intros Hp. destruct a as [it|s|s|id d sh sp|id sh sp]; simpl.
  - destruct (addToCart_cases it cart) as [->|[(l1 & x & l2 & -> & _ & _ & ->)|(_ & _ & ->)]].
    + exact Hp.
    + apply positive_after_bump; [lia | exact Hp].
    + apply positive_snoc; [exact Hp | simpl; lia].
  - rewrite addShotToCart_bump.
    destruct (bump_cases (fun ci => (product_id (item ci) =? shot_id s)%string && isShot ci)
                (mkCartItem (PShot s) 1 true false) cart) as [(l1 & x & l2 & Hc & _ & _ & Hr)|[_ Hr]]; rewrite Hr.
    + apply positive_after_bump; [apply increment_bounds | rewrite <- Hc; exact Hp].
    + apply positive_snoc; [exact Hp | simpl; lia].
  - rewrite addSpecialToCart_bump.
    destruct (bump_cases (fun ci => (product_id (item ci) =? special_id s)%string && isSpecial ci)
                (mkCartItem (PSpecial s) 1 false true) cart) as [(l1 & x & l2 & Hc & _ & _ & Hr)|[_ Hr]]; rewrite Hr.
    + apply positive_after_bump; [apply increment_bounds | rewrite <- Hc; exact Hp].
    + apply positive_snoc; [exact Hp | simpl; lia].
  - unfold positive_cart in *. induction cart as [|ci r IH]; [simpl; constructor|].
    rewrite updateQuantity_cons. inversion Hp; subst.
    destruct (update_line_cases id d sh sp ci) as [E|[(_ & _ & E)|(_ & H0 & _ & E)]];
      rewrite E; auto; constructor; auto. simpl. lia.
  - unfold positive_cart, removeFromCart in *. apply Forall_forall.
    intros ci Hin. apply filter_In in Hin as [Hin _].
    rewrite Forall_forall in Hp. apply Hp, Hin.
Qed.

(** X1. The five cart operations keep a cart well formed: if every line
    holds at least one unit and no two lines share product and variant
    flags, the same is true after any sequence of operations. *)
Theorem cart_stays_well_formed (actions : list CartAction) (cart : Cart) :
  positive_cart cart -> unique_lines cart ->
  positive_cart (fold_left (fun c a => cart_act a c) actions cart)
  /\ unique_lines (fold_left (fun c a => cart_act a c) actions cart).
Proof.
  revert cart. induction actions as [|a r IH]; intros cart Hp Hu; simpl; [auto|].
  apply IH; [apply cart_act_positive | apply cart_act_unique]; assumption.
Qed.

Lemma other_lines_app id l1 l2 :
  other_lines id (l1 ++ l2) = other_lines id l1 ++ other_lines id l2.
Proof. apply filter_app. Qed.

Lemma other_lines_middle id l1 x l2 :
  (product_id (item x) =? id)%string = true ->
  other_lines id (l1 ++ x :: l2) = other_lines id l1 ++ other_lines id l2.
Proof.
  intros H. rewrite other_lines_app. unfold other_lines at 2. simpl. rewrite H. reflexivity.
Qed.

Lemma other_lines_bump id p new cart :
  (forall x, p x = true -> (product_id (item x) =? id)%string = true) ->
  (product_id (item new) =? id)%string = true ->
  other_lines id (bump p new cart) = other_lines id cart.
Proof.
  intros Hp Hnew.
  destruct (bump_cases p new cart) as [(l1 & x & l2 & Hc & Hx & _ & Hr)|[_ Hr]]; rewrite Hr.
  - rewrite Hc.
    rewrite (other_lines_middle id l1 (set_quantity x (increment (quantity x))) l2)
      by (simpl; apply Hp, Hx).
    rewrite (other_lines_middle id l1 x l2) by (apply Hp, Hx). reflexivity.
  - rewrite <- (app_nil_r cart) at 2.
    rewrite (other_lines_middle id cart new []) by exact Hnew.
    rewrite other_lines_app. reflexivity.
Qed.

Lemma matches_product id s sp ci :
  line_matches id s sp ci = true -> (product_id (item ci) =? id)%string = true.
Proof.
  unfold line_matches. intros H.
  apply andb_prop in H as [H _]. apply andb_prop in H as [H _]. exact H.
Qed.

(** X2. A cart operation is local to its product: the lines of every
    other product come out as they went in, in the same order. *)
Theorem cart_action_leaves_other_products (a : CartAction) (cart : Cart) :
  other_lines (action_product a) (cart_act a cart) = other_lines (action_product a) cart.
Proof.
  destruct a as [it|s|s|id d sh sp|id sh sp]; simpl.
  - destruct (addToCart_cases it cart) as [->|[(l1 & x & l2 & Hc & Hx & _ & Hr)|(_ & _ & Hr)]];
      [reflexivity| |]; rewrite Hr.
    + rewrite Hc.
      rewrite (other_lines_middle _ l1 (set_quantity x (quantity x + 1)) l2)
        by (simpl; exact Hx).
      rewrite (other_lines_middle _ l1 x l2) by exact Hx. reflexivity.
    + rewrite <- (app_nil_r cart) at 2.
      rewrite (other_lines_middle _ cart (own_line it 1) [])
        by (simpl; apply String.eqb_refl).
      rewrite other_lines_app. reflexivity.
  - rewrite addShotToCart_bump. apply other_lines_bump.
    + intros x Hx. apply andb_prop in Hx. apply Hx.
    + simpl. apply String.eqb_refl.
  - rewrite addSpecialToCart_bump. apply other_lines_bump.
    + intros x Hx. apply andb_prop in Hx. apply Hx.
    + simpl. apply String.eqb_refl.
  - induction cart as [|ci r IH]; [reflexivity|].
    rewrite updateQuantity_cons.
    destruct (update_line_cases id d sh sp ci) as [E|[(M & _ & E)|(M & _ & _ & E)]]; rewrite E.
    + unfold other_lines in *. simpl. rewrite IH. reflexivity.
    + apply matches_product in M. unfold other_lines in *. simpl. rewrite M. exact IH.
    + apply matches_product in M. unfold other_lines in *. simpl. rewrite M. exact IH.
  - unfold removeFromCart. induction cart as [|ci r IH]; [reflexivity|]. simpl.
    destruct (line_matches id sh sp ci) eqn:M; simpl.
    + apply matches_product in M. unfold other_lines in *. simpl. rewrite M. exact IH.
    + unfold other_lines in *. simpl. rewrite IH. reflexivity.
Qed.

Lemma within_copy_app l1 l2 : within_copy (l1 ++ l2) <-> within_copy l1 /\ within_copy l2.
Proof.
  unfold within_copy. split.
  - intros H. split; intros ci i Hin; apply H; apply in_or_app; auto.
  - intros [H1 H2] ci i Hin. apply in_app_or in Hin as [Hin|Hin]; eauto.
Qed.

Lemma within_copy_cons ci l :
  within_copy (ci :: l) <->
  (isShot ci = false -> isSpecial ci = false -> forall i, item ci = PItem i ->
     quantity ci <= item_quantity i) /\ within_copy l.
Proof.
  unfold within_copy. split.
  - intros H. split; [intros; apply (H ci i); simpl; auto|].
    intros c i Hin. apply H. right. exact Hin.
  - intros [H1 H2] c i [<-|Hin]; eauto.
Qed.

Lemma within_copy_bump p new cart :
  (forall x, p x = true -> isShot x = true \/ isSpecial x = true) ->
  isShot new = true \/ isSpecial new = true ->
  within_copy cart -> within_copy (bump p new cart).
Proof.
  intros Hp Hnew Hw.
  destruct (bump_cases p new cart) as [(l1 & x & l2 & Hc & Hx & _ & Hr)|[_ Hr]]; rewrite Hr.
  - rewrite Hc in Hw. apply within_copy_app in Hw as [H1 H2].
    apply within_copy_cons in H2 as [_ H2].
    apply within_copy_app. split; [exact H1|]. apply within_copy_cons. split; [|exact H2].
    simpl. intros Hs Hsp. destruct (Hp x Hx); congruence.
  - apply within_copy_app. split; [exact Hw|]. apply within_copy_cons.
    split; [|intros c i []]. intros Hs Hsp. destruct Hnew; congruence.
Qed.

(** X3. No cart operation lifts an item line above the stock recorded in
    the line's own copy of the item: the quantity buttons, the removals
    and the adds of shots and specials always, [addToCart] when the item
    it is handed records no more stock than the copies the cart holds of
    that product. *)
Theorem item_lines_stay_within_copy (a : CartAction) (cart : Cart) :
  within_copy cart ->
  (forall it ci i, a = ActAddItem it -> In ci cart ->
     (product_id (item ci) =? item_id it)%string = true -> item ci = PItem i ->
     item_quantity it <= item_quantity i) ->
  within_copy (cart_act a cart).
Proof.
  intros Hw Hadd. destruct a as [it|s|s|id d sh sp|id sh sp]; simpl.
  - destruct (addToCart_cases it cart) as [->|[(l1 & x & l2 & Hc & Hx & Hq & Hr)|(_ & HQ & Hr)]];
      [exact Hw| |]; rewrite Hr.
    + assert (Hin : In x cart) by (rewrite Hc; apply in_or_app; right; left; reflexivity).
      rewrite Hc in Hw. apply within_copy_app in Hw as [H1 H2].
      apply within_copy_cons in H2 as [_ H2].
      apply within_copy_app. split; [exact H1|]. apply within_copy_cons. split; [|exact H2].
      simpl. intros _ _ i Hi. specialize (Hadd it x i eq_refl Hin Hx Hi). lia.
    + apply within_copy_app. split; [exact Hw|]. apply within_copy_cons.
      split; [|intros c i []]. simpl. intros _ _ i [= <-]. lia.
  - rewrite addShotToCart_bump. apply within_copy_bump; auto.
    intros x Hx. apply andb_prop in Hx. left. apply Hx.
  - rewrite addSpecialToCart_bump. apply within_copy_bump; auto.
    intros x Hx. apply andb_prop in Hx. right. apply Hx.
  - clear Hadd. induction cart as [|ci r IH]; [simpl; exact Hw|].
    rewrite updateQuantity_cons. apply within_copy_cons in Hw as [Hci Hr].
    destruct (update_line_cases id d sh sp ci) as [E|[(M & _ & E)|(M & _ & Hc & E)]]; rewrite E.
    + apply within_copy_cons. auto.
    + auto.
    + apply within_copy_cons. split; [|auto]. simpl. intros Hs Hsp i Hi.
      unfold line_matches in M. rewrite Hs, Hsp in M.
      apply andb_prop in M as [M M2]. apply andb_prop in M as [_ M1].
      apply Hc; auto; [destruct sh | destruct sp]; simpl in *; congruence.
  - unfold removeFromCart. intros ci i Hin. apply filter_In in Hin as [Hin _].
    apply Hw. exact Hin.
Qed.

Lemma increment_count n :
  increment (Z.min (Z.of_nat (S n)) (2 ^ 53)) = Z.min (Z.of_nat (S (S n))) (2 ^ 53).
Proof.
  unfold increment. assert (H53 : 2 ^ 53 = 9007199254740992) by reflexivity.
  rewrite H53. destruct (Z.ltb_spec (Z.min (Z.of_nat (S n)) 9007199254740992)
                           9007199254740992); lia.
Qed.

(** The count of an unguarded add after [n] presses. *)
Lemma iter_addShotToCart s cart n :
  shot_absent s cart ->
  Nat.iter (S n) (addShotToCart s) cart
  = cart ++ [shot_line s (Z.min (Z.of_nat (S n)) (2 ^ 53))].
Proof.
  intros Ha. induction n as [|n IH].
  - simpl. unfold addShotToCart. rewrite findIndex_none by exact Ha. reflexivity.
  - change (Nat.iter (S (S n)) (addShotToCart s) cart)
      with (addShotToCart s (Nat.iter (S n) (addShotToCart s) cart)).
    rewrite IH. unfold addShotToCart.
    rewrite (findIndex_first _ cart (shot_line s (Z.min (Z.of_nat (S n)) (2 ^ 53))) []);
      [| exact Ha | simpl; rewrite String.eqb_refl; reflexivity].
    rewrite (update_at_middle (fun c => set_quantity c (increment (quantity c)))).
    unfold set_quantity, shot_line. cbn [item quantity isShot isSpecial].
    rewrite increment_count. reflexivity.
Qed.

Lemma iter_addSpecialToCart s cart n :
  special_absent s cart ->
  Nat.iter (S n) (addSpecialToCart s) cart
  = cart ++ [special_line s (Z.min (Z.of_nat (S n)) (2 ^ 53))].
Proof.
  intros Ha. induction n as [|n IH].
  - simpl. unfold addSpecialToCart. rewrite findIndex_none by exact Ha. reflexivity.
  - change (Nat.iter (S (S n)) (addSpecialToCart s) cart)
      with (addSpecialToCart s (Nat.iter (S n) (addSpecialToCart s) cart)).
    rewrite IH. unfold addSpecialToCart.
    rewrite (findIndex_first _ cart (special_line s (Z.min (Z.of_nat (S n)) (2 ^ 53))) []);
      [| exact Ha | simpl; rewrite String.eqb_refl; reflexivity].
    rewrite (update_at_middle (fun c => set_quantity c (increment (quantity c)))).
    unfold set_quantity, special_line. cbn [item quantity isShot isSpecial].
    rewrite increment_count. reflexivity.
Qed.

Lemma updateQuantity_untracked_alerts id d sh sp cart :
  sh || sp = true -> snd (updateQuantity id d sh sp cart) = [].
Proof.
  intros F. induction cart as [|ci r IH]; [reflexivity|]. simpl.
  destruct (updateQuantity id d sh sp r) as [r' a']. simpl in IH. subst a'.
  unfold update_line. destruct (line_matches id sh sp ci); [|reflexivity].
  destruct (quantity ci + d <=? 0); [reflexivity|]. rewrite F. reflexivity.
Qed.

(** X4. Shots and specials have no stock ceiling: adding one [n] times to
    a cart that has no line for it leaves one line of quantity [n], for
    every [n] up to 2^53; there the count stops, a JavaScript number
    counting by one no further.  A quantity change on a shot or special
    line never raises an alert. *)
Theorem untracked_products_have_no_ceiling :
  (forall (s : Shot) cart n, shot_absent s cart ->
     Nat.iter (S n) (addShotToCart s) cart
     = cart ++ [shot_line s (Z.min (Z.of_nat (S n)) (2 ^ 53))]
     /\ (Z.of_nat (S n) <= 2 ^ 53 ->
         Nat.iter (S n) (addShotToCart s) cart = cart ++ [shot_line s (Z.of_nat (S n))]))
  /\ (forall (s : Special) cart n, special_absent s cart ->
     Nat.iter (S n) (addSpecialToCart s) cart
     = cart ++ [special_line s (Z.min (Z.of_nat (S n)) (2 ^ 53))]
     /\ (Z.of_nat (S n) <= 2 ^ 53 ->
         Nat.iter (S n) (addSpecialToCart s) cart
         = cart ++ [special_line s (Z.of_nat (S n))]))
  /\ (forall id d sh sp cart, sh || sp = true ->
     snd (updateQuantity id d sh sp cart) = []).
Proof.
  split; [|split; [|exact updateQuantity_untracked_alerts]].
  - intros s cart n Ha. split; [apply iter_addShotToCart, Ha|].
    intros Hb. rewrite (iter_addShotToCart s cart n Ha), Z.min_l by exact Hb. reflexivity.
  - intros s cart n Ha. split; [apply iter_addSpecialToCart, Ha|].
    intros Hb. rewrite (iter_addSpecialToCart s cart n Ha), Z.min_l by exact Hb. reflexivity.
Qed.

Lemma remove_no_match id sh sp cart :
  (forall ci, In ci cart -> line_matches id sh sp ci = false) ->
  removeFromCart id sh sp cart = cart.
Proof.
  intros H. unfold removeFromCart. induction cart as [|ci r IH]; [reflexivity|]. simpl.
  rewrite (H ci (or_introl eq_refl)). simpl. f_equal. apply IH.
  intros c Hc. apply H. right. exact Hc.
Qed.

Lemma remove_after_snoc id sh sp cart ci :
  line_matches id sh sp ci = true ->
  (forall c, In c cart -> line_matches id sh sp c = false) ->
  removeFromCart id sh sp (cart ++ [ci]) = cart.
Proof.
  intros Hm Hn. unfold removeFromCart. rewrite filter_app. simpl. rewrite Hm. simpl.
  rewrite app_nil_r. apply (remove_no_match id sh sp cart Hn).
Qed.

(** X5. Removing undoes adding: after any number of adds of a shot, a
    special or an in-stock item that the cart had no line for, one
    [removeFromCart] gives back the cart as it was. *)
Theorem remove_undoes_add :
  (forall (s : Shot) cart n, shot_absent s cart ->
     removeFromCart (shot_id s) true false (Nat.iter (S n) (addShotToCart s) cart) = cart)
  /\ (forall (s : Special) cart n, special_absent s cart ->
     removeFromCart (special_id s) false true
       (Nat.iter (S n) (addSpecialToCart s) cart) = cart)
  /\ (forall (it : Item) cart, absent (item_id it) cart -> 0 < item_quantity it ->
     removeFromCart (item_id it) false false (fst (addToCart it cart)) = cart).
Proof.
  split; [|split].
  - intros s cart n Ha. rewrite iter_addShotToCart by exact Ha.
    apply remove_after_snoc.
    + unfold line_matches. simpl. rewrite String.eqb_refl. reflexivity.
    + intros c Hc. specialize (Ha c Hc). unfold line_matches.
      destruct (product_id (item c) =? shot_id s)%string; [|reflexivity].
      simpl in *. rewrite Ha. reflexivity.
  - intros s cart n Ha. rewrite iter_addSpecialToCart by exact Ha.
    apply remove_after_snoc.
    + unfold line_matches. simpl. rewrite String.eqb_refl. reflexivity.
    + intros c Hc. specialize (Ha c Hc). unfold line_matches.
      destruct (product_id (item c) =? special_id s)%string; [|reflexivity].
      simpl in *. rewrite Ha. destruct (Bool.eqb (isShot c) false); reflexivity.
  - intros it cart Ha HQ. rewrite addToCart_absent by assumption. simpl.
    apply remove_after_snoc.
    + apply own_line_matches.
    + intros c Hc. apply (absent_no_match it cart c false false Ha Hc).
Qed.

Lemma updateQuantity_all_removed id d sh sp cart :
  (forall ci, In ci cart -> line_matches id sh sp ci = true -> quantity ci + d <= 0) ->
  updateQuantity id d sh sp cart = (removeFromCart id sh sp cart, []).
Proof.
  unfold removeFromCart. induction cart as [|ci r IH]; intros H; [reflexivity|]. simpl.
  rewrite IH by (intros c Hc; apply H; right; exact Hc).
  unfold update_line. destruct (line_matches id sh sp ci) eqn:M; simpl; [|reflexivity].
  destruct (Z.leb_spec (quantity ci + d) 0) as [H0|H0]; [reflexivity|].
  specialize (H ci (or_introl eq_refl) M). lia.
Qed.

(** X6. A quantity change that brings every line it applies to down to
    zero or below is a removal: the cart is the one [removeFromCart]
    gives and no alert is raised; no line of zero or negative quantity
    is left. *)
Theorem updateQuantity_to_zero_removes id d sh sp (cart : Cart) :
  (forall ci, In ci cart -> line_matches id sh sp ci = true -> quantity ci + d <= 0) ->
  updateQuantity id d sh sp cart = (removeFromCart id sh sp cart, [])
  /\ forall ci, In ci (fst (updateQuantity id d sh sp cart)) ->
       line_matches id sh sp ci = false.
Proof.
  intros H. rewrite (updateQuantity_all_removed _ _ _ _ _ H). split; [reflexivity|].
  simpl. intros ci Hin. apply filter_In in Hin as [_ Hm].
  destruct (line_matches id sh sp ci); [discriminate | reflexivity].
Qed.

(** ** Tab registry: what is listed *)

Lemma insert_by_updated_length o l :
  List.length (insert_by_updated o l) = S (List.length l).
Proof.
  induction l as [|x r IH]; simpl; [reflexivity|].
  destruct (order_updated_at x <=? order_updated_at o); simpl; [reflexivity|].
  rewrite IH. reflexivity.
Qed.

Lemma order_by_updated_desc_length l :
  List.length (order_by_updated_desc l) = List.length l.
Proof.
  induction l as [|x r IH]; simpl; [reflexivity|].
  rewrite insert_by_updated_length, IH. reflexivity.
Qed.

Lemma insert_by_updated_sorted o l :
  latest_first (map order_updated_at l) ->
  latest_first (map order_updated_at (insert_by_updated o l)).
Proof.
  induction l as [|x r IH]; intros Hs; simpl.
  - split; [intros y []|exact I].
  - destruct (Z.leb_spec (order_updated_at x) (order_updated_at o)) as [Hle|Hlt]; simpl.
    + split; [|exact Hs]. destruct Hs as [Hx _].
      intros y [<-|Hy]; [exact Hle|]. specialize (Hx y Hy). lia.
    + destruct Hs as [Hx Hr]. split; [|apply IH, Hr].
      intros y Hy. apply in_map_iff in Hy as [z [<- Hz]].
      apply in_insert_by_updated in Hz as [->|Hz]; [lia|].
      apply Hx. apply in_map. exact Hz.
Qed.

Lemma order_by_updated_desc_sorted l :
  latest_first (map order_updated_at (order_by_updated_desc l)).
Proof.
  induction l as [|x r IH]; simpl; [exact I|]. apply insert_by_updated_sorted, IH.
Qed.

(** X7. The open tabs are the caller's pending orders, each once and
    nothing else: a paid order or another staff member's tab is never
    listed; the list runs from the latest update to the earliest. *)
Theorem loadOpenTabs_own_pending_latest_first (user : User) (db : Store) :
  (forall t, In t (loadOpenTabs user db) ->
     exists o, In o (orders db) /\ order_id o = tab_id t
               /\ order_status o = pending /\ order_staff_id o = user_id user)
  /\ (forall o, In o (orders db) -> order_status o = pending ->
        order_staff_id o = user_id user -> In (open_tab db o) (loadOpenTabs user db))
  /\ List.length (loadOpenTabs user db) =
       List.length (filter (fun o => status_eqb (order_status o) pending
                                     && (order_staff_id o =? user_id user)%string)
                           (orders db))
  /\ latest_first (map tab_updated_at (loadOpenTabs user db)).
Proof.
  split; [|split; [|split]].
  - intros t Hin. apply in_loadOpenTabs in Hin as [o (Hin & Hs & Hu & ->)].
    exists o. auto.
  - intros o Hin Hs Hu. apply in_loadOpenTabs. exists o. auto.
  - unfold loadOpenTabs. rewrite length_map, order_by_updated_desc_length. reflexivity.
  - unfold loadOpenTabs. rewrite map_map. simpl.
    apply (order_by_updated_desc_sorted
             (filter (fun o => status_eqb (order_status o) pending
                               && (order_staff_id o =? user_id user)%string) (orders db))).
Qed.

(** ** saveAsTab: the order rows *)

(** A save whose amounts a column refuses stops at the order row: the
    failure alert, and nothing is written. *)
Lemma saveAsTab_refused_amounts user new_id now pos db :
  pos_tableName pos <> EmptyString -> pos_cart pos <> [] ->
  decimal_10_2 (calculateTotal user (pos_cart pos)) = None
  \/ decimal_10_2 (calculateServiceFee user (pos_cart pos)) = None ->
  saveAsTab user new_id now pos db = (pos, db, [Alert tab_failed_alert]).
Proof.
  intros Hn Hc Hr. unfold saveAsTab, db_update_order, db_insert_order.
  rewrite (validation_passes _ _ Hn Hc).
  destruct (pos_editingTabId pos) as [tid|].
  - destruct Hr as [-> | ->]; [reflexivity|].
    destruct (decimal_10_2 (calculateTotal user (pos_cart pos))); reflexivity.
  - destruct (order_exists new_id db); [reflexivity|].
    destruct (negb (user_exists (user_id user) db)); [reflexivity|].
    destruct Hr as [-> | ->]; [reflexivity|].
    destruct (decimal_10_2 (calculateTotal user (pos_cart pos))); reflexivity.
Qed.

(** X8. Saving an edited tab creates no order: the order rows keep their
    identifiers and order; every row but the edited one is unchanged; the
    edited row keeps its status, payment method, creation time and owner
    and takes the new name and update time, and the total and service
    fee of the cart as the DECIMAL(10,2) columns round them.  (When a
    column refuses its amount the save stops there, see
    [saveAsTab_refused_amounts].) *)
Theorem saveAsTab_edit_rewrites_one_order
    (user : User) (new_id : uuid) (now : Z) (pos : POS) (db : Store) (tid : uuid)
    (t f : float) :
  pos_editingTabId pos = Some tid ->
  pos_tableName pos <> EmptyString -> pos_cart pos <> [] ->
  decimal_10_2 (calculateTotal user (pos_cart pos)) = Some t ->
  decimal_10_2 (calculateServiceFee user (pos_cart pos)) = Some f ->
  let db' := snd (fst (saveAsTab user new_id now pos db)) in
  map order_id (orders db') = map order_id (orders db)
  /\ (forall o, In o (orders db) -> order_id o <> tid -> In o (orders db'))
  /\ (forall o, In o (orders db) -> order_id o = tid ->
        In (edited_order (pos_tableName pos) t f now o) (orders db'))
  /\ (forall o', In o' (orders db') -> order_id o' = tid ->
        exists o, In o (orders db) /\ order_id o = tid
                  /\ o' = edited_order (pos_tableName pos) t f now o).
Proof.
  intros He Hn Hc Ht Hfe db'. subst db'.
  rewrite (saveAsTab_edit_store _ _ _ _ _ _ t f He Hn Hc (conj Ht Hfe)), save_lines_orders.
  simpl. split; [|split; [|split]].
  - rewrite map_map. apply map_ext. intros o.
    destruct (order_id o =? tid)%string; reflexivity.
  - intros o Hin Hne. apply in_map_iff. exists o. split; [|exact Hin].
    destruct (order_id o =? tid)%string eqn:E; [|reflexivity].
    apply String.eqb_eq in E. contradiction.
  - intros o Hin Hid. apply in_map_iff. exists o. split; [|exact Hin].
    destruct (order_id o =? tid)%string eqn:E; [reflexivity|].
    apply String.eqb_neq in E. contradiction.
  - intros o' Hin Hid. apply in_map_iff in Hin as [o [Ho Hin]].
    destruct (order_id o =? tid)%string eqn:E.
    + apply String.eqb_eq in E. exists o. subst o'. repeat split; auto.
    + subst o'. apply String.eqb_neq in E. contradiction.
Qed.

(** X9. Saving a new tab under an unused identifier, by a user the store
    holds, adds exactly one order after the rows already there: pending,
    without payment method, owned by the caller, with the name typed and
    the amounts of the cart as the DECIMAL(10,2) columns round them.  It
    adds, after the lines already there, one line per cart line whose
    product the catalog holds (one per cart line when it holds them
    all), and hands back an empty cart, an empty name and no tab in
    hand. *)
Theorem saveAsTab_new_adds_pending_order
    (user : User) (new_id : uuid) (now : Z) (pos : POS) (db : Store) (t f : float) :
  pos_editingTabId pos = None ->
  pos_tableName pos <> EmptyString -> pos_cart pos <> [] ->
  order_exists new_id db = false ->
  user_exists (user_id user) db = true ->
  decimal_10_2 (calculateTotal user (pos_cart pos)) = Some t ->
  decimal_10_2 (calculateServiceFee user (pos_cart pos)) = Some f ->
  let pos' := fst (fst (saveAsTab user new_id now pos db)) in
  let db' := snd (fst (saveAsTab user new_id now pos db)) in
  orders db' = orders db ++
    [mkOrder new_id (pos_tableName pos) pending None t f now now (user_id user)]
  /\ (forall v, line_table v db' =
        line_table v db
        ++ map (order_line user new_id) (filter (of_variant v) (listed db (pos_cart pos))))
  /\ (cart_listed db (pos_cart pos) ->
       forall v, line_table v db' =
         line_table v db
         ++ map (order_line user new_id) (filter (of_variant v) (pos_cart pos)))
  /\ pos_cart pos' = [] /\ pos_tableName pos' = EmptyString
  /\ pos_editingTabId pos' = None.
Proof.
  intros He Hn Hc Hf Hu Ht Hfe pos' db'. subst pos' db'.
  pose proof (conj Ht Hfe : amounts_stored user (pos_cart pos) t f) as Ha.
  rewrite (saveAsTab_new_store _ _ _ _ _ _ _ He Hn Hc Hf Hu Ha).
  assert (Hlines : forall v,
    line_table v (fold_left (save_line user new_id) (pos_cart pos)
      (with_orders db (orders db ++ [pending_order user new_id now (pos_tableName pos) t f])))
    = line_table v db
      ++ map (order_line user new_id) (filter (of_variant v) (listed db (pos_cart pos)))).
  { intros v. rewrite save_lines_table.
    - rewrite (listed_same _ _ _ (with_orders_references db _)). destruct v; reflexivity.
    - rewrite order_exists_app. simpl. rewrite String.eqb_refl. apply orb_true_r.
    - exact Hu. }
  split; [rewrite save_lines_orders; reflexivity|].
  split; [exact Hlines|]. split.
  - intros Hl v. rewrite Hlines, (listed_all _ _ Hl). reflexivity.
  - unfold saveAsTab.
    rewrite (validation_passes _ _ Hn Hc), He,
      (db_insert_order_stored _ _ _ _ _ _ _ _ _ _ Hf Hu Ha).
    simpl. auto.
Qed.

(** ** What the handlers leave alone *)

Lemma stock_write_listing its ci :
  map item_listing (stock_write its ci) = map item_listing its.
Proof.
  unfold stock_write. destruct (isShot ci); [reflexivity|].
  destruct (isSpecial ci); [reflexivity|].
  destruct (product_quantity (item ci)); [|reflexivity].
  simpl. rewrite map_map. apply map_ext. intros i.
  destruct (item_id i =? product_id (item ci))%string; reflexivity.
Qed.

Lemma stock_writes_listing cart : forall its,
  map item_listing (fold_left stock_write cart its) = map item_listing its.
Proof.
  induction cart as [|ci r IH]; intros its; simpl; [reflexivity|].
  rewrite IH. apply stock_write_listing.
Qed.

Lemma pay_line_shots_specials user orderId db ci :
  shots (pay_line user orderId db ci) = shots db
  /\ specials (pay_line user orderId db ci) = specials db.
Proof.
  destruct (pay_line_references user orderId db ci) as (_ & _ & Hs & Hp). auto.
Qed.

Lemma pay_lines_shots_specials user orderId cart : forall db,
  shots (fold_left (pay_line user orderId) cart db) = shots db
  /\ specials (fold_left (pay_line user orderId) cart db) = specials db.
Proof.
  induction cart as [|ci r IH]; intros db; simpl; [auto|].
  destruct (IH (pay_line user orderId db ci)) as [-> ->].
  apply pay_line_shots_specials.
Qed.

Lemma shots_specials_after_drop editing db :
  shots (drop_closed_tab editing db) = shots db
  /\ specials (drop_closed_tab editing db) = specials db.
Proof. destruct editing; auto. Qed.

(** X10. Saving or deleting a tab never touches the catalog: the item
    rows (stock included), the shots and the specials are as before.  A
    payment never touches the shots and the specials, and of the item
    rows it changes nothing but quantities. *)
Theorem tabs_leave_stock_alone
    (user : User) (new_id : uuid) (now : Z) (pos : POS) (db : Store) :
  (items (snd (fst (saveAsTab user new_id now pos db))) = items db
   /\ shots (snd (fst (saveAsTab user new_id now pos db))) = shots db
   /\ specials (snd (fst (saveAsTab user new_id now pos db))) = specials db)
  /\ (forall confirmed tabId,
        items (snd (fst (deleteTab user confirmed tabId pos db))) = items db
        /\ shots (snd (fst (deleteTab user confirmed tabId pos db))) = shots db
        /\ specials (snd (fst (deleteTab user confirmed tabId pos db))) = specials db)
  /\ (map item_listing (items (snd (fst (completePayment user new_id now pos db))))
        = map item_listing (items db)
      /\ shots (snd (fst (completePayment user new_id now pos db))) = shots db
      /\ specials (snd (fst (completePayment user new_id now pos db))) = specials db).
Proof.
  split; [apply saveAsTab_catalog|]. split.
  - intros confirmed tabId. destruct confirmed; simpl; auto.
  - destruct (pos_orderType pos) eqn:Hq.
    + unfold completePayment. rewrite Hq.
      destruct (db_insert_order _ _ _ _ _ _ _ _ db) as [[db1 o1]|] eqn:I; [|simpl; auto].
      apply order_row_inserted in I as (t & f & -> & ->).
      cbv zeta. cbn [fst snd order_id].
      fold (drop_closed_tab (pos_editingTabId pos)
              (fold_left (pay_line user new_id) (pos_cart pos)
                 (with_orders db (orders db ++
                    [mkOrder new_id (table_or_quick_sale (pos_tableName pos)) paid
                       (Some (pos_paymentMethod pos)) t f now now (user_id user)])))).
      rewrite items_after_drop, pay_lines_items, stock_writes_listing.
      match goal with |- context [drop_closed_tab ?e ?d] =>
        destruct (shots_specials_after_drop e d) as [-> ->] end.
      match goal with |- context [fold_left _ _ ?d] =>
        destruct (pay_lines_shots_specials user new_id (pos_cart pos) d) as [-> ->] end.
      auto.
    + unfold completePayment. rewrite Hq.
      destruct (saveAsTab_catalog user new_id now pos db) as (-> & -> & ->). auto.
Qed.
(** ** completePayment: a plain quick sale *)

Lemma pages_of_print_alert w p a :
  pages_written w [Print p; Alert a] = if w then [p] else [].
Proof. destruct w; reflexivity. Qed.

(** X11. A quick sale that closes no tab and that the store accepts (an
    unused identifier, a caller it holds, amounts that fit their
    columns) adds exactly one order after the rows already there, paid
    by the selected method, with the amounts of the cart as the
    DECIMAL(10,2) columns round them, and, after the lines already
    there, one line per cart line whose product the catalog holds (one
    per cart line when it holds them all): nothing is deleted.  It hands
    back an empty cart and name, and calls [printProforma] once: the
    page shows the name the order is stored under, the staff name, the
    cart's lines and a total and a service fee whose roundings are the
    amounts stored; it reaches a window when the browser opens one. *)
Theorem completePayment_quick_sale_adds_paid_order
    (user : User) (new_id : uuid) (now : Z) (pos : POS) (db : Store) (t f : float) :
  pos_orderType pos = quick -> pos_editingTabId pos = None ->
  order_exists new_id db = false ->
  user_exists (user_id user) db = true ->
  decimal_10_2 (calculateTotal user (pos_cart pos)) = Some t ->
  decimal_10_2 (calculateServiceFee user (pos_cart pos)) = Some f ->
  let pos' := fst (fst (completePayment user new_id now pos db)) in
  let db' := snd (fst (completePayment user new_id now pos db)) in
  orders db' = orders db ++
    [mkOrder new_id (table_or_quick_sale (pos_tableName pos)) paid
       (Some (pos_paymentMethod pos)) t f now now (user_id user)]
  /\ (forall v, line_table v db' =
        line_table v db
        ++ map (order_line user new_id) (filter (of_variant v) (listed db (pos_cart pos))))
  /\ (cart_listed db (pos_cart pos) ->
       forall v, line_table v db' =
         line_table v db
         ++ map (order_line user new_id) (filter (of_variant v) (pos_cart pos)))
  /\ pos_cart pos' = [] /\ pos_tableName pos' = EmptyString
  /\ pos_showPayment pos' = false
  /\ exists p, snd (completePayment user new_id now pos db)
               = [Print p; Alert payment_done_alert]
       /\ (forall w, pages_written w (snd (completePayment user new_id now pos db))
                     = if w then [p] else [])
       /\ pf_items p = pos_cart pos
       /\ pf_table p = table_or_quick_sale (pos_tableName pos)
       /\ pf_staff p = name_or_unknown (user_name user)
       /\ decimal_10_2 (pf_total p) = Some t
       /\ decimal_10_2 (pf_serviceFee p) = Some f.
Proof.
  intros Hq He Hf Hu Ht Hfe pos' db'. subst pos' db'.
  pose proof (conj Ht Hfe : amounts_stored user (pos_cart pos) t f) as Ha.
  rewrite (completePayment_quick _ _ _ _ _ _ _ Hq Hf Hu Ha), He.
  cbv zeta. cbn [fst snd drop_closed_tab].
  assert (Hlines := fun v => paid_lines user new_id now pos db t f v Hu).
  split; [rewrite pay_lines_orders; reflexivity|].
  split; [exact Hlines|]. split.
  { intros Hl v. rewrite Hlines, (listed_all _ _ Hl). reflexivity. }
  split; [reflexivity|]. split; [reflexivity|]. split; [reflexivity|].
  eexists. split; [reflexivity|]. split; [intros w; apply pages_of_print_alert|].
  split; [reflexivity|]. split; [reflexivity|]. split; [reflexivity|].
  split; [exact Ht | exact Hfe].
Qed.

(** X12. With a cart that is current (each item line's copy of the item
    records the stored quantity), within its ceilings and with one line
    per item, a quick sale lowers the stock of every item sold by the
    line quantity, never below zero, and leaves every other item's stock
    as it was.  That is the sale the store accepts; when the store
    refuses the order row (it does not hold the caller, or an amount
    does not fit its column) the handler stops and the store is as it
    was. *)
Theorem payment_lowers_current_stock
    (user : User) (new_id : uuid) (now : Z) (pos : POS) (db : Store) :
  pos_orderType pos = quick -> order_exists new_id db = false ->
  NoDup (item_line_ids (pos_cart pos)) ->
  (forall ci, In ci (pos_cart pos) -> of_variant VItem ci = true ->
     exists i, item ci = PItem i
               /\ stock_of (item_id i) db = Some (item_quantity i)
               /\ quantity ci <= item_quantity i) ->
  let db' := snd (fst (completePayment user new_id now pos db)) in
  (user_exists (user_id user) db = true ->
   decimal_10_2 (calculateTotal user (pos_cart pos)) <> None ->
   decimal_10_2 (calculateServiceFee user (pos_cart pos)) <> None ->
   (forall ci, In ci (pos_cart pos) -> of_variant VItem ci = true ->
      exists before, stock_of (product_id (item ci)) db = Some before
                     /\ stock_of (product_id (item ci)) db' = Some (before - quantity ci)
                     /\ 0 <= before - quantity ci)
   /\ (forall id, ~ In id (item_line_ids (pos_cart pos)) ->
         stock_of id db' = stock_of id db))
  /\ (user_exists (user_id user) db = false
      \/ decimal_10_2 (calculateTotal user (pos_cart pos)) = None
      \/ decimal_10_2 (calculateServiceFee user (pos_cart pos)) = None ->
      db' = db).
Proof.
  intros Hq Hf Hnd Hcur db'. split.
  - intros Hu Ht Hfe.
    destruct (decimal_10_2 (calculateTotal user (pos_cart pos))) as [t|] eqn:Et;
      [|contradiction].
    destruct (decimal_10_2 (calculateServiceFee user (pos_cart pos))) as [f|] eqn:Ef;
      [|contradiction].
    destruct (completePayment_stock_written user new_id now pos db t f Hq Hf Hu
                (conj Et Ef) Hnd) as (Hw & _ & Ho).
    split; [|exact Ho].
    intros ci Hin Hv. destruct (Hcur ci Hin Hv) as (i & Hi & Hs & Hle).
    exists (item_quantity i). rewrite Hi. simpl. split; [exact Hs|]. split; [|lia].
    apply (Hw ci i Hin Hv Hi). rewrite Hs. discriminate.
  - intros Hr. apply completePayment_refused; [exact Hq|].
    unfold db_insert_order. rewrite Hf.
    destruct Hr as [-> | [-> | ->]]; [reflexivity | |].
    + destruct (negb _); reflexivity.
    + destruct (negb _); [reflexivity|].
      destruct (decimal_10_2 (calculateTotal user (pos_cart pos))); reflexivity.
Qed.

(** ** saveAsTab: the proforma *)

(** X13. A save that goes through (new or edited tab) calls
    [printProforma] once: the page shows the cart's lines, the staff
    name (or "Unknown") and the name of the pending order row the save
    leaves in the store, and a total and a service fee whose
    DECIMAL(10,2) roundings are the amounts of that row; it reaches a
    window when the browser opens one. *)
Theorem saveAsTab_proforma_matches_order
    (user : User) (new_id : uuid) (now : Z) (pos : POS) (db : Store) (t f : float) :
  pos_tableName pos <> EmptyString -> pos_cart pos <> [] ->
  savable user new_id pos db ->
  user_exists (user_id user) db = true ->
  decimal_10_2 (calculateTotal user (pos_cart pos)) = Some t ->
  decimal_10_2 (calculateServiceFee user (pos_cart pos)) = Some f ->
  exists o p,
    In o (orders (snd (fst (saveAsTab user new_id now pos db))))
    /\ order_id o = saved_order_id new_id pos
    /\ order_status o = pending
    /\ (exists a, snd (saveAsTab user new_id now pos db) = [Print p; Alert a])
    /\ (forall w, pages_written w (snd (saveAsTab user new_id now pos db))
                  = if w then [p] else [])
    /\ pf_items p = pos_cart pos
    /\ pf_table p = order_table_name o
    /\ pf_staff p = name_or_unknown (user_name user)
    /\ decimal_10_2 (pf_total p) = Some (order_total o)
    /\ decimal_10_2 (pf_serviceFee p) = Some (order_service_fee o).
Proof.
  intros Hn Hc Hs Hu Ht Hfe. unfold savable, saved_order_id in *.
  pose proof (conj Ht Hfe : amounts_stored user (pos_cart pos) t f) as Ha.
  destruct (pos_editingTabId pos) as [tid|] eqn:He.
  - destruct Hs as [o (Hin & Hid & Hst & Hus)].
    exists (edited_order (pos_tableName pos) t f now o).
    eexists. split.
    { rewrite (saveAsTab_edit_store _ _ _ _ _ _ _ _ He Hn Hc Ha), save_lines_orders. simpl.
      apply in_map_iff. exists o. split; [|exact Hin].
      destruct (order_id o =? tid)%string eqn:E; [reflexivity|].
      apply String.eqb_neq in E. contradiction. }
    split; [exact Hid|]. split; [exact Hst|].
    assert (Heff : snd (saveAsTab user new_id now pos db) =
                   [Print (printProforma user tid (pos_tableName pos) (pos_cart pos) false);
                    Alert tab_updated_alert]).
    { unfold saveAsTab.
      rewrite (validation_passes _ _ Hn Hc), He, (db_update_order_stored _ _ _ _ _ _ _ _ Ha).
      reflexivity. }
    split; [eexists; exact Heff|].
    split; [intros w; rewrite Heff; apply pages_of_print_alert|].
    split; [reflexivity|]. split; [reflexivity|]. split; [reflexivity|].
    split; [exact Ht | exact Hfe].
  - eexists. eexists. split.
    { rewrite (saveAsTab_new_store _ _ _ _ _ _ _ He Hn Hc Hs Hu Ha), save_lines_orders. simpl.
      apply in_or_app. right. left. reflexivity. }
    split; [reflexivity|]. split; [reflexivity|].
    assert (Heff : snd (saveAsTab user new_id now pos db) =
                   [Print (printProforma user new_id (pos_tableName pos) (pos_cart pos) false);
                    Alert tab_saved_alert]).
    { unfold saveAsTab.
      rewrite (validation_passes _ _ Hn Hc), He,
        (db_insert_order_stored _ _ _ _ _ _ _ _ _ _ Hs Hu Ha).
      reflexivity. }
    split; [eexists; exact Heff|].
    split; [intros w; rewrite Heff; apply pages_of_print_alert|].
    split; [reflexivity|]. split; [reflexivity|]. split; [reflexivity|].
    split; [exact Ht | exact Hfe].
Qed.

(** ** The tab in hand *)

(** X14. "Clear Cart" does not put the tab down: after a tab was
    reopened and the cart cleared, whatever is then put in the cart, a
    save that the store accepts writes over that tab: no order is
    created and the tab's lines become the lines of the new cart whose
    product the catalog holds (the cart's lines when it holds them
    all); a quick-sale payment that the store accepts deletes that tab
    with all its lines. *)
Theorem clear_cart_keeps_tab_in_hand
    (user : User) (new_id : uuid) (now : Z) (tb : OpenTab) (pos : POS) (db : Store)
    (cart : Cart) (name : string) (t f : float) :
  order_exists (tab_id tb) db = true ->
  user_exists (user_id user) db = true ->
  name <> EmptyString -> cart <> [] ->
  decimal_10_2 (calculateTotal user cart) = Some t ->
  decimal_10_2 (calculateServiceFee user cart) = Some f ->
  (let db' := snd (fst (saveAsTab user new_id now
                          (refill cart name (clearCart (loadTab tb pos))) db)) in
   map order_id (orders db') = map order_id (orders db)
   /\ (forall v, lines_of (tab_id tb) (line_table v db')
                 = map (order_line user (tab_id tb))
                     (filter (of_variant v) (listed db cart)))
   /\ (cart_listed db cart ->
        forall v, lines_of (tab_id tb) (line_table v db')
                  = map (order_line user (tab_id tb)) (filter (of_variant v) cart)))
  /\ (order_exists new_id db = false ->
      let db' := snd (fst (completePayment user new_id now
                             (refill cart name (clearCart (closeTab tb pos))) db)) in
      order_exists (tab_id tb) db' = false
      /\ forall v, lines_of (tab_id tb) (line_table v db') = []).
Proof.
  intros Hex Hu Hn Hc Ht Hfe.
  pose proof (conj Ht Hfe : amounts_stored user cart t f) as Ha.
  split.
  - cbv zeta.
    assert (Hlines : forall v,
      lines_of (tab_id tb) (line_table v (snd (fst (saveAsTab user new_id now
         (refill cart name (clearCart (loadTab tb pos))) db))))
      = map (order_line user (tab_id tb)) (filter (of_variant v) (listed db cart))).
    { intros v.
      exact (saveAsTab_edit_lines user new_id now
               (refill cart name (clearCart (loadTab tb pos))) db (tab_id tb) t f v
               eq_refl Hex Hu Hn Hc Ha). }
    split; [|split; [exact Hlines|]].
    + rewrite (saveAsTab_edit_store user new_id now
                 (refill cart name (clearCart (loadTab tb pos))) db (tab_id tb) t f
                 eq_refl Hn Hc Ha).
      rewrite save_lines_orders. simpl. rewrite map_map. apply map_ext. intros o.
      destruct (order_id o =? tab_id tb)%string; reflexivity.
    + intros Hl v. rewrite Hlines, (listed_all _ _ Hl). reflexivity.
  - intros Hf. cbv zeta.
    rewrite (completePayment_quick user new_id now
               (refill cart name (clearCart (closeTab tb pos))) db t f eq_refl Hf Hu Ha).
    cbv zeta. cbn [fst snd].
    simpl pos_editingTabId. split.
    + apply not_exists_after_delete.
    + intros v. apply lines_after_delete_order.
Qed.

(** ** Scanning *)

Lemma find_barcode_none its code :
  (forall i, In i its -> item_barcode i <> Some code) ->
  find (fun i => field_is (item_barcode i) code) its = None.
Proof.
  induction its as [|i r IH]; intros H; simpl; [reflexivity|].
  unfold field_is at 1. destruct (item_barcode i) as [b|] eqn:E.
  - destruct (b =? code)%string eqn:Eb.
    + apply String.eqb_eq in Eb. subst b. exfalso.
      apply (H i (or_introl eq_refl)). exact E.
    + apply IH. intros j Hj. apply H. right. exact Hj.
  - apply IH. intros j Hj. apply H. right. exact Hj.
Qed.

Lemma find_barcode_first l1 i l2 code :
  (forall j, In j l1 -> item_barcode j <> Some code) ->
  item_barcode i = Some code ->
  find (fun i => field_is (item_barcode i) code) (l1 ++ i :: l2) = Some i.
Proof.
  induction l1 as [|j r IH]; intros H Hi; simpl.
  - rewrite Hi. simpl. rewrite String.eqb_refl. reflexivity.
  - unfold field_is at 1. destruct (item_barcode j) as [b|] eqn:E.
    + destruct (b =? code)%string eqn:Eb.
      * apply String.eqb_eq in Eb. subst b. exfalso.
        apply (H j (or_introl eq_refl)). exact E.
      * apply IH; [|exact Hi]. intros k Hk. apply H. right. exact Hk.
    + apply IH; [|exact Hi]. intros k Hk. apply H. right. exact Hk.
Qed.

Lemma find_shot_barcode shs code :
  find (fun s => field_is (shot_barcode s) code) shs = None.
Proof. induction shs as [|s r IH]; simpl; [reflexivity | exact IH]. Qed.

(** X15. A scanned code resolves to the first loaded item that carries
    it, and the cart changes as [addToCart] of that item changes it
    (stock checks included), with the success signal and the item's
    name; a code no item carries leaves the cart as it is and gives the
    error signal, whatever shots are loaded; typing the code into the
    barcode field does the same to the cart, and clears the field only
    when an item was found. *)
Theorem scan_resolves_to_first_item
    (shs : list Shot) (code : string) (cart : Cart) :
  (forall its, (forall i, In i its -> item_barcode i <> Some code) ->
     processBarcode its shs code cart = mkScan cart [] item_not_found ScanError
     /\ handleBarcodeSearch its code cart = (cart, [], code))
  /\ (forall l1 i l2,
        (forall j, In j l1 -> item_barcode j <> Some code) ->
        item_barcode i = Some code ->
        processBarcode (l1 ++ i :: l2) shs code cart
          = mkScan (fst (addToCart i cart)) (snd (addToCart i cart))
                   (item_name i) ScanSuccess
        /\ handleBarcodeSearch (l1 ++ i :: l2) code cart
          = (fst (addToCart i cart), snd (addToCart i cart), EmptyString)).
Proof.
  split.
  - intros its H. unfold processBarcode, handleBarcodeSearch.
    rewrite (find_barcode_none _ _ H), find_shot_barcode. auto.
  - intros l1 i l2 H Hi. unfold processBarcode, handleBarcodeSearch.
    rewrite (find_barcode_first _ _ _ _ H Hi). auto.
Qed.

(** ** Categories *)

Lemma existsb_eqb_In (x : string) seen :
  existsb (fun y => (y =? x)%string) seen = true <-> In x seen.
Proof.
  rewrite existsb_exists. split.
  - intros [y [Hy E]]. apply String.eqb_eq in E. subst y. exact Hy.
  - intros H. exists x. split; [exact H | apply String.eqb_refl].
Qed.

Lemma in_set_from x values : forall seen,
  In x (set_from seen values) <-> In x values /\ ~ In x seen.
Proof.
  induction values as [|v r IH]; intros seen; simpl; [tauto|].
  destruct (existsb (fun y => (y =? v)%string) seen) eqn:E.
  - apply existsb_eqb_In in E. rewrite IH. split.
    + intros [H1 H2]. auto.
    + intros [[->|H1] H2]; [contradiction | auto].
  - assert (Hv : ~ In v seen).
    { intros H. apply existsb_eqb_In in H. congruence. }
    simpl. rewrite IH. simpl. split.
    + intros [<-|[H1 H2]]; [auto|]. split; [auto|]. intros H. apply H2. right. exact H.
    + intros [[<-|H1] H2]; [auto|].
      destruct (String.eqb_spec v x) as [->|Hne]; [auto|].
      right. split; [exact H1|]. intros [H|H]; [contradiction | contradiction].
Qed.

Lemma NoDup_set_from values : forall seen, NoDup (set_from seen values).
Proof.
  induction values as [|v r IH]; intros seen; simpl; [constructor|].
  destruct (existsb (fun y => (y =? v)%string) seen); [apply IH|].
  constructor; [|apply IH]. intros H. apply in_set_from in H as [_ H].
  apply H. left. reflexivity.
Qed.

(** X16. The categories offered in the filter are the categories of the
    loaded items, each exactly once. *)
Theorem uniqueCategories_exactly_once (data : list Item) :
  NoDup (uniqueCategories data)
  /\ forall c, In c (uniqueCategories data) <->
               exists i, In i data /\ item_category i = c.
Proof.
  split; [apply NoDup_set_from|]. intros c. unfold uniqueCategories.
  rewrite in_set_from, in_map_iff. split.
  - intros [[i [H1 H2]] _]. exists i. auto.
  - intros [i [H1 H2]]. split; [exists i; auto | intros []].
Qed.

(** ** deleteTab: the list of tabs *)

Lemma open_tab_after_delete tabId db o :
  order_id o <> tabId ->
  open_tab (db_delete_order tabId (db_delete_order_items tabId db)) o = open_tab db o.
Proof.
  intros Hne. unfold open_tab. simpl.
  rewrite !lines_of_delete_other by exact Hne. reflexivity.
Qed.

(** X20. After a confirmed [deleteTab] the tab is off the list of open
    tabs and every other tab is listed exactly as before, with the same
    lines. *)
Theorem deleteTab_updates_tab_list
    (user : User) (tabId : uuid) (pos : POS) (db : Store) :
  let pos' := fst (fst (deleteTab user true tabId pos db)) in
  (forall t, In t (pos_openTabs pos') ->
     tab_id t <> tabId /\ In t (loadOpenTabs user db))
  /\ (forall t, In t (loadOpenTabs user db) -> tab_id t <> tabId ->
        In t (pos_openTabs pos')).
Proof.
  simpl. split.
  - intros t Hin. apply in_loadOpenTabs in Hin as [o (Hin & Hs & Hu & ->)].
    simpl in Hin. apply filter_In in Hin as [Hin Hne].
    assert (Hid : order_id o <> tabId).
    { intros E. rewrite E, String.eqb_refl in Hne. discriminate. }
    split; [exact Hid|]. rewrite (open_tab_after_delete _ _ _ Hid).
    apply in_loadOpenTabs. exists o. auto.
  - intros t Hin Hne. apply in_loadOpenTabs in Hin as [o (Hin & Hs & Hu & ->)].
    simpl in Hne. rewrite <- (open_tab_after_delete tabId db o Hne).
    apply in_loadOpenTabs. exists o. repeat split; auto.
    simpl. apply filter_In. split; [exact Hin|].
    destruct (order_id o =? tabId)%string eqn:E; [|reflexivity].
    apply String.eqb_eq in E. contradiction.
Qed.

(** ** Routes *)

(** X17. Route guards: every route settles on a page after at most two
    redirects.  Without a logged-in user that page is the login page.  A
    logged-in user is shown the page the route is declared for, unless
    the route is for admins (shots, users, reports, specials) and the
    user is not one: then the page is the dashboard.  So a page for
    admins is shown to an admin only, and the POS route shows the POS to
    every logged-in user.  The two routes without a page of their own
    lead to the login page. *)
Theorem routes_guard_pages (user : option User) (r : RouteEntry) :
  exists p, page_shown 2 user r = Some p
    /\ (user = None -> p = LoginPage)
    /\ (admin_page p = true -> exists u, user = Some u /\ user_role u = admin)
    /\ (forall u, user = Some u -> r = PosRoute -> p = POSPage)
    /\ (forall u, user = Some u -> admin_route r = true -> user_role u <> admin ->
          p = DashboardPage)
    /\ (forall u q, user = Some u -> route_page r = Some q ->
          admin_route r = false \/ user_role u = admin -> p = q)
    /\ (route_page r = None -> p = LoginPage).
Proof.
  destruct user as [[uid name role]|].
  - destruct role, r; simpl; eexists; (split; [reflexivity|]);
      (split; [discriminate|]);
      (split; [simpl; intros Ha; try discriminate Ha; eexists; split; reflexivity|]);
      (split; [intros u _ Hr; try discriminate Hr; reflexivity|]);
      (split; [intros u Hu Ha Hn; injection Hu as <-; try discriminate Ha;
               try reflexivity; exfalso; apply Hn; reflexivity|]);
      (split; [intros u q Hu Hq [Ha|Ha]; injection Hu as <-; try discriminate Hq;
               try discriminate Ha; injection Hq as <-; reflexivity
              |intros Hq; try discriminate Hq; reflexivity]).
  - destruct r; simpl; eexists; (split; [reflexivity|]);
      (split; [reflexivity|]); (split; [discriminate|]);
      (split; [intros u Hu; discriminate Hu|]);
      (split; [intros u Hu; discriminate Hu|]);
      (split; [intros u q Hu; discriminate Hu | reflexivity]).
Qed.

(** ** Login *)

Lemma login_cases query username pin :
  (query username = Thrown /\ login query username pin = (None, Some login_failed))
  \/ (query username = Failed /\ login query username pin = (None, Some database_error))
  \/ (query username = Data [] /\ login query username pin = (None, Some invalid_username))
  \/ (exists u rest, query username = Data (u :: rest)
        /\ ((row_pin u <> pin /\ login query username pin = (None, Some invalid_pin))
            \/ (row_pin u = pin /\ login query username pin = (Some u, None)))).
Proof.
  unfold login. destruct (query username) as [[|u rest]| |]; auto.
  right. right. right. exists u, rest. split; [reflexivity|].
  destruct (String.eqb_spec (row_pin u) pin); simpl; [right | left]; auto.
Qed.

Section LoginProperties.

Variable ilike : string -> string -> bool.

Lemma users_query_first db username u rest :
  users_query ilike db username = Data (u :: rest) ->
  In u (users db) /\ ilike (row_username u) username = true
  /\ hd_error (filter (fun r => ilike (row_username r) username) (users db)) = Some u.
Proof.
  unfold users_query. intros H. injection H as H.
  destruct (filter _ (users db)) as [|x l] eqn:F; [discriminate|].
  simpl in H. injection H as -> _.
  assert (Hin : In u (filter (fun r => ilike (row_username r) username) (users db)))
    by (rewrite F; left; reflexivity).
  apply filter_In in Hin as [Hin Hm]. auto.
Qed.

(** X18. [login] hands out a user only when the query answered with
    rows and the PIN typed is the PIN of the first of them; no error
    comes with the user.  Otherwise it hands out no user and one error:
    "Login failed..." when the call threw, "Database error..." when the
    store answered with an error, "Invalid username" when no row came
    back, "Invalid PIN" when the PIN differs.  Against a store that
    answers, the user handed out is the first row of [users] whose
    username matches.  The login form changes the current user only on
    such a success, and then goes to the dashboard; on every error it
    shows "Incorrect credentials" and stays. *)
Theorem login_needs_the_pin (query : string -> Reply (list UserRow))
    (username pin : string) :
  (forall u, fst (login query username pin) = Some u ->
     (exists rest, query username = Data (u :: rest))
     /\ row_pin u = pin
     /\ snd (login query username pin) = None)
  /\ (fst (login query username pin) = None ->
      (query username = Thrown /\ snd (login query username pin) = Some login_failed)
      \/ (query username = Failed /\ snd (login query username pin) = Some database_error)
      \/ (query username = Data []
          /\ snd (login query username pin) = Some invalid_username)
      \/ (exists u rest, query username = Data (u :: rest) /\ row_pin u <> pin
            /\ snd (login query username pin) = Some invalid_pin))
  /\ (forall db u, query = users_query ilike db ->
        fst (login query username pin) = Some u ->
        In u (users db) /\ ilike (row_username u) username = true
        /\ hd_error (filter (fun r => ilike (row_username r) username) (users db)) = Some u)
  /\ (forall current,
        (fst (login query username pin) = None
         /\ login_submit query current username pin
            = (current, incorrect_credentials, None))
        \/ exists u, fst (login query username pin) = Some u /\ row_pin u = pin
             /\ login_submit query current username pin
                = (Some (row_user u), EmptyString, Some DashboardRoute)).
Proof.
  destruct (login_cases query username pin)
    as [[Q E]|[[Q E]|[[Q E]|(u & rest & Q & [[Hp E]|[Hp E]])]]].
  - split; [|split; [|split]].
    + intros v Hv. rewrite E in Hv. discriminate.
    + intros _. rewrite E. left. auto.
    + intros db v _ Hv. rewrite E in Hv. discriminate.
    + intros current. left. unfold login_submit. rewrite E. auto.
  - split; [|split; [|split]].
    + intros v Hv. rewrite E in Hv. discriminate.
    + intros _. rewrite E. right. left. auto.
    + intros db v _ Hv. rewrite E in Hv. discriminate.
    + intros current. left. unfold login_submit. rewrite E. auto.
  - split; [|split; [|split]].
    + intros v Hv. rewrite E in Hv. discriminate.
    + intros _. rewrite E. right. right. left. auto.
    + intros db v _ Hv. rewrite E in Hv. discriminate.
    + intros current. left. unfold login_submit. rewrite E. auto.
  - split; [|split; [|split]].
    + intros v Hv. rewrite E in Hv. discriminate.
    + intros _. rewrite E. right. right. right. exists u, rest. auto.
    + intros db v _ Hv. rewrite E in Hv. discriminate.
    + intros current. left. unfold login_submit. rewrite E. auto.
  - split; [|split; [|split]].
    + intros v Hv. rewrite E in Hv. injection Hv as <-.
      rewrite E. split; [exists rest; exact Q | auto].
    + intros Hn. rewrite E in Hn. discriminate.
    + intros db v Hq Hv. rewrite E in Hv. injection Hv as <-.
      rewrite Hq in Q. exact (users_query_first db username u rest Q).
    + intros current. right. exists u. unfold login_submit. rewrite E. auto.
Qed.

End LoginProperties.

(** ** Riders *)




(** ** The properties above on the sample data *)

Section MoreScenarios.

Local Open Scope string_scope.

Lemma cart_stays_well_formed_witness :
  (positive_cart edited_cart /\ unique_lines edited_cart)
  /\ positive_cart (fold_left (fun c a => cart_act a c)
       [ActAddItem coke; ActChange "s-hennessy" (-3) true false;
        ActAddSpecial wings; ActRemove "i-beer" false false] edited_cart).
Proof.
  assert (Hp : positive_cart edited_cart).
  { repeat constructor; simpl; lia. }
  assert (Hu : unique_lines edited_cart).
  { unfold unique_lines. simpl. constructor.
    - intros [H|[]]. discriminate H.
    - constructor; [intros [] | constructor]. }
  split; [split; assumption|].
  exact (proj1 (cart_stays_well_formed _ edited_cart Hp Hu)).
Defined.

Lemma item_lines_stay_within_copy_witness :
  within_copy two_beers
  /\ within_copy (cart_act (ActAddItem beer) two_beers).
Proof.
  assert (Hw : within_copy two_beers).
  { intros ci i [<-|[]] _ _ [= <-]. simpl. lia. }
  split; [exact Hw|].
  apply (item_lines_stay_within_copy (ActAddItem beer) two_beers Hw).
  intros it ci i [= <-] [<-|[]] _ [= <-]. simpl. lia.
Defined.

Lemma untracked_products_have_no_ceiling_witness :
  (shot_absent hennessy two_beers /\ Z.of_nat 1000 <= 2 ^ 53)
  /\ Nat.iter 1000 (addShotToCart hennessy) two_beers
     = (two_beers ++ [shot_line hennessy 1000])%list.
Proof.
  assert (Ha : shot_absent hennessy two_beers).
  { intros ci [<-|[]]. reflexivity. }
  assert (Hb : Z.of_nat 1000 <= 2 ^ 53) by (vm_compute; discriminate).
  split; [split; assumption|].
  exact (proj2 (proj1 untracked_products_have_no_ceiling hennessy two_beers 999%nat Ha) Hb).
Defined.

Lemma remove_undoes_add_witness :
  (absent (item_id coke) two_beers /\ 0 < item_quantity coke)
  /\ removeFromCart (item_id coke) false false (fst (addToCart coke two_beers))
     = two_beers.
Proof.
  assert (Ha : absent (item_id coke) two_beers).
  { intros ci [<-|[]]. reflexivity. }
  assert (HQ : 0 < item_quantity coke) by (simpl; lia).
  split; [split; assumption|].
  exact (proj2 (proj2 remove_undoes_add) coke two_beers Ha HQ).
Defined.

Lemma updateQuantity_to_zero_removes_witness :
  (forall ci, In ci edited_cart -> line_matches "s-hennessy" true false ci = true ->
     quantity ci + (-3) <= 0)
  /\ updateQuantity "s-hennessy" (-3) true false edited_cart = ([own_line beer 2], []).
Proof.
  assert (H : forall ci, In ci edited_cart ->
            line_matches "s-hennessy" true false ci = true -> quantity ci + (-3) <= 0).
  { intros ci [<-|[<-|[]]] Hm; simpl in *; [discriminate Hm | lia]. }
  split; [exact H|].
  exact (proj1 (updateQuantity_to_zero_removes "s-hennessy" (-3) true false edited_cart H)).
Defined.

Lemma saveAsTab_edit_rewrites_one_order_witness :
  (pos_editingTabId editing_pos = Some "t1"
   /\ pos_tableName editing_pos <> EmptyString /\ pos_cart editing_pos <> []
   /\ decimal_10_2 (calculateTotal mary (pos_cart editing_pos)) = Some 174.9%float
   /\ decimal_10_2 (calculateServiceFee mary (pos_cart editing_pos)) = Some 15.9%float)
  /\ map order_id (orders (snd (fst (saveAsTab mary "o9" 200 editing_pos shop_with_tab))))
     = ["t1"]
  /\ In (mkOrder "t1" "Table 4" pending None 174.9%float 15.9%float 100 200 "u-mary")
        (orders (snd (fst (saveAsTab mary "o9" 200 editing_pos shop_with_tab)))).
Proof.
  assert (Hn : pos_tableName editing_pos <> EmptyString) by discriminate.
  assert (Hc : pos_cart editing_pos <> []) by discriminate.
  assert (Ht : decimal_10_2 (calculateTotal mary (pos_cart editing_pos)) = Some 174.9%float)
    by (vm_compute; reflexivity).
  assert (Hf : decimal_10_2 (calculateServiceFee mary (pos_cart editing_pos))
               = Some 15.9%float) by (vm_compute; reflexivity).
  split; [repeat split; assumption|].
  destruct (saveAsTab_edit_rewrites_one_order mary "o9" 200 editing_pos shop_with_tab
              "t1" 174.9%float 15.9%float eq_refl Hn Hc Ht Hf) as (Hids & _ & Hed & _).
  split; [exact Hids|].
  exact (Hed tab_t1 (or_introl eq_refl) eq_refl).
Defined.

(** Mary opens a tab for two beers: the total 9.9 and her fee of 0.9
    are stored as they are. *)
Lemma saveAsTab_new_adds_pending_order_witness :
  (pos_editingTabId stale_price_pos = None
   /\ pos_tableName stale_price_pos <> EmptyString /\ pos_cart stale_price_pos <> []
   /\ order_exists "o1" shop = false
   /\ user_exists (user_id mary) shop = true
   /\ decimal_10_2 (calculateTotal mary (pos_cart stale_price_pos)) = Some 9.9%float
   /\ decimal_10_2 (calculateServiceFee mary (pos_cart stale_price_pos)) = Some 0.9%float
   /\ cart_listed shop (pos_cart stale_price_pos))
  /\ orders (snd (fst (saveAsTab mary "o1" 10 stale_price_pos shop)))
     = [mkOrder "o1" "Table 7" pending None 9.9%float 0.9%float 10 10 "u-mary"]
  /\ order_items (snd (fst (saveAsTab mary "o1" 10 stale_price_pos shop)))
     = [mkOrderLine "o1" "i-beer" "u-mary" 2 4.5%float].
Proof.
  assert (Hn : pos_tableName stale_price_pos <> EmptyString) by discriminate.
  assert (Hc : pos_cart stale_price_pos <> []) by discriminate.
  assert (Ht : decimal_10_2 (calculateTotal mary (pos_cart stale_price_pos))
               = Some 9.9%float) by (vm_compute; reflexivity).
  assert (Hf : decimal_10_2 (calculateServiceFee mary (pos_cart stale_price_pos))
               = Some 0.9%float) by (vm_compute; reflexivity).
  assert (Hl : cart_listed shop (pos_cart stale_price_pos))
    by (intros ci [<-|[]]; reflexivity).
  split; [repeat split; assumption|].
  destruct (saveAsTab_new_adds_pending_order mary "o1" 10 stale_price_pos shop
              9.9%float 0.9%float eq_refl Hn Hc eq_refl eq_refl Ht Hf)
    as (Ho & _ & Hall & _).
  split; [exact Ho | exact (Hall Hl VItem)].
Defined.

Lemma completePayment_quick_sale_adds_paid_order_witness :
  (pos_orderType (quick_pos two_beers "Bar") = quick
   /\ pos_editingTabId (quick_pos two_beers "Bar") = None
   /\ order_exists "o1" shop = false
   /\ user_exists (user_id john) shop = true
   /\ decimal_10_2 (calculateTotal john two_beers) = Some 9%float
   /\ decimal_10_2 (calculateServiceFee john two_beers) = Some 0%float)
  /\ orders (snd (fst (completePayment john "o1" 10 (quick_pos two_beers "Bar") shop)))
     = [mkOrder "o1" "Bar" paid (Some cash) 9%float 0%float 10 10 "u-john"].
Proof.
  assert (Ht : decimal_10_2 (calculateTotal john two_beers) = Some 9%float)
    by (vm_compute; reflexivity).
  assert (Hf : decimal_10_2 (calculateServiceFee john two_beers) = Some 0%float)
    by (vm_compute; reflexivity).
  split; [repeat split; assumption|].
  exact (proj1 (completePayment_quick_sale_adds_paid_order john "o1" 10
                  (quick_pos two_beers "Bar") shop 9%float 0%float
                  eq_refl eq_refl eq_refl eq_refl Ht Hf)).
Defined.

Lemma payment_lowers_current_stock_witness :
  (pos_orderType (quick_pos two_beers "Bar") = quick
   /\ order_exists "o1" shop = false
   /\ NoDup (item_line_ids two_beers) /\ stock_of "i-beer" shop = Some 5)
  /\ stock_of "i-coke"
       (snd (fst (completePayment john "o1" 10 (quick_pos two_beers "Bar") shop)))
     = Some 100
  /\ exists before,
       stock_of "i-beer" shop = Some before
       /\ stock_of "i-beer"
            (snd (fst (completePayment john "o1" 10 (quick_pos two_beers "Bar") shop)))
          = Some (before - 2)
       /\ 0 <= before - 2.
Proof.
  assert (Hnd : NoDup (item_line_ids two_beers)).
  { unfold item_line_ids. simpl. constructor; [intros [] | constructor]. }
  assert (Hcur : forall ci, In ci (pos_cart (quick_pos two_beers "Bar")) ->
            of_variant VItem ci = true ->
            exists i, item ci = PItem i
                      /\ stock_of (item_id i) shop = Some (item_quantity i)
                      /\ quantity ci <= item_quantity i).
  { intros ci [<-|[]] _. exists beer. repeat split. simpl. lia. }
  split; [repeat split; try assumption; reflexivity|].
  destruct (payment_lowers_current_stock john "o1" 10 (quick_pos two_beers "Bar") shop
              eq_refl eq_refl Hnd Hcur) as [Hacc _].
  destruct Hacc as [Hs Ho];
    [reflexivity | vm_compute; discriminate | vm_compute; discriminate |].
  split.
  - apply (Ho "i-coke"). unfold item_line_ids. simpl. intros [H|[]]. discriminate H.
  - apply (Hs (own_line beer 2)); [left; reflexivity | reflexivity].
Defined.

Lemma saveAsTab_proforma_matches_order_witness :
  (pos_tableName editing_pos <> EmptyString /\ pos_cart editing_pos <> []
   /\ savable mary "o9" editing_pos shop_with_tab
   /\ user_exists (user_id mary) shop_with_tab = true
   /\ decimal_10_2 (calculateTotal mary (pos_cart editing_pos)) = Some 174.9%float
   /\ decimal_10_2 (calculateServiceFee mary (pos_cart editing_pos)) = Some 15.9%float)
  /\ exists o p,
       In o (orders (snd (fst (saveAsTab mary "o9" 200 editing_pos shop_with_tab))))
       /\ order_id o = "t1"
       /\ pages_written true (snd (saveAsTab mary "o9" 200 editing_pos shop_with_tab)) = [p]
       /\ pf_table p = order_table_name o
       /\ decimal_10_2 (pf_total p) = Some (order_total o).
Proof.
  assert (Hn : pos_tableName editing_pos <> EmptyString) by discriminate.
  assert (Hc : pos_cart editing_pos <> []) by discriminate.
  assert (Hs : savable mary "o9" editing_pos shop_with_tab).
  { exists tab_t1. repeat split. left. reflexivity. }
  assert (Ht : decimal_10_2 (calculateTotal mary (pos_cart editing_pos)) = Some 174.9%float)
    by (vm_compute; reflexivity).
  assert (Hf : decimal_10_2 (calculateServiceFee mary (pos_cart editing_pos))
               = Some 15.9%float) by (vm_compute; reflexivity).
  split; [repeat split; assumption|].
  destruct (saveAsTab_proforma_matches_order mary "o9" 200 editing_pos shop_with_tab
              174.9%float 15.9%float Hn Hc Hs eq_refl Ht Hf)
    as (o & p & Hin & Hid & _ & _ & Hw & _ & Htb & _ & Hto & _).
  exists o, p. split; [exact Hin|]. split; [exact Hid|].
  split; [exact (Hw true)|]. split; [exact Htb | exact Hto].
Defined.

Lemma clear_cart_keeps_tab_in_hand_witness :
  (order_exists "t1" shop_with_tab = true
   /\ user_exists (user_id mary) shop_with_tab = true
   /\ "Bar" <> EmptyString /\ two_beers <> []
   /\ decimal_10_2 (calculateTotal mary two_beers) = Some 9.9%float
   /\ decimal_10_2 (calculateServiceFee mary two_beers) = Some 0.9%float
   /\ order_exists "o2" shop_with_tab = false)
  /\ order_exists "t1"
       (snd (fst (completePayment mary "o2" 200
                    (refill two_beers "Bar" (clearCart closing_pos)) shop_with_tab)))
     = false.
Proof.
  assert (Hn : "Bar" <> EmptyString) by discriminate.
  assert (Hc : two_beers <> []) by discriminate.
  assert (Ht : decimal_10_2 (calculateTotal mary two_beers) = Some 9.9%float)
    by (vm_compute; reflexivity).
  assert (Hf : decimal_10_2 (calculateServiceFee mary two_beers) = Some 0.9%float)
    by (vm_compute; reflexivity).
  split; [repeat split; assumption|].
  destruct (clear_cart_keeps_tab_in_hand mary "o2" 200
              (open_tab shop_with_tab tab_t1) (idle_pos mary shop_with_tab)
              shop_with_tab two_beers "Bar" 9.9%float 0.9%float
              eq_refl eq_refl Hn Hc Ht Hf) as [_ H].
  exact (proj1 (H eq_refl)).
Defined.

Lemma scan_resolves_to_first_item_witness :
  item_barcode beer = Some "123456793"
  /\ processBarcode [coke; beer; wine] [hennessy] "123456793" []
     = mkScan [own_line beer 1] [] "Beer" ScanSuccess.
Proof.
  split; [reflexivity|].
  assert (H : forall j, In j [coke] -> item_barcode j <> Some "123456793").
  { intros j [<-|[]]. discriminate. }
  exact (proj1 (proj2 (scan_resolves_to_first_item [hennessy] "123456793" [])
                  [coke] beer [wine] H eq_refl)).
Defined.


End MoreScenarios.
